(** * Buyer leads server: validation, update, import and listing

    A shallow embedding of the request handlers of [routes/buyers.js] and of
    the schemas of [utils/validation.js], together with the properties of
    the lead pipeline that are checked against them; then the account
    routes of [routes/auth.js], the middleware of [middleware/auth.js] and
    the migration runner of [scripts/migrate.js].

    Conventions.
    - A JavaScript string is a [string]; one character is one code unit
      (the model covers code units below 256).
    - A JavaScript value is a [jsval]; a plain object is an association
      list in insertion order ([obj]).
    - The schema library (zod, the release that provides [safeExtend]) is
      modelled by the combinators of module [Zod]; its string formats
      ([email], [datetime]), the [errors] property of its error object and
      the built-ins [Date] and [Number] are operations of the class
      [Platform].
    - The store is the pair of tables of the initial migration, with the
      column types and constraints of [buyers]; a statement that violates
      one fails and writes nothing.  The [users] table is a list of rows.
    - The token library and the password library are parameters of the
      account routes and of the middleware; the effect of a migration
      file on the database is a parameter of the migration runner. *)

From Stdlib Require Import ZArith List Bool Ascii String Lia Sorted.
From stdpp Require Import base option gmap.
Import ListNotations.
Local Open Scope string_scope.
Local Open Scope Z_scope.

(** ** JavaScript values *)

Inductive jsval : Type :=
| JUndefined
| JNull
| JBool (b : bool)
| JNum (n : Z)            (* a finite number with an integer value *)
| JNaN
| JStr (s : string)
| JArr (l : list string)  (* an array of strings *)
| JOther.                 (* any other value: a fraction, an object, ... *)

#[global] Instance jsval_eq_dec : EqDecision jsval.
Proof. solve_decision. Defined.

(** [ToBoolean]. [JOther] stands for objects and non-zero fractions only
    where it is tested, so it is truthy. *)
Definition truthy (v : jsval) : bool :=
  match v with
  | JUndefined | JNull | JNaN => false
  | JBool b => b
  | JNum n => negb (n =? 0)
  | JStr s => negb (String.eqb s "")
  | JArr _ | JOther => true
  end.

(** [a || b] *)
Definition js_or (a b : jsval) : jsval := if truthy a then a else b.

(** [a !== b]: primitives by value, two arrays are never the same object
    when they come from different places (a parsed payload and a row read
    from the store), [NaN] differs from itself. *)
Definition strict_neq (a b : jsval) : bool :=
  match a, b with
  | JUndefined, JUndefined => false
  | JNull, JNull => false
  | JBool x, JBool y => negb (Bool.eqb x y)
  | JNum x, JNum y => negb (x =? y)
  | JStr x, JStr y => negb (String.eqb x y)
  | _, _ => true
  end.

(** Plain objects: own properties in insertion order. *)
Definition obj : Type := list (string * jsval).

Fixpoint get (o : obj) (k : string) : jsval :=
  match o with
  | [] => JUndefined
  | (k', v) :: o' => if String.eqb k' k then v else get o' k
  end.

(** [o[k] = v] on an object: overwrite in place or append. *)
Fixpoint set (o : obj) (k : string) (v : jsval) : obj :=
  match o with
  | [] => [(k, v)]
  | (k', v') :: o' =>
      if String.eqb k' k then (k, v) :: o' else (k', v') :: set o' k v
  end.

Definition keys (o : obj) : list string := map fst o.

(** ** Strings *)

Definition is_digit (c : ascii) : bool :=
  let n := nat_of_ascii c in (48 <=? n)%nat && (n <=? 57)%nat.

(** White space of [String.prototype.trim] among the code units below 256. *)
Definition is_space (c : ascii) : bool :=
  let n := nat_of_ascii c in
  ((9 <=? n)%nat && (n <=? 13)%nat) || (n =? 32)%nat || (n =? 160)%nat.

Fixpoint all_chars (p : ascii -> bool) (s : string) : bool :=
  match s with
  | EmptyString => true
  | String c s' => p c && all_chars p s'
  end.

Fixpoint ltrim (s : string) : string :=
  match s with
  | EmptyString => EmptyString
  | String c s' => if is_space c then ltrim s' else s
  end.

(** Drops the trailing white space: a character is kept when it is not a
    space or something is kept after it. *)
Fixpoint rtrim (s : string) : string :=
  match s with
  | EmptyString => EmptyString
  | String c s' =>
      match rtrim s' with
      | EmptyString => if is_space c then EmptyString else String c EmptyString
      | r => String c r
      end
  end.

Definition trim (s : string) : string := rtrim (ltrim s).

(** [s.split(sep)] for a one-character separator: always at least one
    piece. *)
Fixpoint split_on (sep : ascii) (s : string) : list string :=
  match s with
  | EmptyString => [EmptyString]
  | String c s' =>
      if Ascii.eqb c sep then EmptyString :: split_on sep s'
      else match split_on sep s' with
           | [] => [String c EmptyString]
           | p :: ps => String c p :: ps
           end
  end.

(** [arr.join(sep)] and PostgreSQL's [array_to_string] on a text array
    without null elements. *)
Fixpoint join (sep : string) (l : list string) : string :=
  match l with
  | [] => ""
  | [x] => x
  | x :: l' => x ++ sep ++ join sep l'
  end.

Definition comma : ascii := ","%char.

(** An issue of a failed validation: the path of the offending value and
    a message. *)
Definition issue : Type := (list string * string)%type.

(** An identifier of the store: the value of a [UUID] column. *)
Definition uuid : Type := positive.

(** ** What the handlers take from the platform

    The string formats of the schema library and two built-ins of the
    language.  They are not code of this repository; the development is
    parametric in them. *)
Class Platform : Type := {
  (** the format accepted by [z.string().email()] *)
  is_email : string -> bool;
  (** the format accepted by [z.string().datetime()] *)
  is_datetime : string -> bool;
  (** [new Date(s).getTime()], [None] for [NaN] (an invalid date) *)
  Date_getTime : string -> option Z;
  (** [Number(s)] on a string, as [z.coerce.number()] applies it *)
  Number_of_string : string -> jsval;
  (** [error.errors] on the error thrown by [parse]: the issues, or
      [None] where the error object has no property of that name *)
  ZodError_errors : list issue -> option (list issue);
  (** the input function of the [UUID] type of the store: the identifier
      that a text denotes, [None] for a text that is not a UUID, on
      which a statement fails *)
  uuid_in : string -> option uuid;
  (** a datetime starts with the digits of a year *)
  is_datetime_nonempty : is_datetime "" = false
}.

(** ** The schema library *)
Module Zod.

(** A schema for one value.  [run] returns the messages of the issues or
    the parsed value; [optin] tells that the schema accepts [undefined]
    by itself (an optional or a defaulted schema). *)
Record ztype : Type := ZType {
  run : jsval -> list string + jsval;
  optin : bool
}.

Definition is_ok {A B} (r : A + B) : bool :=
  match r with inl _ => false | inr _ => true end.

(** [z.string()] followed by length or format checks; every failing
    check reports. *)
Definition z_string (cks : list (string -> option string)) : ztype :=
  ZType (fun v =>
           match v with
           | JStr s =>
               match omap (fun ck => ck s) cks with
               | [] => inr v
               | errs => inl errs
               end
           | _ => inl ["Invalid input: expected string"]
           end) false.

Definition ck_min (n : nat) (msg : string) (s : string) : option string :=
  if (n <=? String.length s)%nat then None else Some msg.
Definition ck_max (n : nat) (msg : string) (s : string) : option string :=
  if (String.length s <=? n)%nat then None else Some msg.
Definition ck_format (p : string -> bool) (msg : string) (s : string)
  : option string :=
  if p s then None else Some msg.

Definition z_enum (vals : list string) : ztype :=
  ZType (fun v =>
           match v with
           | JStr s =>
               if existsb (String.eqb s) vals then inr v
               else inl ["Invalid option"]
           | _ => inl ["Invalid option"]
           end) false.

Definition z_literal (lit : string) : ztype :=
  ZType (fun v =>
           match v with
           | JStr s => if String.eqb s lit then inr v
                       else inl ["Invalid input: expected literal"]
           | _ => inl ["Invalid input: expected literal"]
           end) false.

Definition MAX_SAFE_INTEGER : Z := 2 ^ 53 - 1.

(** [z.number().int().min(lo)], with an optional [.max(hi)]; [int()]
    takes the safe integers. *)
Definition z_int (lo : Z) (hi : option Z) : ztype :=
  ZType (fun v =>
           match v with
           | JNum n =>
               if negb ((- MAX_SAFE_INTEGER <=? n) && (n <=? MAX_SAFE_INTEGER))
               then inl ["Invalid input: expected int"]
               else if n <? lo then inl ["Too small"]
               else match hi with
                    | Some h => if h <? n then inl ["Too big"] else inr v
                    | None => inr v
                    end
           | JOther => inl ["Invalid input: expected int"]
           | _ => inl ["Invalid input: expected number"]
           end) false.

Definition z_array_of_strings : ztype :=
  ZType (fun v =>
           match v with
           | JArr _ => inr v
           | _ => inl ["Invalid input: expected array"]
           end) false.

(** [t.optional()].  A schema that takes [undefined] by itself is run
    on it (a default inside an optional is applied); otherwise
    [undefined] passes through. *)
Definition optional (t : ztype) : ztype :=
  ZType (fun v =>
           if optin t then run t v
           else match v with
                | JUndefined => inr JUndefined
                | _ => run t v
                end) true.

(** [t.default(d)] *)
Definition default (t : ztype) (d : jsval) : ztype :=
  ZType (fun v =>
           match v with
           | JUndefined => inr d
           | _ => run t v
           end) true.

(** [a.or(b)]: the first option that accepts the value.  A value that
    no option accepts is reported here with one issue; the library
    reports the issues of an option instead when that option is the only
    one whose issues do not abort.  Which values are accepted, and with
    what result, is as in the library. *)
Definition or (a b : ztype) : ztype :=
  ZType (fun v =>
           match run a v with
           | inr r => inr r
           | inl _ =>
               match run b v with
               | inr r => inr r
               | inl _ => inl ["Invalid input"]
               end
           end) (optin a || optin b).

(** [t.transform(f)] *)
Definition transform (t : ztype) (f : jsval -> jsval) : ztype :=
  ZType (fun v =>
           match run t v with
           | inr r => inr (f r)
           | inl e => inl e
           end) (optin t).

(** [Number(v)].  An array of strings is first turned into the text of
    its elements with commas between them, so that an array of one
    numeric string is a number; [JOther] stands here for a value that
    [Number] turns into [NaN] or into a fraction. *)
Definition Number_of `{Platform} (v : jsval) : jsval :=
  match v with
  | JUndefined | JNaN | JOther => JNaN
  | JNull => JNum 0
  | JBool b => JNum (if b then 1 else 0)
  | JNum n => JNum n
  | JStr s => Number_of_string s
  | JArr l => Number_of_string (join "," l)
  end.

(** [z.coerce.number().int().min(lo).max(hi)]: the checks are made on
    [Number(v)], which is also the parsed value. *)
Definition z_coerce_int `{Platform} (lo : Z) (hi : option Z) : ztype :=
  ZType (fun v => run (z_int lo hi) (Number_of v)) false.

(** An object schema: the fields in declaration order and the
    refinements attached with [refine]. *)
Record zobject : Type := ZObject {
  shape : list (string * ztype);
  checks : list (obj -> option issue)
}.

Definition z_object (sh : list (string * ztype)) : zobject := ZObject sh [].

(** [o.refine(pred, { message, path })] *)
Definition refine (o : zobject) (pred : obj -> bool) (msg : string)
    (path : list string) : zobject :=
  ZObject (shape o)
          ((checks o ++ [fun data => if pred data then None else Some (path, msg)])%list).

(** [{ ...old, ...new }] on shapes: a key that exists keeps its place. *)
Fixpoint shape_set (sh : list (string * ztype)) (k : string) (t : ztype)
  : list (string * ztype) :=
  match sh with
  | [] => [(k, t)]
  | (k', t') :: sh' =>
      if String.eqb k' k then (k, t) :: sh' else (k', t') :: shape_set sh' k t
  end.

(** [o.safeExtend(ext)]: the fields of [ext] are added or replaced, the
    refinements are kept. *)
Definition safeExtend (o : zobject) (ext : list (string * ztype)) : zobject :=
  ZObject (fold_left (fun sh kt => shape_set sh (fst kt) (snd kt)) ext (shape o))
          (checks o).

(** [o.partial()]: every field becomes optional; the copy starts with
    an empty list of refinements. *)
Definition partial (o : zobject) : zobject :=
  ZObject (map (fun kt => (fst kt, optional (snd kt))) (shape o)) [].

(** The fields, in declaration order: issues carry the key as path; a
    key whose parsed value is [undefined] is left out of the result;
    keys outside the shape are dropped. *)
Fixpoint parse_fields (sh : list (string * ztype)) (input : obj)
  : list issue * obj :=
  match sh with
  | [] => ([], [])
  | (k, t) :: sh' =>
      let (iss, out) := parse_fields sh' input in
      match run t (get input k) with
      | inl msgs => ((map (fun m => ([k], m)) msgs ++ iss)%list, out)
      | inr JUndefined => (iss, out)
      | inr v => (iss, (k, v) :: out)
      end
  end.

(** [o.safeParse(input)]: the refinements run only when no field has
    an issue, and then all of them run.  Which inputs are accepted, and
    with what result, is as in the library.  The issues of a rejected
    input are those of the field pass: the library also runs the
    refinements when the issues of the fields are all of the kind that
    does not abort (a failed length or format check), and then reports
    their issues too. *)
Definition parse (o : zobject) (input : obj) : list issue + obj :=
  match parse_fields (shape o) input with
  | ([], out) =>
      match omap (fun ck => ck out) (checks o) with
      | [] => inr out
      | iss => inl iss
      end
  | (iss, _) => inl iss
  end.

End Zod.

Import Zod.

(** ** The schemas of [utils/validation.js] *)
Section Validation.
Context `{Platform}.

Definition CityEnum : ztype :=
  z_enum ["Chandigarh"; "Mohali"; "Zirakpur"; "Panchkula"; "Other"].
Definition PropertyTypeEnum : ztype :=
  z_enum ["Apartment"; "Villa"; "Plot"; "Office"; "Retail"].
Definition BHKEnum : ztype := z_enum ["1"; "2"; "3"; "4"; "Studio"].
Definition PurposeEnum : ztype := z_enum ["Buy"; "Rent"].
Definition TimelineEnum : ztype := z_enum ["0-3m"; "3-6m"; ">6m"; "Exploring"].
Definition SourceEnum : ztype :=
  z_enum ["Website"; "Referral"; "Walk-in"; "Call"; "Other"].
Definition StatusEnum : ztype :=
  z_enum ["New"; "Qualified"; "Contacted"; "Visited"; "Negotiation";
          "Converted"; "Dropped"].

(** [/^\d{10,15}$/] *)
Definition phone_re (s : string) : bool :=
  (10 <=? String.length s)%nat && (String.length s <=? 15)%nat
  && all_chars is_digit s.

Definition phoneSchema : ztype :=
  z_string [ck_format phone_re "Phone must be 10-15 digits"].

(** [list.includes(v)] for a list of strings *)
Definition includes (l : list string) (v : jsval) : bool :=
  match v with
  | JStr s => existsb (String.eqb s) l
  | _ => false
  end.

(** [a >= b]; it is reached with two numbers only. *)
Definition js_ge (a b : jsval) : bool :=
  match a, b with
  | JNum x, JNum y => y <=? x
  | _, _ => false
  end.

(** The predicate of the first refinement of [buyerSchema]. *)
Definition bhk_rule (data : obj) : bool :=
  if includes ["Apartment"; "Villa"] (get data "propertyType")
     && negb (truthy (get data "bhk"))
  then false
  else true.

(** The predicate of the second refinement of [buyerSchema]. *)
Definition budget_rule (data : obj) : bool :=
  if truthy (get data "budgetMin") && truthy (get data "budgetMax")
  then js_ge (get data "budgetMax") (get data "budgetMin")
  else true.

Definition fullName_type : ztype :=
  z_string [ck_min 2 "Full name must be at least 2 characters";
            ck_max 80 "Full name must be less than 80 characters"].

Definition email_type : ztype :=
  or (optional (z_string [ck_format is_email "Invalid email format"]))
     (z_literal "").

Definition budget_type : ztype := optional (z_int 0 None).

Definition status_type : ztype := default StatusEnum (JStr "New").

Definition notes_type : ztype :=
  optional (z_string [ck_max 1000 "Notes must be less than 1000 characters"]).

Definition tags_type : ztype := default (optional z_array_of_strings) (JArr []).

Definition buyerFields : list (string * ztype) :=
  [ ("fullName", fullName_type);
    ("email", email_type);
    ("phone", phoneSchema);
    ("city", CityEnum);
    ("propertyType", PropertyTypeEnum);
    ("bhk", optional BHKEnum);
    ("purpose", PurposeEnum);
    ("budgetMin", budget_type);
    ("budgetMax", budget_type);
    ("timeline", TimelineEnum);
    ("source", SourceEnum);
    ("status", status_type);
    ("notes", notes_type);
    ("tags", tags_type) ].

Definition buyerSchema : zobject :=
  refine
    (refine (z_object buyerFields)
            bhk_rule
            "BHK is required for Apartment and Villa property types" ["bhk"])
    budget_rule
    "Budget max must be greater than or equal to budget min" ["budgetMax"].

(** The transform of the [tags] column of a CSV row. *)
Definition csv_tags (val : jsval) : jsval :=
  match val with
  | JStr s =>
      if negb (truthy val) then JArr []
      else JArr (List.filter (fun tag => (0 <? String.length tag)%nat)
                             (map trim (split_on comma s)))
  | _ => JArr []
  end.

Definition csv_tags_type : ztype :=
  transform (optional (z_string [])) csv_tags.

Definition csvRowSchema : zobject :=
  safeExtend buyerSchema [("tags", csv_tags_type)].

(** [z.string().datetime().optional()] *)
Definition updatedAt_type : ztype :=
  optional (z_string [ck_format is_datetime "Invalid ISO datetime"]).

Definition updateBuyerSchema : zobject :=
  safeExtend (partial buyerSchema) [("updatedAt", updatedAt_type)].

Definition sortBy_type : ztype :=
  default (or (z_enum ["updatedAt"; "fullName"; "createdAt"]) (z_literal ""))
          (JStr "updatedAt").

Definition filtersSchema : zobject :=
  z_object
    [ ("city", or (optional CityEnum) (z_literal ""));
      ("propertyType", or (optional PropertyTypeEnum) (z_literal ""));
      ("status", or (optional StatusEnum) (z_literal ""));
      ("timeline", or (optional TimelineEnum) (z_literal ""));
      ("search", or (optional (z_string [])) (z_literal ""));
      ("page", default (or (z_coerce_int 1 None) (z_literal "")) (JNum 1));
      ("limit",
        default (or (z_coerce_int 1 (Some 100)) (z_literal "")) (JNum 10));
      ("sortBy", sortBy_type);
      ("sortOrder",
        default (or (z_enum ["asc"; "desc"]) (z_literal "")) (JStr "desc")) ].

End Validation.

(** ** The store

    The tables [buyers] and [buyer_history] of the initial migration.  A
    row of [buyers] is what [SELECT *] hands to a handler: the fourteen
    data columns by name ([NULL] is [JNull]), the owner and the two
    timestamps, which are instants in milliseconds as a [Date] carries
    them. *)
Record buyer : Type := Buyer {
  b_id : uuid;
  b_cols : obj;
  b_owner : uuid;
  b_created : Z;
  b_updated : Z
}.

(** The [diff] column of a history row, before [JSON.stringify]. *)
Inductive diff : Type :=
| DCreated (data : obj)
| DUpdated (changes : list (string * (jsval * jsval)))
| DImported (data : obj).

Record history_row : Type := HistoryRow {
  h_buyer : uuid;
  h_changed_by : uuid;
  h_changed_at : Z;
  h_diff : diff
}.

Record db : Type := Db {
  buyers : gmap uuid buyer;
  history : list history_row
}.

Definition INT4_MAX : Z := 2147483647.

Definition col_enum (nullable : bool) (vals : list string) (v : jsval) : bool :=
  match v with
  | JNull => nullable
  | JStr s => existsb (String.eqb s) vals
  | _ => false
  end.

(** A text of the store holds no code unit 0. *)
Definition no_nul (s : string) : bool :=
  all_chars (fun c => negb (Ascii.eqb c zero)) s.

Definition col_text (nullable : bool) (lo hi : nat) (v : jsval) : bool :=
  match v with
  | JNull => nullable
  | JStr s => (lo <=? String.length s)%nat && (String.length s <=? hi)%nat
              && no_nul s
  | _ => false
  end.

Definition col_budget (v : jsval) : bool :=
  match v with
  | JNull => true
  | JNum n => (0 <=? n) && (n <=? INT4_MAX)
  | _ => false
  end.

Definition col_tags (v : jsval) : bool :=
  match v with
  | JNull => true
  | JArr l => forallb no_nul l
  | _ => false
  end.

(** [CONSTRAINT budget_check] *)
Definition budget_check (c : obj) : bool :=
  match get c "budget_min", get c "budget_max" with
  | JNum lo, JNum hi => lo <=? hi
  | _, _ => true
  end.

(** [CONSTRAINT bhk_required_check] *)
Definition bhk_required_check (c : obj) : bool :=
  match get c "property_type" with
  | JStr p =>
      negb (existsb (String.eqb p) ["Apartment"; "Villa"])
      || negb (if decide (get c "bhk" = JNull) then true else false)
  | _ => true
  end.

Definition data_columns : list string :=
  ["full_name"; "email"; "phone"; "city"; "property_type"; "bhk"; "purpose";
   "budget_min"; "budget_max"; "timeline"; "source"; "status"; "notes";
   "tags"].

(** The column types, [NOT NULL] and [CHECK] constraints of [buyers]: a
    statement that would leave a row outside of them fails. *)
Definition row_ok (c : obj) : bool :=
  (if decide (keys c = data_columns) then true else false)
  && col_text false 2 80 (get c "full_name")
  && col_text true 0 255 (get c "email")
  && match get c "phone" with
     | JStr s => (10 <=? String.length s)%nat && (String.length s <=? 15)%nat
                 && all_chars is_digit s
     | _ => false
     end
  && col_enum false ["Chandigarh"; "Mohali"; "Zirakpur"; "Panchkula"; "Other"]
       (get c "city")
  && col_enum false ["Apartment"; "Villa"; "Plot"; "Office"; "Retail"]
       (get c "property_type")
  && col_enum true ["1"; "2"; "3"; "4"; "Studio"] (get c "bhk")
  && col_enum false ["Buy"; "Rent"] (get c "purpose")
  && col_budget (get c "budget_min")
  && col_budget (get c "budget_max")
  && col_enum false ["0-3m"; "3-6m"; ">6m"; "Exploring"] (get c "timeline")
  && col_enum false ["Website"; "Referral"; "Walk-in"; "Call"; "Other"]
       (get c "source")
  && col_enum true ["New"; "Qualified"; "Contacted"; "Visited"; "Negotiation";
                    "Converted"; "Dropped"] (get c "status")
  && col_text true 0 1000 (get c "notes")
  && col_tags (get c "tags")
  && budget_check c
  && bhk_required_check c.

(** [SELECT * FROM buyers WHERE id = $1] *)
Definition select_buyer (d : db) (id : uuid) : option buyer := buyers d !! id.

(** One assignment of a [SET] list.  [owner_id = $k] gives the lead to
    the user that the parameter denotes (taken to be a row of [users]),
    and fails on a parameter that is not the text of a UUID; an
    assignment to any other name is one to a data column (a name
    outside of the fourteen leaves a row that [row_ok] refuses, as an
    unknown column makes the statement fail).  Assignments to [id] and
    to the timestamps are not modelled. *)
Definition assign_column `{Platform} (b : buyer) (kv : string * jsval)
    : option buyer :=
  if String.eqb (fst kv) "owner_id" then
    match snd kv with
    | JStr s =>
        match uuid_in s with
        | Some owner =>
            Some (Buyer (b_id b) (b_cols b) owner (b_created b) (b_updated b))
        | None => None
        end
    | _ => None
    end
  else
    Some (Buyer (b_id b) (set (b_cols b) (fst kv) (snd kv)) (b_owner b)
            (b_created b) (b_updated b)).

Fixpoint assign_columns `{Platform} (b : buyer) (sets : list (string * jsval))
    : option buyer :=
  match sets with
  | [] => Some b
  | kv :: rest =>
      match assign_column b kv with
      | Some b1 => assign_columns b1 rest
      | None => None
      end
  end.

(** [UPDATE buyers SET col = v, ..., updated_at = CURRENT_TIMESTAMP WHERE
    id = $n RETURNING *] on a row that the handler has just read: [None]
    when an assignment fails or the new row violates a constraint (or
    there is no row), and then nothing is written. *)
Definition update_buyer `{Platform} (d : db) (id : uuid)
    (sets : list (string * jsval)) (now : Z) : option (db * buyer) :=
  match buyers d !! id with
  | None => None
  | Some b =>
      match assign_columns b sets with
      | None => None
      | Some b1 =>
          if row_ok (b_cols b1) then
            let b' := Buyer (b_id b1) (b_cols b1) (b_owner b1) (b_created b1)
                        now in
            Some (Db (<[id := b']> (buyers d)) (history d), b')
          else None
      end
  end.

(** [INSERT INTO buyer_history (buyer_id, changed_by, diff)], the
    statement of [recordHistory] and of the import transaction. *)
Definition recordHistory (d : db) (buyerId changedBy : uuid) (df : diff)
    (now : Z) : db :=
  Db (buyers d) (history d ++ [HistoryRow buyerId changedBy now df])%list.

(** [INSERT INTO buyers (...) VALUES (...) RETURNING *] with a generated
    identifier; [None] when a constraint is violated. *)
Definition insert_buyer (d : db) (cols : obj) (owner : uuid) (now : Z)
    : option (db * buyer) :=
  if row_ok cols then
    let id := fresh (dom (buyers d)) in
    let b := Buyer id cols owner now now in
    Some (Db (<[id := b]> (buyers d)) (history d), b)
  else None.

(** ** The handlers of [routes/buyers.js] *)

(** [req.user], set by the authentication middleware. *)
Record user : Type := User { u_id : uuid; u_role : string }.

Definition checkOwnership (u : user) (buyerOwnerId : uuid) : bool :=
  String.eqb (u_role u) "admin" || Pos.eqb (u_id u) buyerOwnerId.

(** The texts of a payload that go to text columns hold no code unit
    0: the name, the email, the notes and every tag. *)
Definition text_free_of_nul (v : jsval) : bool :=
  match v with
  | JStr s => no_nul s
  | JArr l => forallb no_nul l
  | _ => true
  end.

Definition payload_free_of_nul (data : obj) : bool :=
  text_free_of_nul (get data "fullName")
  && text_free_of_nul (get data "email")
  && text_free_of_nul (get data "notes")
  && text_free_of_nul (get data "tags").

(** A query parameter: [undefined] is sent as [NULL]. *)
Definition sql_param (v : jsval) : jsval :=
  match v with
  | JUndefined => JNull
  | _ => v
  end.

(** The parameter list of the [INSERT INTO buyers] of the create and the
    import handlers, by column. *)
Definition insert_columns (data : obj) : obj :=
  [ ("full_name", sql_param (get data "fullName"));
    ("email", js_or (get data "email") JNull);
    ("phone", sql_param (get data "phone"));
    ("city", sql_param (get data "city"));
    ("property_type", sql_param (get data "propertyType"));
    ("bhk", js_or (get data "bhk") JNull);
    ("purpose", sql_param (get data "purpose"));
    ("budget_min", js_or (get data "budgetMin") JNull);
    ("budget_max", js_or (get data "budgetMax") JNull);
    ("timeline", sql_param (get data "timeline"));
    ("source", sql_param (get data "source"));
    ("status", js_or (get data "status") (JStr "New"));
    ("notes", js_or (get data "notes") JNull);
    ("tags", js_or (get data "tags") (JArr [])) ].

Definition fieldMapping : list (string * string) :=
  [ ("fullName", "full_name"); ("email", "email"); ("phone", "phone");
    ("city", "city"); ("propertyType", "property_type"); ("bhk", "bhk");
    ("purpose", "purpose"); ("budgetMin", "budget_min");
    ("budgetMax", "budget_max"); ("timeline", "timeline");
    ("source", "source"); ("status", "status"); ("notes", "notes");
    ("tags", "tags") ].

Fixpoint mapping_get (m : list (string * string)) (k : string) : option string :=
  match m with
  | [] => None
  | (k', c) :: m' => if String.eqb k' k then Some c else mapping_get m' k
  end.

(** The [changes] object of the update handler. *)
Definition changeset : Type := list (string * (jsval * jsval)).

Fixpoint changes_set (cs : changeset) (k : string) (ft : jsval * jsval)
  : changeset :=
  match cs with
  | [] => [(k, ft)]
  | (k', ft') :: cs' =>
      if String.eqb k' k then (k, ft) :: cs' else (k', ft') :: changes_set cs' k ft
  end.

Fixpoint changes_get (cs : changeset) (k : string) : option (jsval * jsval) :=
  match cs with
  | [] => None
  | (k', ft) :: cs' => if String.eqb k' k then Some ft else changes_get cs' k
  end.

(** [value === "" ? null : value] *)
Definition empty_to_null (value : jsval) : jsval :=
  if decide (value = JStr "") then JNull else value.

(** One turn of the loop over [Object.entries(validatedData)]: the state
    is the list of assignments (column, parameter) and [changes]. *)
Definition update_step (currentBuyer : obj)
    (st : list (string * jsval) * changeset) (entry : string * jsval)
    : list (string * jsval) * changeset :=
  let (key, value) := entry in
  if String.eqb key "updatedAt" then st
  else
    match mapping_get fieldMapping key, value with
    | None, _ => st
    | Some _, JUndefined => st
    | Some dbField, _ =>
        let (sets, changes) := st in
        ((sets ++ [(dbField, empty_to_null value)])%list,
         if strict_neq (get currentBuyer dbField) value
         then changes_set changes key (get currentBuyer dbField, value)
         else changes)
    end.

Definition update_loop (currentBuyer : obj) (validatedData : obj)
    : list (string * jsval) * changeset :=
  fold_left (update_step currentBuyer) validatedData ([], []).

Inductive put_response : Type :=
| PutValidationFailed (details : option (list issue))  (* 400 *)
| PutNotFound                                     (* 404 *)
| PutForbidden                                    (* 403 *)
| PutConflict (currentUpdatedAt : Z)              (* 409 *)
| PutNoFields                                     (* 400 *)
| PutOk (b : buyer)                               (* 200 *)
| PutServerError.                                 (* 500 *)

Inductive post_response : Type :=
| PostValidationFailed (details : option (list issue)) (* 400 *)
| PostCreated (b : buyer)                         (* 201 *)
| PostServerError.                                (* 500 *)

Section Handlers.
Context `{Platform}.

(** [POST /]; [now] is the clock of the store during the request. *)
Definition post_buyer (d : db) (u : user) (body : obj) (now : Z)
    : db * post_response :=
  match parse buyerSchema body with
  | inl iss => (d, PostValidationFailed (ZodError_errors iss))
  | inr validatedData =>
      match insert_buyer d (insert_columns validatedData) (u_id u) now with
      | None => (d, PostServerError)
      | Some (d1, b) =>
          (recordHistory d1 (b_id b) (u_id u) (DCreated validatedData) now,
           PostCreated b)
      end
  end.

(** The concurrency test: the token and the stored timestamp are both
    turned into a [Date] and their [getTime()] are compared. *)
Definition stale (validatedData : obj) (currentBuyer : buyer) : bool :=
  if truthy (get validatedData "updatedAt") then
    match get validatedData "updatedAt" with
    | JStr token =>
        match Date_getTime token with
        | Some providedTime => negb (providedTime =? b_updated currentBuyer)
        | None => true
        end
    | _ => true
    end
  else false.

(** [PUT /:id] from the point where the payload is validated. *)
Definition put_validated (d : db) (u : user) (id : uuid)
    (validatedData : obj) (now : Z) : db * put_response :=
  match select_buyer d id with
  | None => (d, PutNotFound)
  | Some currentBuyer =>
      if negb (checkOwnership u (b_owner currentBuyer)) then (d, PutForbidden)
      else if stale validatedData currentBuyer
      then (d, PutConflict (b_updated currentBuyer))
      else
        let (sets, changes) := update_loop (b_cols currentBuyer) validatedData in
        match sets with
        | [] => (d, PutNoFields)
        | _ =>
            match update_buyer d id sets now with
            | None => (d, PutServerError)
            | Some (d1, updatedBuyer) =>
                match changes with
                | [] => (d1, PutOk updatedBuyer)
                | _ =>
                    (recordHistory d1 id (u_id u) (DUpdated changes) now,
                     PutOk updatedBuyer)
                end
            end
        end
  end.

(** [PUT /:id] *)
Definition put_buyer (d : db) (u : user) (id : uuid) (body : obj) (now : Z)
    : db * put_response :=
  match parse updateBuyerSchema body with
  | inl iss => (d, PutValidationFailed (ZodError_errors iss))
  | inr validatedData => put_validated d u id validatedData now
  end.

End Handlers.

(** ** [Number.parseInt] *)

Definition dec_val (c : ascii) : option Z :=
  if is_digit c then Some (Z.of_nat (nat_of_ascii c) - 48) else None.

Definition hex_val (c : ascii) : option Z :=
  let n := Z.of_nat (nat_of_ascii c) in
  if is_digit c then Some (n - 48)
  else if (97 <=? n) && (n <=? 102) then Some (n - 87)
  else if (65 <=? n) && (n <=? 70) then Some (n - 55)
  else None.

(** The value of the longest prefix of digits; [acc] is [None] until a
    digit is read. *)
Fixpoint parse_digits (dv : ascii -> option Z) (radix : Z) (s : string)
    (acc : option Z) : option Z :=
  match s with
  | EmptyString => acc
  | String c s' =>
      match dv c with
      | Some v =>
          parse_digits dv radix s'
            (Some (radix * match acc with Some a => a | None => 0 end + v))
      | None => acc
      end
  end.

(** [Number.parseInt(s)] without a radix: leading white space, a sign,
    [0x] for base sixteen, then the longest prefix of digits. *)
Definition parseInt (s : string) : jsval :=
  let s1 := ltrim s in
  let (neg, s2) :=
    match s1 with
    | String c r =>
        if Ascii.eqb c "-" then (true, r)
        else if Ascii.eqb c "+" then (false, r)
        else (false, s1)
    | EmptyString => (false, s1)
    end in
  let digits :=
    match s2 with
    | String c0 (String c1 r) =>
        if Ascii.eqb c0 "0" && (Ascii.eqb c1 "x" || Ascii.eqb c1 "X")
        then parse_digits hex_val 16 r None
        else parse_digits dec_val 10 s2 None
    | _ => parse_digits dec_val 10 s2 None
    end in
  match digits with
  | Some n => JNum (if neg : bool then - n else n)
  | None => JNaN
  end.

(** ** [String(n)] for an integer *)

Definition digit_char (d : Z) : ascii := ascii_of_nat (48 + Z.to_nat d).

(** The decimal digits of a natural number, most significant first;
    [fuel] bounds their number. *)
Fixpoint digits (fuel : nat) (n : Z) : string :=
  match fuel with
  | O => ""
  | S fuel' =>
      if n <? 10 then String (digit_char n) ""
      else digits fuel' (n / 10) ++ String (digit_char (n mod 10)) ""
  end.

Definition decimal (n : Z) : string :=
  if n <? 0 then String "-" (digits (S (Z.to_nat (Z.log2 (- n)))) (- n))
  else digits (S (Z.to_nat (Z.log2 n))) n.

(** The outcomes of [PUT /:id] that report a refusal to the caller. *)
Definition put_failed (r : put_response) : bool :=
  match r with
  | PutValidationFailed _ | PutNotFound | PutForbidden | PutConflict _
  | PutNoFields => true
  | PutOk _ | PutServerError => false
  end.

(** What the loop of the update handler records for one key of the
    validated payload, read off [update_step]. *)
Definition change_of (cols : obj) (k : string) (value : jsval)
  : option (jsval * jsval) :=
  if String.eqb k "updatedAt" then None
  else match mapping_get fieldMapping k, value with
       | None, _ => None
       | Some _, JUndefined => None
       | Some dbField, _ =>
           if strict_neq (get cols dbField) value
           then Some (get cols dbField, value) else None
       end.

(** The column that the loop of the update handler assigns for one key
    of the validated payload, read off [update_step]. *)
Definition assigned_column (k : string) (value : jsval) : option string :=
  if String.eqb k "updatedAt" then None
  else match mapping_get fieldMapping k, value with
       | None, _ => None
       | Some _, JUndefined => None
       | Some dbField, _ => Some dbField
       end.

Definition assignment (entry : string * jsval) : option (string * jsval) :=
  match assigned_column (fst entry) (snd entry) with
  | Some dbField => Some (dbField, empty_to_null (snd entry))
  | None => None
  end.

(** The columns after an update that supplies stored values only,
    against the columns before: the same value; null where the empty
    string was stored; and the value that the update schema puts in for
    an absent [status] or [tags]. *)
Definition kept_or_defaulted (cols0 cols1 : obj) : Prop :=
  keys cols1 = keys cols0
  /\ forall c, get cols1 c = get cols0 c
               \/ (get cols0 c = JStr "" /\ get cols1 c = JNull)
               \/ (c = "status" /\ get cols1 c = JStr "New")
               \/ (c = "tags" /\ get cols1 c = JArr []).

(** ** [GET /]: from the query string to the statement *)

Definition validSortColumns : list (string * string) :=
  [ ("updatedAt", "b.updated_at"); ("fullName", "b.full_name");
    ("createdAt", "b.created_at") ].

(** [s.toUpperCase()] on the letters a to z. *)
Definition upper_char (c : ascii) : ascii :=
  let n := nat_of_ascii c in
  if (97 <=? n)%nat && (n <=? 122)%nat then ascii_of_nat (n - 32) else c.

Fixpoint toUpperCase (s : string) : string :=
  match s with
  | EmptyString => EmptyString
  | String c s' => String (upper_char c) (toUpperCase s')
  end.

(** [ToNumber] on what the filter schema lets through for [page] and
    [limit]: a number, or the empty string, which counts as zero. *)
Definition to_number (v : jsval) : jsval :=
  match v with
  | JNum n => JNum n
  | JStr "" => JNum 0
  | _ => JNaN
  end.

Definition js_sub (a b : jsval) : jsval :=
  match to_number a, to_number b with
  | JNum x, JNum y => JNum (x - y)
  | _, _ => JNaN
  end.

Definition js_mul (a b : jsval) : jsval :=
  match to_number a, to_number b with
  | JNum x, JNum y => JNum (x * y)
  | _, _ => JNaN
  end.

Definition str_of (v : jsval) : string :=
  match v with
  | JStr s => s
  | _ => ""
  end.

(** The statement that the list handler sends to the store: the
    equality filters with their parameters, the search pattern, the text
    after [ORDER BY] (column and direction) and the two pagination
    parameters. *)
Record list_query : Type := ListQuery {
  q_filters : list (string * jsval);
  q_search : option string;
  q_order_column : string;
  q_order_direction : string;
  q_limit : jsval;
  q_offset : jsval
}.

Definition add_filter (column : string) (v : jsval)
    (fs : list (string * jsval)) : list (string * jsval) :=
  if truthy v then (fs ++ [(column, v)])%list else fs.

Section ListHandler.
Context `{Platform}.

(** The statement built from the validated filters. *)
Definition build_list_query (filters : obj) : list_query :=
  let fs :=
    add_filter "b.timeline" (get filters "timeline")
      (add_filter "b.status" (get filters "status")
         (add_filter "b.property_type" (get filters "propertyType")
            (add_filter "b.city" (get filters "city") []))) in
  ListQuery fs
    (if truthy (get filters "search")
     then Some ("%" ++ str_of (get filters "search") ++ "%")
     else None)
    (match mapping_get validSortColumns (str_of (get filters "sortBy")) with
     | Some column => column
     | None => "undefined"
     end)
    (toUpperCase (str_of (get filters "sortOrder")))
    (get filters "limit")
    (js_mul (js_sub (get filters "page") (JNum 1)) (get filters "limit")).

(** [GET /] up to the call of the store: the issues of the filter schema
    (the handler answers 500) or the statement. *)
Definition list_buyers_query (query : obj) : list issue + list_query :=
  match parse filtersSchema query with
  | inl iss => inl iss
  | inr filters => inr (build_list_query filters)
  end.

End ListHandler.

(** ** [POST /import], from the parsed rows on *)

(** The typed copy of a CSV row that is handed to the schema. *)
Definition parse_budget (v : jsval) : jsval :=
  if truthy v then
    match v with
    | JStr s => parseInt s
    | _ => JNaN
    end
  else JUndefined.

Definition processedRow (row : obj) : obj :=
  set (set (set row "budgetMin" (parse_budget (get row "budgetMin")))
           "budgetMax" (parse_budget (get row "budgetMax")))
      "tags" (js_or (get row "tags") (JStr "")).

(** [`${e.path.join(".")}: ${e.message}`] *)
Definition format_issue (e : issue) : string :=
  join "." (fst e) ++ ": " ++ snd e.

(** An entry of the error list: the row number and the messages, which
    are [undefined] when the error has no [errors]. *)
Definition row_error : Type := (nat * option (list string))%type.

Inductive import_response : Type :=
| ImportEmpty                                               (* 400 *)
| ImportTooMany                                             (* 400 *)
| ImportRejected (errors : list row_error)
                 (validRowsCount totalRowsCount : nat)      (* 400 *)
| ImportOk (importedCount : nat) (inserted : list buyer)    (* 200 *)
| ImportServerError.                                        (* 500 *)

Section ImportHandler.
Context `{Platform}.

(** [error.errors?.map(...)] *)
Definition row_messages (iss : list issue) : option (list string) :=
  match ZodError_errors iss with
  | Some errors => Some (map format_issue errors)
  | None => None
  end.

(** A row passes the bulk-import validation. *)
Definition row_valid (row : obj) : bool :=
  is_ok (parse csvRowSchema (processedRow row)).

(** The [forEach] over the rows, from position [index] on: the valid
    rows and the errors, both in row order. *)
Fixpoint validate_rows (index : nat) (rows : list obj)
  : list obj * list row_error :=
  match rows with
  | [] => ([], [])
  | row :: rest =>
      let (validRows, errors) := validate_rows (S index) rest in
      match parse csvRowSchema (processedRow row) with
      | inr validatedRow => (validatedRow :: validRows, errors)
      | inl iss => (validRows, ((index + 1)%nat, row_messages iss) :: errors)
      end
  end.

(** The body of the transaction: each row is inserted and its history
    entry written; [None] when a statement fails. *)
Fixpoint insert_rows (d : db) (u : user) (validRows : list obj) (now : Z)
  : option (db * list buyer) :=
  match validRows with
  | [] => Some (d, [])
  | row :: rest =>
      match insert_buyer d (insert_columns row) (u_id u) now with
      | None => None
      | Some (d1, b) =>
          let d2 := recordHistory d1 (b_id b) (u_id u) (DImported row) now in
          match insert_rows d2 u rest now with
          | None => None
          | Some (d3, bs) => Some (d3, b :: bs)
          end
      end
  end.

(** [POST /import] on the rows of the uploaded file.  A failure inside
    the transaction rolls it back. *)
Definition import_buyers (d : db) (u : user) (rows : list obj) (now : Z)
    : db * import_response :=
  match rows with
  | [] => (d, ImportEmpty)
  | _ =>
      if (200 <? length rows)%nat then (d, ImportTooMany)
      else
        let (validRows, errors) := validate_rows 0 rows in
        match errors with
        | _ :: _ =>
            (d, ImportRejected errors (length validRows) (length rows))
        | [] =>
            match insert_rows d u validRows now with
            | None => (d, ImportServerError)
            | Some (d1, insertedBuyers) =>
                (d1, ImportOk (length insertedBuyers) insertedBuyers)
            end
        end
  end.

End ImportHandler.

(** ** [GET /export]: from the selected leads to the rows of the file *)

(** [array_to_string(b.tags, ',')] *)
Definition array_to_string (v : jsval) : jsval :=
  match v with
  | JArr l => JStr (join "," l)
  | _ => JNull
  end.

(** The row that the [SELECT] of the export handler returns for a lead. *)
Definition export_row (b : buyer) : obj :=
  let c := b_cols b in
  [ ("fullName", get c "full_name"); ("email", get c "email");
    ("phone", get c "phone"); ("city", get c "city");
    ("propertyType", get c "property_type"); ("bhk", get c "bhk");
    ("purpose", get c "purpose"); ("budgetMin", get c "budget_min");
    ("budgetMax", get c "budget_max"); ("timeline", get c "timeline");
    ("source", get c "source"); ("status", get c "status");
    ("notes", get c "notes"); ("tags", array_to_string (get c "tags"));
    ("createdAt", JNum (b_created b)); ("updatedAt", JNum (b_updated b)) ].

Definition export_header : list string :=
  ["fullName"; "email"; "phone"; "city"; "propertyType"; "bhk"; "purpose";
   "budgetMin"; "budgetMax"; "timeline"; "source"; "status"; "notes"; "tags"].

(** The text of a cell as the CSV writer produces it: empty for null and
    undefined, [String(value)] otherwise. *)
Definition csv_cell (v : jsval) : string :=
  match v with
  | JStr s => s
  | JNum n => decimal n
  | _ => ""
  end.

(** The row that the CSV parser gives back for an exported record: the
    columns of the header, every value a string.  Writing the file and
    parsing it again is taken to return the text of each cell. *)
Definition csv_record (r : obj) : obj :=
  map (fun column => (column, JStr (csv_cell (get r column)))) export_header.

Definition export_rows (leads : list buyer) : list obj :=
  map (fun b => csv_record (export_row b)) leads.

(** A tag that the comma-join and the split-trim-filter of the import
    give back unchanged. *)
Definition no_comma (s : string) : bool :=
  all_chars (fun c => negb (Ascii.eqb c comma)) s.

Definition tag_ok (tag : string) : bool :=
  (0 <? String.length tag)%nat && String.eqb (trim tag) tag && no_comma tag.

Definition nonempty_text_or_null (p : string -> bool) (v : jsval) : bool :=
  match v with
  | JNull => true
  | JStr s => negb (String.eqb s "") && p s
  | _ => false
  end.

Definition nonzero_or_null (v : jsval) : bool :=
  match v with
  | JNull => true
  | JNum n => negb (n =? 0)
  | _ => false
  end.

Section ExportHandler.
Context `{Platform}.

(** The leads that an export followed by an import gives back: the row
    satisfies the constraints of the table, bedroom class and status are
    set, email and notes are null or a non-empty text (the email in the
    accepted format), a budget is null or not zero, and the tags are
    there, each of them [tag_ok]. *)
Definition roundtrips (c : obj) : bool :=
  row_ok c
  && negb (if decide (get c "bhk" = JNull) then true else false)
  && negb (if decide (get c "status" = JNull) then true else false)
  && nonempty_text_or_null is_email (get c "email")
  && nonempty_text_or_null (fun _ => true) (get c "notes")
  && nonzero_or_null (get c "budget_min")
  && nonzero_or_null (get c "budget_max")
  && match get c "tags" with
     | JArr l => forallb tag_ok l
     | _ => false
     end.

End ExportHandler.

(** The entries of an object whose value is defined. *)
Definition defined_entries (o : obj) : obj :=
  List.filter (fun kv => if decide (snd kv = JUndefined) then false else true) o.

(** ** A platform to run the model on

    Formats and dates for the few strings that the examples use. *)
Module Sample.

Definition t0 : string := "2024-01-01T00:00:00Z".
Definition t0_ms : string := "2024-01-01T00:00:00.000Z".
Definition t1 : string := "2024-01-02T00:00:00.000Z".

Definition sample_getTime (s : string) : option Z :=
  if String.eqb s t0 || String.eqb s t0_ms then Some 1704067200000
  else if String.eqb s t1 then Some 1704153600000
  else None.

Definition sample_email (s : string) : bool :=
  match split_on "@"%char s with
  | [a; b] => (0 <? String.length a)%nat && (0 <? String.length b)%nat
  | _ => false
  end.

(** The identifiers of the examples: a fixed prefix and twelve decimal
    digits. *)
Definition sample_uuid_in (s : string) : option uuid :=
  if (String.length s =? 36)%nat
     && String.eqb (substring 0 24 s) "00000000-0000-4000-8000-"
     && all_chars is_digit (substring 24 12 s)
  then match parse_digits dec_val 10 (substring 24 12 s) None with
       | Some n => if 0 <? n then Some (Z.to_pos n) else None
       | None => None
       end
  else None.

(** The release of the schema library that provides [safeExtend] has no
    [errors] on its error object. *)
#[export] Instance platform : Platform := {|
  is_email := sample_email;
  is_datetime s := match sample_getTime s with Some _ => true | None => false end;
  Date_getTime := sample_getTime;
  Number_of_string s :=
    match parse_digits dec_val 10 s None with
    | Some n => if all_chars is_digit s then JNum n else JNaN
    | None => JNaN
    end;
  ZodError_errors := fun _ => None;
  uuid_in := sample_uuid_in;
  is_datetime_nonempty := eq_refl
|}.

(** A valid lead payload without the optional fields. *)
Definition plot_lead : obj :=
  [("fullName", JStr "Asha Rao"); ("phone", JStr "9876543210");
   ("city", JStr "Mohali"); ("propertyType", JStr "Plot");
   ("purpose", JStr "Buy"); ("timeline", JStr "0-3m");
   ("source", JStr "Call")].

Definition alice : user := User 1%positive "user".
Definition bob : user := User 2%positive "user".

(** The store after [alice] created [plot_lead] at instant [t0]. *)
Definition db1 : db := fst (post_buyer (Db ∅ []) alice plot_lead 1704067200000).

(** The lead of [db1]. *)
Definition lead1 : buyer :=
  Buyer 1%positive
    [("full_name", JStr "Asha Rao"); ("email", JNull);
     ("phone", JStr "9876543210"); ("city", JStr "Mohali");
     ("property_type", JStr "Plot"); ("bhk", JNull); ("purpose", JStr "Buy");
     ("budget_min", JNull); ("budget_max", JNull); ("timeline", JStr "0-3m");
     ("source", JStr "Call"); ("status", JStr "New"); ("notes", JNull);
     ("tags", JArr [])]
    1%positive 1704067200000 1704067200000.

(** One day after [t0]. *)
Definition later : Z := 1704153600000.

(** A row of an import file for an apartment. *)
Definition csv_apartment : obj :=
  [("fullName", JStr "Ravi Mehta"); ("email", JStr "ravi@example.com");
   ("phone", JStr "9876500000"); ("city", JStr "Chandigarh");
   ("propertyType", JStr "Apartment"); ("bhk", JStr "3");
   ("purpose", JStr "Buy"); ("budgetMin", JStr "5000000");
   ("budgetMax", JStr "7000000"); ("timeline", JStr "0-3m");
   ("source", JStr "Website"); ("notes", JStr "Looking for 3BHK");
   ("tags", JStr "urgent,family"); ("status", JStr "New")].

(** The same row from a file that has no [bhk] column. *)
Definition csv_no_bhk : obj :=
  [("fullName", JStr "Ravi Mehta"); ("email", JStr "ravi@example.com");
   ("phone", JStr "9876500000"); ("city", JStr "Chandigarh");
   ("propertyType", JStr "Apartment");
   ("purpose", JStr "Buy"); ("budgetMin", JStr "5000000");
   ("budgetMax", JStr "7000000"); ("timeline", JStr "0-3m");
   ("source", JStr "Website"); ("notes", JStr "Looking for 3BHK");
   ("tags", JStr "urgent,family"); ("status", JStr "New")].

(** Five valid rows followed by an invalid one. *)
Definition batch6 : list obj :=
  [csv_apartment; csv_apartment; csv_apartment; csv_apartment; csv_apartment;
   csv_no_bhk].

(** The apartment row with an empty [bhk] cell, and a file of five
    valid rows followed by it. *)
Definition csv_empty_bhk : obj := set csv_apartment "bhk" (JStr "").

Definition file6 : list obj :=
  [csv_apartment; csv_apartment; csv_apartment; csv_apartment; csv_apartment;
   csv_empty_bhk].

(** A stored villa lead with every column set. *)
Definition villa : buyer :=
  Buyer 7%positive
    [("full_name", JStr "Priya Sharma"); ("email", JStr "priya@example.com");
     ("phone", JStr "9876543211"); ("city", JStr "Mohali");
     ("property_type", JStr "Villa"); ("bhk", JStr "4");
     ("purpose", JStr "Buy"); ("budget_min", JNum 8000000);
     ("budget_max", JNum 12000000); ("timeline", JStr "3-6m");
     ("source", JStr "Referral"); ("status", JStr "Qualified");
     ("notes", JStr "Prefers a garden"); ("tags", JArr ["south facing"; "corner"])]
    1%positive 1704067200000 1704067200000.

(** The same lead with a tag that holds a comma and a tag with spaces
    around it. *)
Definition villa_odd_tags : buyer :=
  Buyer 8%positive
    (set (b_cols villa) "tags" (JArr ["east,west"; " corner "]))
    1%positive 1704067200000 1704067200000.

End Sample.

(** ** [DELETE /:id] *)

(** [DELETE FROM buyers WHERE id = $1]; the history rows of the lead go
    with it ([ON DELETE CASCADE]). *)
Definition delete_buyer_row (d : db) (id : uuid) : db :=
  Db (delete id (buyers d))
     (List.filter (fun h => negb (Pos.eqb (h_buyer h) id)) (history d)).

Inductive delete_response : Type :=
| DeleteNotFound      (* 404 *)
| DeleteForbidden     (* 403 *)
| DeleteOk            (* 200 *)
| DeleteServerError.  (* 500 *)

Definition delete_buyer (d : db) (u : user) (id : uuid) : db * delete_response :=
  match select_buyer d id with
  | None => (d, DeleteNotFound)
  | Some currentBuyer =>
      if negb (checkOwnership u (b_owner currentBuyer)) then (d, DeleteForbidden)
      else (delete_buyer_row d id, DeleteOk)
  end.

(** ** The [users] table, [routes/auth.js] and [middleware/auth.js] *)

(** A row of [users]. *)
Record account : Type := Account {
  a_id : uuid;
  a_email : string;
  a_password_hash : string;
  a_role : string;
  a_created : Z
}.

(** [SELECT ... FROM users WHERE email = $1], in table order. *)
Definition users_by_email (users : list account) (email : string)
    : list account :=
  List.filter (fun a => String.eqb (a_email a) email) users.

(** [SELECT ... FROM users WHERE id = $1] *)
Definition users_by_id (users : list account) (id : uuid) : list account :=
  List.filter (fun a => Pos.eqb (a_id a) id) users.

(** [INSERT INTO users (email, password_hash, role) ... RETURNING ...]
    with a generated identifier; [None] when the email is taken
    ([UNIQUE]), a text is longer than its column or holds code unit 0,
    or the role is not one of the two of the [CHECK]. *)
Definition insert_user (users : list account) (email hash role : string)
    (now : Z) : option (list account * account) :=
  if (String.length email <=? 255)%nat && (String.length hash <=? 255)%nat
     && no_nul email && no_nul hash
     && existsb (String.eqb role) ["user"; "admin"]
     && negb (existsb (fun a => String.eqb (a_email a) email) users)
  then
    let a := Account (fresh (list_to_set (map a_id users) : gset uuid))
                     email hash role now in
    Some ((users ++ [a])%list, a)
  else None.

(** The claims that the server signs into a token. *)
Record jwt_payload : Type := JwtPayload {
  p_userId : uuid;
  p_email : string;
  p_role : string
}.

(** The [user] object of a response. *)
Record profile : Type := Profile {
  pr_id : uuid;
  pr_email : string;
  pr_role : string
}.

Inductive register_response : Type :=
| RegisterInvalid (details : option (list issue))                   (* 400 *)
| RegisterExists                                                   (* 400 *)
| RegisterCreated (user : profile) (createdAt : Z) (token : string) (* 201 *)
| RegisterServerError.                                             (* 500 *)

Inductive login_response : Type :=
| LoginInvalid (details : option (list issue))   (* 400 *)
| LoginBadCredentials                            (* 401 *)
| LoginOk (user : profile) (token : string).     (* 200 *)

Inductive demo_response : Type :=
| DemoNotFound                                   (* 404 *)
| DemoOk (user : profile) (token : string).      (* 200 *)

Inductive auth_result : Type :=
| AuthTokenRequired      (* 401, "Access token required" *)
| AuthUserNotFound       (* 401, "User not found" *)
| AuthInvalidToken       (* 403 *)
| AuthNext (u : user).   (* [req.user] is set and [next()] is called *)

Definition space : ascii := " "%char.

Definition no_space (s : string) : bool :=
  all_chars (fun c => negb (Ascii.eqb c space)) s.

(** [authHeader && authHeader.split(" ")[1]]; [None] is [undefined]. *)
Definition header_token (authHeader : option string) : option string :=
  match authHeader with
  | None => None
  | Some h => if String.eqb h "" then Some "" else nth_error (split_on space h) 1
  end.

(** [req.user.role !== "admin"] answers 403; [true] is [next()]. *)
Definition requireAdmin (u : user) : bool := String.eqb (u_role u) "admin".

Section Auth.
Context `{Platform}.

(** The two libraries that the routes call: [jwt.sign] and [jwt.verify]
    with the secret of the server ([None] when [verify] throws), and
    [bcrypt.hash] and [bcrypt.compare]. *)
Variable jwt_sign : jwt_payload -> string.
Variable jwt_verify : string -> option jwt_payload.
Variable bcrypt_hash : string -> string.
Variable bcrypt_compare : string -> string -> bool.

Definition loginSchema : zobject :=
  z_object
    [ ("email", z_string [ck_format is_email "Invalid email format"]);
      ("password", z_string [ck_min 1 "Password is required"]) ].

Definition registerSchema : zobject :=
  z_object
    [ ("email", z_string [ck_format is_email "Invalid email format"]);
      ("password",
        z_string [ck_min 6 "Password must be at least 6 characters"]);
      ("role", default (z_enum ["user"; "admin"]) (JStr "user")) ].

Definition token_for (a : account) : string :=
  jwt_sign (JwtPayload (a_id a) (a_email a) (a_role a)).

Definition profile_of (a : account) : profile :=
  Profile (a_id a) (a_email a) (a_role a).

(** [POST /register] *)
Definition register (users : list account) (body : obj) (now : Z)
    : list account * register_response :=
  match parse registerSchema body with
  | inl iss => (users, RegisterInvalid (ZodError_errors iss))
  | inr validatedData =>
      let email := str_of (get validatedData "email") in
      let password := str_of (get validatedData "password") in
      let role := str_of (get validatedData "role") in
      match users_by_email users email with
      | _ :: _ => (users, RegisterExists)
      | [] =>
          let hashedPassword := bcrypt_hash password in
          match insert_user users email hashedPassword role now with
          | None => (users, RegisterServerError)
          | Some (users1, user) =>
              (users1,
               RegisterCreated (profile_of user) (a_created user)
                 (token_for user))
          end
      end
  end.

(** [POST /login] *)
Definition login (users : list account) (body : obj) : login_response :=
  match parse loginSchema body with
  | inl iss => LoginInvalid (ZodError_errors iss)
  | inr validatedData =>
      let email := str_of (get validatedData "email") in
      let password := str_of (get validatedData "password") in
      match users_by_email users email with
      | [] => LoginBadCredentials
      | user :: _ =>
          if negb (bcrypt_compare password (a_password_hash user))
          then LoginBadCredentials
          else LoginOk (profile_of user) (token_for user)
      end
  end.

(** [POST /demo-login]: [const { role = "user" } = req.body]. *)
Definition demo_login (users : list account) (body : obj) : demo_response :=
  let role := match get body "role" with
              | JUndefined => JStr "user"
              | v => v
              end in
  let email := if decide (role = JStr "admin") then "admin@example.com"
               else "demo@example.com" in
  match users_by_email users email with
  | [] => DemoNotFound
  | user :: _ => DemoOk (profile_of user) (token_for user)
  end.

(** The authentication middleware: the answer it sends, or the
    [req.user] with which it calls [next()]. *)
Definition authenticateToken (users : list account)
    (authHeader : option string) : auth_result :=
  match header_token authHeader with
  | None => AuthTokenRequired
  | Some token =>
      if String.eqb token "" then AuthTokenRequired
      else
        match jwt_verify token with
        | None => AuthInvalidToken
        | Some decoded =>
            match users_by_id users (p_userId decoded) with
            | [] => AuthUserNotFound
            | row :: _ => AuthNext (User (a_id row) (a_role row))
            end
        end
  end.

End Auth.

(** ** The migration runner *)

(** [s.endsWith(suffix)] *)
Definition endsWith (s suffix : string) : bool :=
  (String.length suffix <=? String.length s)%nat
  && String.eqb (substring (String.length s - String.length suffix)
                           (String.length suffix) s) suffix.

(** [files.sort()]: ascending by code units. *)
Fixpoint sort_insert (x : string) (l : list string) : list string :=
  match l with
  | [] => [x]
  | y :: l' => if String.leb x y then x :: l else y :: sort_insert x l'
  end.

Definition js_sort (l : list string) : list string :=
  fold_right sort_insert [] l.

(** The order of [sort()]. *)
Definition ascending (a b : string) : Prop := String.leb a b = true.

(** The migrations that a run has to execute: the files of the directory
    that end in [.sql] and are not in the table, sorted. *)
Definition pending (dir executed : list string) : list string :=
  List.filter (fun f => negb (existsb (String.eqb f) executed))
    (js_sort (List.filter (fun file => endsWith file ".sql") dir)).

Section Migrations.

(** The database apart from the [migrations] table, and the effect of
    the statements of a migration file on it ([None] when one of them
    fails). *)
Variable schema : Type.
Variable run_sql : string -> schema -> option schema.

(** The database: the schema and the file names of the [migrations]
    table, ordered by [id]. *)
Record migration_db : Type := MigrationDb {
  m_schema : schema;
  m_executed : list string
}.

(** One migration in its transaction: the statements of the file, then
    the [INSERT INTO migrations], which fails on a file name that the
    table holds ([UNIQUE]); [None] is the roll-back. *)
Definition run_migration (filename : string) (d : migration_db)
    : option migration_db :=
  match run_sql filename (m_schema d) with
  | None => None
  | Some s =>
      if existsb (String.eqb filename) (m_executed d) then None
      else Some (MigrationDb s (m_executed d ++ [filename])%list)
  end.

(** The loop over the migration files; [false] is [process.exit(1)]. *)
Fixpoint migration_loop (executedMigrations migrationFiles : list string)
    (d : migration_db) : migration_db * bool :=
  match migrationFiles with
  | [] => (d, true)
  | filename :: rest =>
      if negb (existsb (String.eqb filename) executedMigrations) then
        match run_migration filename d with
        | None => (d, false)
        | Some d1 => migration_loop executedMigrations rest d1
        end
      else migration_loop executedMigrations rest d
  end.

(** [runMigrations] on the names of the files of the migrations
    directory. *)
Definition runMigrations (dir : list string) (d : migration_db)
    : migration_db * bool :=
  let executedMigrations := m_executed d in
  let migrationFiles :=
    js_sort (List.filter (fun file => endsWith file ".sql") dir) in
  migration_loop executedMigrations migrationFiles d.

(** The statements of several files, one file after the other. *)
Fixpoint run_all (files : list string) (s : schema) : option schema :=
  match files with
  | [] => Some s
  | f :: rest =>
      match run_sql f s with
      | None => None
      | Some s1 => run_all rest s1
      end
  end.

End Migrations.

Arguments MigrationDb {schema}.
Arguments m_schema {schema}.
Arguments m_executed {schema}.
Arguments run_migration {schema}.
Arguments migration_loop {schema}.
Arguments runMigrations {schema}.
Arguments run_all {schema}.

(** ** Sample data for the handlers *)
Module SampleLeads.
Import Sample.

(** A payload for a villa with both budgets. *)
Definition villa_payload : obj :=
  [("fullName", JStr "Priya Sharma"); ("email", JStr "priya@example.com");
   ("phone", JStr "9876543211"); ("city", JStr "Mohali");
   ("propertyType", JStr "Villa"); ("bhk", JStr "4"); ("purpose", JStr "Buy");
   ("budgetMin", JNum 8000000); ("budgetMax", JNum 12000000);
   ("timeline", JStr "3-6m"); ("source", JStr "Referral");
   ("notes", JStr "Prefers a garden"); ("tags", JArr ["corner"])].

(** What the full-record schema makes of it. *)
Definition villa_validated : obj :=
  Eval vm_compute in
    match parse buyerSchema villa_payload with
    | inr v => v
    | inl _ => []
    end.

(** A payload with a budget that no 32-bit integer holds. *)
Definition big_budget_lead : obj :=
  set plot_lead "budgetMax" (JNum 3000000000).

Definition big_budget_validated : obj :=
  Eval vm_compute in
    match parse buyerSchema big_budget_lead with
    | inr v => v
    | inl _ => []
    end.

(** The same budget in a row of an import file. *)
Definition csv_big_budget : obj :=
  set csv_apartment "budgetMax" (JStr "3000000000").

Definition csv_big_budget_validated : obj :=
  Eval vm_compute in
    match parse csvRowSchema (processedRow csv_big_budget) with
    | inr v => v
    | inl _ => []
    end.

Definition csv_apartment_validated : obj :=
  Eval vm_compute in
    match parse csvRowSchema (processedRow csv_apartment) with
    | inr v => v
    | inl _ => []
    end.

(** The lead that the import of [csv_apartment] into [db1] inserts. *)
Definition imported_apartment : buyer :=
  Buyer 2%positive (insert_columns csv_apartment_validated) 1%positive
    later later.

(** An update of the name and the notes of [lead1]. *)
Definition rename_body : obj :=
  [("fullName", JStr "Asha R. Rao"); ("notes", JStr "")].

Definition rename_validated : obj :=
  Eval vm_compute in
    match parse updateBuyerSchema rename_body with
    | inr v => v
    | inl _ => []
    end.

(** An update that supplies the stored name of [lead1]. *)
Definition same_name_body : obj := [("fullName", JStr "Asha Rao")].

Definition same_name_validated : obj :=
  Eval vm_compute in
    match parse updateBuyerSchema same_name_body with
    | inr v => v
    | inl _ => []
    end.

Definition renamed_lead1 : buyer :=
  Buyer 1%positive
    (set (b_cols lead1) "full_name" (JStr "Asha R. Rao"))
    1%positive 1704067200000 later.

(** A query for the third page of the leads of Mohali that match "rao". *)
Definition mohali_query : obj :=
  [("city", JStr "Mohali"); ("search", JStr "rao"); ("page", JStr "3");
   ("limit", JStr "20")].


Definition mohali_statement : list_query :=
  ListQuery [("b.city", JStr "Mohali")] (Some "%rao%") "b.updated_at" "DESC"
    (JNum 20) (JNum 40).

End SampleLeads.

Module SampleAuth.
Import Sample.

(** A token is the identifier behind a prefix; a hash is the password
    behind a prefix. *)
Definition sample_sign (p : jwt_payload) : string :=
  "tok-" ++ decimal (Z.pos (p_userId p)).

Definition sample_hash (password : string) : string := "$2a$10$" ++ password.

Definition sample_compare (password hash : string) : bool :=
  String.eqb hash (sample_hash password).

(** The table after the seed script. *)
Definition seeded : list account :=
  [ Account 1%positive "demo@example.com" (sample_hash "demo123") "user"
      1704067200000;
    Account 2%positive "admin@example.com" (sample_hash "demo123") "admin"
      1704067200000 ].

Definition admin_account : account :=
  Account 2%positive "admin@example.com" (sample_hash "demo123") "admin"
    1704067200000.

(** The tokens of the seeded accounts are the ones that verify. *)
Definition sample_verify (token : string) : option jwt_payload :=
  match List.find (fun a => String.eqb (token_for sample_sign a) token) seeded with
  | Some a => Some (JwtPayload (a_id a) (a_email a) (a_role a))
  | None => None
  end.

Definition ravi_registration : obj :=
  [("email", JStr "ravi@example.com"); ("password", JStr "secret1")].

Definition ravi_account : account :=
  Account 3%positive "ravi@example.com" (sample_hash "secret1") "user" later.

End SampleAuth.

Module SampleMigrations.

(** The schema is the list of the files that were run; one file holds a
    statement that fails. *)
Definition sample_run_sql (filename : string) (s : list string)
    : option (list string) :=
  if String.eqb filename "003_broken.sql" then None
  else Some (s ++ [filename])%list.

Definition migrations_dir : list string :=
  ["002_add_index.sql"; "README.md"; "001_initial_schema.sql"].

Definition broken_dir : list string :=
  ["004_later.sql"; "003_broken.sql"; "002_add_index.sql";
   "001_initial_schema.sql"].

Definition empty_db : migration_db (list string) := MigrationDb [] [].

Definition migrated_db : migration_db (list string) :=
  MigrationDb ["001_initial_schema.sql"; "002_add_index.sql"]
              ["001_initial_schema.sql"; "002_add_index.sql"].

End SampleMigrations.

(** ** [GET /:id] and the answer of [GET /] *)

(** [ORDER BY changed_at DESC]: an insertion sort; the store leaves the
    order of rows of the same instant open, here they come in one fixed
    order. *)
Fixpoint insert_desc (h : history_row) (l : list history_row)
    : list history_row :=
  match l with
  | [] => [h]
  | x :: l' =>
      if h_changed_at x <? h_changed_at h then h :: l
      else x :: insert_desc h l'
  end.

Definition order_by_changed_at_desc (l : list history_row)
    : list history_row :=
  fold_right insert_desc [] l.

(** [SELECT ... FROM buyer_history bh ... WHERE bh.buyer_id = $1 ORDER BY
    bh.changed_at DESC LIMIT 5]; the author of every row has a row in
    [users] (a foreign key), so that the join drops none. *)
Definition select_history (d : db) (id : uuid) : list history_row :=
  firstn 5
    (order_by_changed_at_desc
       (List.filter (fun h => Pos.eqb (h_buyer h) id) (history d))).

Inductive get_response : Type :=
| GetNotFound                                            (* 404 *)
| GetOk (buyer : buyer) (history : list history_row)     (* 200 *)
| GetServerError.                                        (* 500 *)

(** [GET /:id], without the email columns that the joins add. *)
Definition get_buyer (d : db) (id : uuid) : get_response :=
  match select_buyer d id with
  | None => GetNotFound
  | Some buyer => GetOk buyer (select_history d id)
  end.

(** The rows that the store returns for the statement of the list
    handler, given the leads that match its filters in the order of the
    statement: the window of [LIMIT] and [OFFSET], each row with the
    number of matching leads in [total_count] ([COUNT( * ) OVER()]). *)
Definition page_rows (matching : list buyer) (limit offset : Z)
    : list (buyer * Z) :=
  map (fun b => (b, Z.of_nat (length matching)))
      (firstn (Z.to_nat limit) (skipn (Z.to_nat offset) matching)).

(** [Math.ceil(a / b)] on a count and a positive limit. *)
Definition ceil_div (a b : Z) : Z := (a + b - 1) / b.

Record pagination : Type := Pagination {
  pg_page : Z;
  pg_limit : Z;
  totalCount : Z;
  totalPages : Z;
  hasNext : bool;
  hasPrev : bool
}.

(** The answer of [GET /] from the rows of the store, for a numeric page
    and limit. *)
Definition list_response (page limit : Z) (rows : list (buyer * Z))
    : list buyer * pagination :=
  let totalCount := match rows with
                    | [] => 0
                    | row :: _ => snd row
                    end in
  let totalPages := ceil_div totalCount limit in
  (map fst rows,
   Pagination page limit totalCount totalPages (page <? totalPages)
     (1 <? page)).

(** ** The path parameter of [PUT /:id], [DELETE /:id] and [GET /:id]

    The identifier of a request is the text of the path.  The first
    statement of each handler compares it with a [UUID] column: on a
    text that the store does not read as a UUID the statement fails, and
    the [catch] of the handler answers 500.  [put_buyer], [delete_buyer]
    and [get_buyer] above are the handlers on an identifier that the
    store has read. *)
Section PathParameter.
Context `{Platform}.

(** [PUT /:id]: the payload is validated before the first statement. *)
Definition put_buyer_request (d : db) (u : user) (id : string) (body : obj)
    (now : Z) : db * put_response :=
  match parse updateBuyerSchema body with
  | inl iss => (d, PutValidationFailed (ZodError_errors iss))
  | inr validatedData =>
      match uuid_in id with
      | None => (d, PutServerError)
      | Some i => put_validated d u i validatedData now
      end
  end.

Definition delete_buyer_request (d : db) (u : user) (id : string)
    : db * delete_response :=
  match uuid_in id with
  | None => (d, DeleteServerError)
  | Some i => delete_buyer d u i
  end.

Definition get_buyer_request (d : db) (id : string) : get_response :=
  match uuid_in id with
  | None => GetServerError
  | Some i => get_buyer d i
  end.

End PathParameter.

(** The order of [ORDER BY changed_at DESC]. *)
Definition newer_first (x y : history_row) : Prop :=
  h_changed_at y <= h_changed_at x.

(** * Properties *)

(** ** Facts about the schema library *)
Section ZodFacts.

(** Each issue of the field pass is an issue of one field's own schema. *)
Lemma parse_fields_issue_origin sh input i :
  In i (fst (parse_fields sh input)) ->
  exists k t msgs m,
    In (k, t) sh /\ run t (get input k) = inl msgs /\ In m msgs
    /\ i = ([k], m).
Proof.
  induction sh as [|[k t] sh IH]; simpl; [tauto|].
  destruct (parse_fields sh input) as [iss out] eqn:E; simpl in IH.
  destruct (run t (get input k)) as [msgs|v] eqn:R.
  - simpl. rewrite in_app_iff, in_map_iff. intros [[m [<- Hm]]|Hi].
    + exists k, t, msgs, m. auto.
    + destruct (IH Hi) as (k' & t' & ms & m & ? & ? & ? & ?).
      exists k', t', ms, m. auto.
  - assert (Hfst : In i iss ->
                   exists k0 t0 msgs m,
                     ((k, t) = (k0, t0) \/ In (k0, t0) sh)
                     /\ run t0 (get input k0) = inl msgs /\ In m msgs
                     /\ i = ([k0], m)).
    { intros Hi. destruct (IH Hi) as (k' & t' & ms & m & ? & ? & ? & ?).
      exists k', t', ms, m. auto. }
    destruct v; simpl; exact Hfst.
Qed.

(** Without refinements the result is the result of the field pass. *)
Lemma parse_no_checks o input :
  checks o = [] ->
  parse o input =
    match parse_fields (shape o) input with
    | ([], out) => inr out
    | (iss, _) => inl iss
    end.
Proof.
  intros Hc. unfold parse. rewrite Hc.
  destruct (parse_fields (shape o) input) as [[|i iss] out]; reflexivity.
Qed.

End ZodFacts.
(** ** The full-record and the partial schema *)
Section SchemaProperties.
Context `{Platform}.

(** The budget refinement rejects a maximum below the minimum when
    neither bound is zero. *)
Lemma budget_rule_rejects data lo hi :
  get data "budgetMin" = JNum lo -> get data "budgetMax" = JNum hi ->
  lo <> 0 -> hi <> 0 -> hi < lo ->
  budget_rule data = false.
Proof.
  intros Hlo Hhi Hl Hh Hlt. unfold budget_rule. rewrite Hlo, Hhi. simpl.
  destruct (Z.eqb_spec lo 0); [lia|]. destruct (Z.eqb_spec hi 0); [lia|].
  simpl. apply Z.leb_gt. lia.
Qed.

(** The budget refinement does not run when a bound is missing. *)
Lemma budget_rule_absent data :
  get data "budgetMin" = JUndefined \/ get data "budgetMax" = JUndefined ->
  budget_rule data = true.
Proof.
  unfold budget_rule. intros [-> | ->]; simpl; [reflexivity|].
  rewrite andb_false_r. reflexivity.
Qed.

(** A bound of zero is falsy, so the refinement does not run either. *)
Lemma budget_rule_zero data :
  get data "budgetMin" = JNum 0 \/ get data "budgetMax" = JNum 0 ->
  budget_rule data = true.
Proof.
  unfold budget_rule. intros [-> | ->]; simpl; [reflexivity|].
  rewrite andb_false_r. reflexivity.
Qed.

(** C3, evaluated where it fails: a record with [budgetMin = 5] and
    [budgetMax = 0] has both bounds present and the maximum below the
    minimum, and the full-record schema accepts it. *)
Theorem buyerSchema_accepts_zero_budgetMax :
  parse buyerSchema
    (Sample.plot_lead ++ [("budgetMin", JNum 5); ("budgetMax", JNum 0)])%list
  = inr [("fullName", JStr "Asha Rao"); ("phone", JStr "9876543210");
         ("city", JStr "Mohali"); ("propertyType", JStr "Plot");
         ("purpose", JStr "Buy"); ("budgetMin", JNum 5);
         ("budgetMax", JNum 0); ("timeline", JStr "0-3m");
         ("source", JStr "Call"); ("status", JStr "New");
         ("tags", JArr [])].
Proof. reflexivity. Qed.

(** The same record with a maximum of 3 is rejected, with 5 and 7 it
    passes, and it passes with either bound left out. *)
Example buyerSchema_budget_cases :
  is_ok (parse buyerSchema
           (Sample.plot_lead ++ [("budgetMin", JNum 5); ("budgetMax", JNum 3)])%list)
    = false
  /\ is_ok (parse buyerSchema
              (Sample.plot_lead ++ [("budgetMin", JNum 3); ("budgetMax", JNum 5)])%list)
    = true
  /\ is_ok (parse buyerSchema (Sample.plot_lead ++ [("budgetMin", JNum 5)])%list)
    = true
  /\ is_ok (parse buyerSchema (Sample.plot_lead ++ [("budgetMax", JNum 3)])%list)
    = true.
Proof. repeat split; reflexivity. Qed.

(** The full-record schema on an apartment without bedroom class. *)
Example buyerSchema_requires_bhk :
  parse buyerSchema
    [("fullName", JStr "Asha Rao"); ("phone", JStr "9876543210");
     ("city", JStr "Mohali"); ("propertyType", JStr "Apartment");
     ("purpose", JStr "Buy"); ("timeline", JStr "0-3m");
     ("source", JStr "Call")]
  = inl [(["bhk"], "BHK is required for Apartment and Villa property types")].
Proof. reflexivity. Qed.

Lemma updateBuyerSchema_checks : checks updateBuyerSchema = [].
Proof. reflexivity. Qed.

(** C4. Partial validation never applies a cross-field refinement, so
    in particular not when a participating field is absent: the result
    is the result of the field pass, every reported issue is the issue
    of one field against its own schema, and the payload
    [{ propertyType: "Apartment" }] passes. *)
Theorem updateBuyerSchema_skips_refinements :
  (forall input,
      parse updateBuyerSchema input =
        match parse_fields (shape updateBuyerSchema) input with
        | ([], out) => inr out
        | (iss, _) => inl iss
        end)
  /\ (forall input iss i,
        parse updateBuyerSchema input = inl iss -> In i iss ->
        exists k t msgs m,
          In (k, t) (shape updateBuyerSchema)
          /\ run t (get input k) = inl msgs /\ In m msgs /\ i = ([k], m))
  /\ is_ok (parse updateBuyerSchema [("propertyType", JStr "Apartment")]) = true.
Proof.
  split; [|split; [|reflexivity]].
  - intros input. apply parse_no_checks, updateBuyerSchema_checks.
  - intros input iss i Hp Hi.
    rewrite (parse_no_checks _ _ updateBuyerSchema_checks) in Hp.
    apply (parse_fields_issue_origin _ input).
    destruct (parse_fields (shape updateBuyerSchema) input) as [[|i0 l] out];
      [discriminate|].
    injection Hp as <-. exact Hi.
Qed.

(** A partial payload gets the defaults of [status] and [tags]: a default
    inside an optional field is applied. *)
Example updateBuyerSchema_empty_payload :
  parse updateBuyerSchema [] = inr [("status", JStr "New"); ("tags", JArr [])].
Proof. reflexivity. Qed.

End SchemaProperties.

(** ** Objects produced by a schema *)
Section ParseFacts.

Lemma parse_fields_get_notin sh input k :
  ~ In k (map fst sh) -> get (snd (parse_fields sh input)) k = JUndefined.
Proof.
  induction sh as [|[k' t] sh IH]; simpl; [reflexivity|].
  intros Hn. destruct (parse_fields sh input) as [iss out] eqn:E.
  simpl in IH.
  assert (Hk : String.eqb k' k = false) by (apply String.eqb_neq; tauto).
  assert (Ho : get out k = JUndefined) by (apply IH; tauto).
  destruct (run t (get input k')) as [msgs|v]; simpl; [exact Ho|].
  destruct v; simpl; rewrite ?Hk; exact Ho.
Qed.

(** The value of a key of the result is what the field's schema made
    of the input. *)
Lemma parse_fields_get sh input k t v :
  NoDup (map fst sh) -> In (k, t) sh -> run t (get input k) = inr v ->
  get (snd (parse_fields sh input)) k = v.
Proof.
  induction sh as [|[k' t'] sh IH]; simpl; [tauto|].
  intros Hnd [Heq|Hin] Hr.
  - injection Heq as -> ->. rewrite Hr.
    apply NoDup_cons in Hnd as [Hn _]. rewrite list_elem_of_In in Hn.
    pose proof (parse_fields_get_notin sh input k Hn) as Ho.
    destruct (parse_fields sh input) as [iss out]; simpl in *.
    destruct v; simpl; rewrite ?String.eqb_refl; auto.
  - apply NoDup_cons in Hnd as [Hn Hnd].
    assert (Hk : String.eqb k' k = false).
    { apply String.eqb_neq. intros ->. apply Hn.
      apply list_elem_of_In, in_map_iff. exists (k, t). auto. }
    specialize (IH Hnd Hin Hr).
    destruct (parse_fields sh input) as [iss out]; simpl in *.
    destruct (run t' (get input k')) as [msgs|v']; simpl; [exact IH|].
    destruct v'; simpl; rewrite ?Hk; exact IH.
Qed.

Lemma parse_inr_fields o input out :
  parse o input = inr out -> parse_fields (shape o) input = ([], out).
Proof.
  unfold parse. destruct (parse_fields (shape o) input) as [[|i l] out'];
    [|discriminate].
  destruct (omap _ _); [|discriminate]. intros [= ->]. reflexivity.
Qed.

(** Keys outside of the shape are dropped. *)
Lemma parse_fields_keys sh input :
  incl (keys (snd (parse_fields sh input))) (map fst sh).
Proof.
  induction sh as [|[k t] sh IH]; simpl; [apply incl_refl|].
  destruct (parse_fields sh input) as [iss out]; simpl in *.
  destruct (run t (get input k)) as [msgs|v]; simpl.
  - apply incl_tl, IH.
  - destruct v; simpl;
      first [ apply incl_tl, IH
            | apply incl_cons; [left; reflexivity | apply incl_tl, IH] ].
Qed.

End ParseFacts.

(** ** The update handler *)
Section UpdateProperties.
Context `{Platform}.

Lemma recordHistory_buyers d i by_ df now :
  buyers (recordHistory d i by_ df now) = buyers d.
Proof. reflexivity. Qed.

Lemma mapping_get_column k c :
  mapping_get fieldMapping k = Some c -> In c data_columns.
Proof.
  unfold fieldMapping, data_columns. cbn [mapping_get].
  repeat (destruct (String.eqb _ k);
          [intros [= <-]; cbn; tauto|]).
  discriminate.
Qed.

Lemma update_step_fst cols st entry :
  fst (update_step cols st entry) =
    (fst st ++ match assignment entry with Some a => [a] | None => [] end)%list.
Proof.
  destruct entry as [k v], st as [sets cs].
  unfold update_step, assignment, assigned_column. cbn [fst snd].
  destruct (String.eqb k "updatedAt"); [rewrite app_nil_r; reflexivity|].
  destruct (mapping_get fieldMapping k) as [c|];
    [|rewrite app_nil_r; reflexivity].
  destruct v; cbn [fst]; rewrite ?app_nil_r; reflexivity.
Qed.

(** The assignments of the statement: one for each mapped field of the
    payload with a defined value, in the order of the payload. *)
Lemma fold_update_fst cols v st :
  fst (fold_left (update_step cols) v st) = (fst st ++ omap assignment v)%list.
Proof.
  revert st. induction v as [|e v IH]; intros st; cbn [fold_left omap].
  - rewrite app_nil_r. reflexivity.
  - rewrite IH, update_step_fst, <- app_assoc. f_equal.
    destruct (assignment e) eqn:E; cbn [omap list_omap]; rewrite E;
      reflexivity.
Qed.

Lemma update_loop_fst cols v : fst (update_loop cols v) = omap assignment v.
Proof. unfold update_loop. rewrite fold_update_fst. reflexivity. Qed.

(** The [SET] list of the update handler names data columns only: the
    columns of [fieldMapping]. *)
Lemma update_loop_data_columns cols v :
  Forall (fun kv => In (fst kv) data_columns) (fst (update_loop cols v)).
Proof.
  rewrite update_loop_fst. apply Forall_forall. intros [c w] Hin.
  apply list_elem_of_omap in Hin as ([k val] & _ & Ha).
  unfold assignment, assigned_column in Ha. cbn [fst snd] in *.
  destruct (String.eqb k "updatedAt"); [discriminate|].
  destruct (mapping_get fieldMapping k) as [c'|] eqn:Em; [|discriminate].
  assert (Hc : c = c') by (destruct val; congruence).
  subst c'. exact (mapping_get_column k c Em).
Qed.

Lemma data_column_not_owner c : In c data_columns -> String.eqb c "owner_id" = false.
Proof.
  intros Hin. apply String.eqb_neq. intros ->.
  cbn in Hin. intuition discriminate.
Qed.

(** Assignments to data columns are applied one after the other and
    leave the rest of the row alone. *)
Lemma assign_columns_data sets : forall b,
  Forall (fun kv => In (fst kv) data_columns) sets ->
  assign_columns b sets
  = Some (Buyer (b_id b)
            (fold_left (fun c kv => set c (fst kv) (snd kv)) sets (b_cols b))
            (b_owner b) (b_created b) (b_updated b)).
Proof.
  induction sets as [|kv sets IH]; intros b Hall; cbn [assign_columns fold_left].
  - destruct b; reflexivity.
  - apply Forall_cons_1 in Hall as [Hkv Hall].
    unfold assign_column. rewrite (data_column_not_owner _ Hkv).
    rewrite (IH _ Hall). reflexivity.
Qed.

Lemma update_buyer_data d id sets now :
  Forall (fun kv => In (fst kv) data_columns) sets ->
  update_buyer d id sets now
  = match buyers d !! id with
    | None => None
    | Some b =>
        let cols :=
          fold_left (fun c kv => set c (fst kv) (snd kv)) sets (b_cols b) in
        if row_ok cols then
          let b' := Buyer (b_id b) cols (b_owner b) (b_created b) now in
          Some (Db (<[id := b']> (buyers d)) (history d), b')
        else None
    end.
Proof.
  intros Hall. unfold update_buyer.
  destruct (buyers d !! id) as [b|]; [|reflexivity].
  rewrite (assign_columns_data sets b Hall). reflexivity.
Qed.

Lemma update_buyer_spec d id sets now d1 b1 :
  Forall (fun kv => In (fst kv) data_columns) sets ->
  update_buyer d id sets now = Some (d1, b1) ->
  exists b,
    buyers d !! id = Some b
    /\ b_id b1 = b_id b /\ b_owner b1 = b_owner b
    /\ b_created b1 = b_created b /\ b_updated b1 = now
    /\ buyers d1 = <[id := b1]> (buyers d)
    /\ history d1 = history d.
Proof.
  intros Hall. rewrite (update_buyer_data d id sets now Hall).
  destruct (buyers d !! id) as [b|]; [|discriminate]. cbv zeta.
  destruct (row_ok _); [|discriminate].
  intros [= <- <-]. exists b. simpl. auto 10.
Qed.

(** Every outcome other than success and a store failure leaves the
    store as it was; so does a store failure of the update statement. *)
Lemma put_validated_store d u id v now :
  match snd (put_validated d u id v now) with
  | PutOk _ => True
  | _ => fst (put_validated d u id v now) = d
  end.
Proof.
  unfold put_validated, select_buyer.
  destruct (buyers d !! id) as [cur|]; simpl; [|reflexivity].
  destruct (checkOwnership u (b_owner cur)); simpl; [|reflexivity].
  destruct (stale v cur); simpl; [reflexivity|].
  destruct (update_loop (b_cols cur) v) as [sets changes].
  destruct sets as [|s0 sets]; simpl; [reflexivity|].
  destruct (update_buyer d id (s0 :: sets) now) as [[d1 b1]|]; simpl;
    [|reflexivity].
  destruct changes; simpl; exact I.
Qed.

(** C10. When [PUT /:id] answers with a validation failure, NotFound,
    Forbidden, Conflict or "no valid fields", the store (leads and audit
    history) is exactly what it was before the call. *)
Theorem put_buyer_error_atomic d u id body now :
  put_failed (snd (put_buyer d u id body now)) = true ->
  fst (put_buyer d u id body now) = d.
Proof.
  unfold put_buyer. destruct (parse updateBuyerSchema body) as [iss|v];
    [reflexivity|].
  pose proof (put_validated_store d u id v now) as Hs.
  destruct (snd (put_validated d u id v now)); simpl; try discriminate;
    intros _; exact Hs.
Qed.

(** An update, whatever the validated payload holds, keeps every lead of
    the store and its owner: the [SET] list names data columns only, and
    an assignment to a data column leaves the owner alone. *)
Lemma put_validated_keeps_owner d u id v now i b :
  buyers d !! i = Some b ->
  exists b2,
    buyers (fst (put_validated d u id v now)) !! i = Some b2
    /\ b_owner b2 = b_owner b /\ b_id b2 = b_id b
    /\ b_created b2 = b_created b.
Proof.
  intros Hb. unfold put_validated, select_buyer.
  destruct (buyers d !! id) as [cur|] eqn:Hcur; simpl; [|eauto].
  destruct (checkOwnership u (b_owner cur)); simpl; [|eauto].
  destruct (stale v cur); simpl; [eauto|].
  pose proof (update_loop_data_columns (b_cols cur) v) as Hdata.
  destruct (update_loop (b_cols cur) v) as [sets changes]. cbn [fst] in Hdata.
  destruct sets as [|s0 sets]; simpl; [eauto|].
  destruct (update_buyer d id (s0 :: sets) now) as [[d1 b1]|] eqn:Hu; simpl;
    [|eauto].
  apply (update_buyer_spec _ _ _ _ _ _ Hdata) in Hu
    as (b0 & Hb0 & Hid & Hown & Hcr & _ & Hbs & _).
  assert (Hd1 : exists b2, buyers d1 !! i = Some b2
                           /\ b_owner b2 = b_owner b /\ b_id b2 = b_id b
                           /\ b_created b2 = b_created b).
  { rewrite Hbs. destruct (decide (id = i)) as [->|Hne].
    - rewrite lookup_insert_eq. exists b1.
      rewrite Hb in Hb0. injection Hb0 as <-. auto.
    - rewrite lookup_insert_ne by exact Hne. eauto. }
  destruct changes; simpl; exact Hd1.
Qed.

(** The owner of a lead is the caller that created it. *)
Lemma post_buyer_owner d u body now d1 b :
  post_buyer d u body now = (d1, PostCreated b) ->
  b_owner b = u_id u /\ buyers d1 !! b_id b = Some b.
Proof.
  unfold post_buyer. destruct (parse buyerSchema body) as [iss|v];
    [discriminate|].
  unfold insert_buyer. destruct (row_ok (insert_columns v)); [|discriminate].
  intros [= <- <-]. cbn. split; [reflexivity|]. apply lookup_insert_eq.
Qed.

(** C9. [PUT /:id] never writes [owner_id].  Whatever keys the payload
    contains, the [SET] list that the handler builds from the validated
    payload names columns of [fieldMapping] only, none of which is
    [owner_id] (the store would execute an assignment to it as any
    other); and so, whatever the outcome, every lead of the store is
    still there with the owner it had. *)
Theorem put_buyer_keeps_owner d u id body now i b :
  buyers d !! i = Some b ->
  (forall v cur c w,
      In (c, w) (fst (update_loop (b_cols cur) v)) ->
      c <> "owner_id" /\ exists k, mapping_get fieldMapping k = Some c)
  /\ exists b2,
      buyers (fst (put_buyer d u id body now)) !! i = Some b2
      /\ b_owner b2 = b_owner b.
Proof.
  intros Hb. split.
  - intros v cur c w Hin. rewrite update_loop_fst in Hin.
    apply list_elem_of_In, list_elem_of_omap in Hin as ([k val] & _ & Ha).
    unfold assignment, assigned_column in Ha. cbn [fst snd] in Ha.
    destruct (String.eqb k "updatedAt"); [discriminate|].
    destruct (mapping_get fieldMapping k) as [c'|] eqn:Em; [|discriminate].
    assert (Hc : c = c') by (destruct val; congruence).
    subst c'. split; [|eauto].
    intros ->. apply mapping_get_column in Em.
    apply data_column_not_owner in Em. discriminate.
  - unfold put_buyer.
    destruct (parse updateBuyerSchema body) as [iss|v]; simpl; [eauto|].
    destruct (put_validated_keeps_owner d u id v now i b Hb)
      as (b2 & Hb2 & Hown & _).
    eauto.
Qed.

(** A field whose schema always explains a failure is accepted when the
    field pass reports nothing. *)
Lemma parse_fields_ok sh input out k t :
  parse_fields sh input = ([], out) -> In (k, t) sh ->
  (forall x, run t x <> inl []) ->
  exists v, run t (get input k) = inr v.
Proof.
  revert out. induction sh as [|[k' t'] sh IH]; simpl; [tauto|].
  intros out Hp Hin Hne.
  destruct (parse_fields sh input) as [iss out'] eqn:E.
  destruct Hin as [Heq|Hin].
  - injection Heq as -> ->.
    destruct (run t (get input k)) as [msgs|v'] eqn:R; [|eauto].
    destruct msgs; [exfalso; exact (Hne _ R) | discriminate].
  - destruct (run t' (get input k')) as [msgs|v'] eqn:R.
    + destruct msgs; [|discriminate]. injection Hp as -> _.
      eapply IH; eauto.
    + assert (iss = []) as -> by (destruct v'; injection Hp as -> _; reflexivity).
      eapply IH; eauto.
Qed.

Lemma updateBuyerSchema_keys :
  NoDup (map fst (shape updateBuyerSchema)).
Proof. compute_done. Qed.

Lemma updatedAt_in_shape : In ("updatedAt", updatedAt_type) (shape updateBuyerSchema).
Proof. simpl. do 14 right. left. reflexivity. Qed.

(** The validated payload carries the token of the request. *)
Lemma validated_token body v :
  parse updateBuyerSchema body = inr v ->
  match get body "updatedAt" with
  | JStr token =>
      is_datetime token = true /\ get v "updatedAt" = JStr token
  | JUndefined => get v "updatedAt" = JUndefined
  | _ => False
  end.
Proof.
  intros Hp. apply parse_inr_fields in Hp.
  destruct (parse_fields_ok _ _ _ _ _ Hp updatedAt_in_shape) as [r Hr].
  { intros x. unfold updatedAt_type; simpl.
    destruct x; simpl; try discriminate.
    unfold ck_format. destruct (is_datetime s); discriminate. }
  pose proof (parse_fields_get _ body _ _ _ updateBuyerSchema_keys
                updatedAt_in_shape Hr) as Hg.
  rewrite Hp in Hg. simpl in Hg.
  revert Hr. unfold updatedAt_type; simpl.
  destruct (get body "updatedAt"); simpl; try discriminate.
  - intros [= <-]. exact Hg.
  - unfold ck_format. destruct (is_datetime s); [|discriminate].
    intros [= <-]. auto.
Qed.

(** *** The change set *)

Lemma strict_neq_false a b : strict_neq a b = false -> a = b.
Proof.
  destruct a, b; simpl; try discriminate; try reflexivity;
    intros E; apply negb_false_iff in E.
  - apply Bool.eqb_prop in E. congruence.
  - apply Z.eqb_eq in E. congruence.
  - apply String.eqb_eq in E. congruence.
Qed.

Lemma changes_get_set cs k ft k' :
  changes_get (changes_set cs k ft) k' =
    if String.eqb k k' then Some ft else changes_get cs k'.
Proof.
  induction cs as [|[k0 ft0] cs IH]; simpl.
  - reflexivity.
  - destruct (String.eqb_spec k0 k) as [->|Hne]; simpl.
    + destruct (String.eqb k k'); reflexivity.
    + rewrite IH. destruct (String.eqb_spec k0 k') as [->|Hne'];
        [|reflexivity].
      destruct (String.eqb_spec k k'); [congruence|reflexivity].
Qed.

Lemma get_notin (o : obj) k : ~ In k (keys o) -> get o k = JUndefined.
Proof.
  induction o as [|[k0 v0] o IH]; simpl; [reflexivity|].
  intros Hn. destruct (String.eqb_spec k0 k); [tauto|]. apply IH. tauto.
Qed.

Lemma update_step_changes cols st k0 v0 k :
  changes_get (snd (update_step cols st (k0, v0))) k =
    if String.eqb k0 k
    then match change_of cols k0 v0 with
         | Some ft => Some ft
         | None => changes_get (snd st) k
         end
    else changes_get (snd st) k.
Proof.
  unfold update_step, change_of. destruct st as [sets cs].
  destruct (String.eqb k0 "updatedAt").
  { destruct (String.eqb k0 k); reflexivity. }
  destruct (mapping_get fieldMapping k0) as [c|].
  2:{ destruct (String.eqb k0 k); reflexivity. }
  destruct v0; cbn [snd];
    try (destruct (String.eqb k0 k); reflexivity);
    match goal with
    | |- context [strict_neq ?a ?b] => destruct (strict_neq a b)
    end;
    rewrite ?changes_get_set; destruct (String.eqb k0 k); reflexivity.
Qed.

Lemma change_of_undefined cols k : change_of cols k JUndefined = None.
Proof.
  unfold change_of. destruct (String.eqb k "updatedAt"); [reflexivity|].
  destruct (mapping_get fieldMapping k); reflexivity.
Qed.

Lemma fold_update_changes cols v st k :
  NoDup (keys v) ->
  changes_get (snd (fold_left (update_step cols) v st)) k =
    match change_of cols k (get v k) with
    | Some ft => Some ft
    | None => changes_get (snd st) k
    end.
Proof.
  revert st. induction v as [|[k0 v0] v IH]; intros st Hnd.
  - cbn [fold_left get]. rewrite change_of_undefined. reflexivity.
  - change (NoDup (k0 :: keys v)) in Hnd.
    apply NoDup_cons in Hnd as [Hn Hnd]. rewrite list_elem_of_In in Hn.
    cbn [fold_left get]. rewrite (IH _ Hnd), update_step_changes.
    destruct (String.eqb_spec k0 k) as [->|Hne]; [|reflexivity].
    rewrite (get_notin v k Hn), change_of_undefined. reflexivity.
Qed.

(** The change set of the update handler, key by key: a key has an entry
    exactly when it is a mapped field with a defined value that is not
    identical to the stored value, the comparison being made on the value
    as supplied (before the empty string is turned into null); the entry
    holds the stored and the supplied value. *)
Lemma update_loop_changes cols v k :
  NoDup (keys v) ->
  changes_get (snd (update_loop cols v)) k = change_of cols k (get v k).
Proof.
  intros Hnd. unfold update_loop. rewrite fold_update_changes by exact Hnd.
  cbn [snd changes_get]. destruct (change_of cols k (get v k)); reflexivity.
Qed.

(** C6, evaluated where it fails: the stored email is null and the
    payload supplies the empty string.  The statement writes null, the
    value that is stored already, and the change set has an entry for the
    field all the same. *)
Theorem update_loop_empty_string_entry cols :
  get cols "email" = JNull ->
  update_loop cols [("email", JStr "")] =
    ([("email", JNull)], [("email", (JNull, JStr ""))]).
Proof.
  intros He. unfold update_loop, update_step. cbn. rewrite He. reflexivity.
Qed.

(** Tags are compared as objects: identical tags have an entry too. *)
Lemma update_loop_same_tags_entry cols l :
  get cols "tags" = JArr l ->
  update_loop cols [("tags", JArr l)] =
    ([("tags", JArr l)], [("tags", (JArr l, JArr l))]).
Proof.
  intros He. unfold update_loop, update_step. cbn. rewrite He. reflexivity.
Qed.

(** *** An update that changes nothing *)

Lemma get_set (o : obj) k v k' :
  get (set o k v) k' = if String.eqb k k' then v else get o k'.
Proof.
  induction o as [|[k0 v0] o IH]; cbn [set get].
  - destruct (String.eqb k k'); reflexivity.
  - destruct (String.eqb_spec k0 k) as [->|Hne]; cbn [get].
    + destruct (String.eqb k k'); reflexivity.
    + rewrite IH. destruct (String.eqb_spec k0 k') as [->|Hne'];
        [|reflexivity].
      destruct (String.eqb_spec k k'); [congruence|reflexivity].
Qed.

Lemma keys_set (o : obj) k v : In k (keys o) -> keys (set o k v) = keys o.
Proof.
  induction o as [|[k0 v0] o IH]; [intros []|].
  cbn [set keys map fst]. intros [->|Hin].
  - rewrite String.eqb_refl. reflexivity.
  - destruct (String.eqb_spec k0 k) as [->|Hne]; [reflexivity|].
    cbn [map fst]. f_equal. apply IH, Hin.
Qed.

Lemma update_step_snd_same cols st k v :
  change_of cols k v = None -> snd (update_step cols st (k, v)) = snd st.
Proof.
  destruct st as [sets cs]. unfold update_step, change_of.
  destruct (String.eqb k "updatedAt"); [reflexivity|].
  destruct (mapping_get fieldMapping k) as [c|]; [|reflexivity].
  destruct v; cbn [snd]; try reflexivity;
    match goal with
    | |- context [strict_neq ?a ?b] => destruct (strict_neq a b)
    end; (reflexivity || discriminate).
Qed.

Lemma fold_update_snd_same cols v st :
  (forall k val, In (k, val) v -> change_of cols k val = None) ->
  snd (fold_left (update_step cols) v st) = snd st.
Proof.
  revert st. induction v as [|[k0 v0] v IH]; intros st Hn; cbn [fold_left];
    [reflexivity|].
  rewrite IH by (intros k val Hin; apply Hn; right; exact Hin).
  apply update_step_snd_same, Hn. left. reflexivity.
Qed.

End UpdateProperties.

(** ** The update handler on the sample store *)
Section UpdateExamples.
Import Sample.

Lemma db1_lead1 : buyers db1 !! 1%positive = Some lead1.
Proof. vm_compute. reflexivity. Qed.

Lemma put_buyer_error_atomic_witness :
  put_failed (snd (put_buyer db1 bob 1%positive [("fullName", JStr "Zed")] later))
  = true
  /\ fst (put_buyer db1 bob 1%positive [("fullName", JStr "Zed")] later) = db1.
Proof.
  split; [vm_compute; reflexivity|].
  apply put_buyer_error_atomic. vm_compute. reflexivity.
Defined.

Lemma put_buyer_keeps_owner_witness :
  buyers db1 !! 1%positive = Some lead1
  /\ exists b2,
      buyers (fst (put_buyer db1 alice 1%positive
                     [("fullName", JStr "Asha R. Rao");
                      ("owner_id", JStr "00000000-0000-4000-8000-000000000002");
                      ("ownerId", JStr "00000000-0000-4000-8000-000000000002")]
                     later))
        !! 1%positive = Some b2
      /\ b_owner b2 = b_owner lead1.
Proof.
  split; [exact db1_lead1|].
  exact (proj2 (put_buyer_keeps_owner db1 alice 1%positive _ later 1%positive
                  lead1 db1_lead1)).
Defined.

(** The store itself would hand the lead over: a statement that assigns
    [owner_id] is executed. *)
Example update_buyer_assigns_owner :
  exists d1 b1,
    update_buyer db1 1%positive
      [("owner_id", JStr "00000000-0000-4000-8000-000000000002")] later
    = Some (d1, b1)
    /\ b_owner lead1 = 1%positive /\ b_owner b1 = 2%positive
    /\ buyers d1 !! 1%positive = Some b1.
Proof. eexists. eexists. split; [vm_compute; reflexivity|]. auto. Qed.

(** The two spellings of [t0] denote the same instant: both pass. *)
Example same_instant_other_spelling :
  (exists b, snd (put_buyer db1 alice 1%positive
                    [("fullName", JStr "Asha R. Rao"); ("updatedAt", JStr t0)]
                    later) = PutOk b)
  /\ (exists b, snd (put_buyer db1 alice 1%positive
                       [("fullName", JStr "Asha R. Rao");
                        ("updatedAt", JStr t0_ms)] later) = PutOk b).
Proof. split; vm_compute; eexists; reflexivity. Qed.

Lemma update_loop_empty_string_entry_witness :
  get (b_cols lead1) "email" = JNull
  /\ update_loop (b_cols lead1) [("email", JStr "")] =
       ([("email", JNull)], [("email", (JNull, JStr ""))]).
Proof.
  split; [reflexivity|]. apply update_loop_empty_string_entry. reflexivity.
Defined.

(** Supplying the tags that are stored writes an audit entry. *)
Example same_tags_write_audit_entry :
  exists b1,
    put_buyer db1 alice 1%positive [("status", JStr "New"); ("tags", JArr [])]
      later
    = (Db (<[1%positive := b1]> (buyers db1))
          (history db1
           ++ [HistoryRow 1%positive 1%positive later
                 (DUpdated [("tags", (JArr [], JArr []))])])%list,
       PutOk b1)
    /\ b_cols b1 = b_cols lead1.
Proof. eexists. split; vm_compute; reflexivity. Qed.

(** C5 fails as stated: the update of [lead1] that supplies its current
    name succeeds and [updated_at] is no longer what it was. *)
Lemma noop_update_refreshes_updatedAt :
  get (b_cols lead1) "full_name" = JStr "Asha Rao"
  /\ exists b1,
      snd (put_buyer db1 alice 1%positive [("fullName", JStr "Asha Rao")] later)
      = PutOk b1
      /\ buyers (fst (put_buyer db1 alice 1%positive
                        [("fullName", JStr "Asha Rao")] later)) !! 1%positive
         = Some b1
      /\ b_updated b1 <> b_updated lead1.
Proof.
  split; [reflexivity|]. eexists. split; [vm_compute; reflexivity|].
  split; [vm_compute; reflexivity|]. discriminate.
Qed.

End UpdateExamples.

(** ** The list handler *)
Section ListProperties.
Context `{Platform}.

Lemma parse_fields_issue sh input k t m msgs :
  In (k, t) sh -> run t (get input k) = inl (m :: msgs) ->
  fst (parse_fields sh input) <> [].
Proof.
  induction sh as [|[k' t'] sh IH]; cbn [In parse_fields]; [tauto|].
  intros [Heq|Hin] Hr.
  - injection Heq as -> ->. rewrite Hr.
    destruct (parse_fields sh input) as [iss out]. discriminate.
  - specialize (IH Hin Hr).
    destruct (parse_fields sh input) as [iss out]. cbn [fst] in IH.
    destruct (run t' (get input k')) as [ms|v].
    + cbn [fst]. destruct ms; [exact IH | discriminate].
    + destruct v; exact IH.
Qed.

Lemma filtersSchema_keys : NoDup (map fst (shape filtersSchema)).
Proof. compute_done. Qed.

Lemma sortBy_in_shape : In ("sortBy", sortBy_type) (shape filtersSchema).
Proof. cbn. do 7 right. left. reflexivity. Qed.

(** What the schema makes of a [sortBy] string. *)
Lemma sortBy_type_string s :
  run sortBy_type (JStr s) =
    if existsb (String.eqb s) ["updatedAt"; "fullName"; "createdAt"]
    then inr (JStr s)
    else if String.eqb s "" then inr (JStr s) else inl ["Invalid input"].
Proof.
  unfold sortBy_type, default, or, z_enum, z_literal. cbn [run].
  destruct (existsb (String.eqb s) ["updatedAt"; "fullName"; "createdAt"]);
    [reflexivity|].
  destruct (String.eqb s ""); reflexivity.
Qed.

Lemma sortBy_type_explains x : run sortBy_type x <> inl [].
Proof.
  destruct x; try discriminate. rewrite sortBy_type_string.
  destruct (existsb (String.eqb s) ["updatedAt"; "fullName"; "createdAt"]);
    [discriminate|].
  destruct (String.eqb s ""); discriminate.
Qed.

(** C7, amended. Whenever the list handler builds a statement for a
    non-empty [sortBy], the column after [ORDER BY] is the allow-listed
    column of that [sortBy]; an absent [sortBy] sorts by [updated_at]; a
    [sortBy] string that is neither empty nor one of the three names
    makes the filter schema fail, and no statement is built. *)
Theorem list_sort_column query :
  (forall q s,
      list_buyers_query query = inr q ->
      get query "sortBy" = JStr s -> s <> "" ->
      mapping_get validSortColumns s = Some (q_order_column q)
      /\ In (q_order_column q) ["b.updated_at"; "b.full_name"; "b.created_at"])
  /\ (forall q,
        list_buyers_query query = inr q ->
        get query "sortBy" = JUndefined ->
        q_order_column q = "b.updated_at")
  /\ (forall s,
        get query "sortBy" = JStr s -> s <> "" ->
        ~ In s ["updatedAt"; "fullName"; "createdAt"] ->
        exists iss, list_buyers_query query = inl iss).
Proof.
  assert (Hout : forall filters v,
             parse filtersSchema query = inr filters ->
             run sortBy_type (get query "sortBy") = inr v ->
             get filters "sortBy" = v).
  { intros filters v Hp Hr. apply parse_inr_fields in Hp.
    pose proof (parse_fields_get _ query _ _ _ filtersSchema_keys
                  sortBy_in_shape Hr) as Hg.
    rewrite Hp in Hg. exact Hg. }
  split; [|split].
  - intros q s Hq Hs Hne. unfold list_buyers_query in Hq.
    destruct (parse filtersSchema query) as [iss|filters] eqn:Hp;
      [discriminate|].
    injection Hq as <-.
    destruct (parse_fields_ok _ _ _ _ _ (parse_inr_fields _ _ _ Hp)
                sortBy_in_shape sortBy_type_explains) as [v Hr].
    unfold build_list_query. cbn [q_order_column].
    rewrite (Hout _ _ eq_refl Hr). rewrite Hs, sortBy_type_string in Hr.
    destruct (existsb (String.eqb s) ["updatedAt"; "fullName"; "createdAt"])
      eqn:Ee.
    + injection Hr as <-. cbn [str_of].
      cbn [existsb] in Ee. unfold validSortColumns. cbn [mapping_get].
      rewrite (String.eqb_sym "updatedAt"), (String.eqb_sym "fullName"),
        (String.eqb_sym "createdAt").
      destruct (String.eqb s "updatedAt"); [cbn; auto|].
      destruct (String.eqb s "fullName"); [cbn; auto|].
      destruct (String.eqb s "createdAt"); [cbn; auto|].
      discriminate.
    + destruct (String.eqb_spec s ""); [contradiction|discriminate].
  - intros q Hq Hs. unfold list_buyers_query in Hq.
    destruct (parse filtersSchema query) as [iss|filters] eqn:Hp;
      [discriminate|].
    injection Hq as <-.
    assert (Hr : run sortBy_type (get query "sortBy") = inr (JStr "updatedAt"))
      by (rewrite Hs; reflexivity).
    unfold build_list_query. cbn [q_order_column].
    rewrite (Hout _ _ eq_refl Hr). reflexivity.
  - intros s Hs Hne Hnot. unfold list_buyers_query.
    destruct (parse filtersSchema query) as [iss|filters] eqn:Hp; [eauto|].
    exfalso. apply parse_inr_fields in Hp.
    assert (Hr : run sortBy_type (get query "sortBy") = inl ["Invalid input"]).
    { rewrite Hs, sortBy_type_string.
      destruct (existsb (String.eqb s) ["updatedAt"; "fullName"; "createdAt"])
        eqn:Ee.
      - exfalso. apply Hnot. apply existsb_exists in Ee as (x & Hx & Hxs).
        apply String.eqb_eq in Hxs. subst x. exact Hx.
      - destruct (String.eqb_spec s ""); [contradiction|reflexivity]. }
    apply (parse_fields_issue _ query _ _ _ _ sortBy_in_shape Hr).
    rewrite Hp. reflexivity.
Qed.

End ListProperties.

(** ** The import handler *)
Section ImportProperties.
Context `{Platform}.

(** The validation loop: nothing is skipped and nothing stops it. *)
Lemma validate_rows_spec rows : forall index,
  let (validRows, errors) := validate_rows index rows in
  length validRows = length (List.filter row_valid rows)
  /\ (length validRows + length errors = length rows)%nat
  /\ (forall i row iss,
        rows !! i = Some row ->
        parse csvRowSchema (processedRow row) = inl iss ->
        In ((index + i + 1)%nat, row_messages iss) errors)
  /\ (forall n msgs,
        In (n, msgs) errors ->
        exists i row iss,
          n = (index + i + 1)%nat /\ rows !! i = Some row
          /\ parse csvRowSchema (processedRow row) = inl iss
          /\ msgs = row_messages iss).
Proof.
  induction rows as [|row rest IH]; intros index; cbn [validate_rows].
  - repeat split; try reflexivity.
    + intros i row iss Hl. rewrite lookup_nil in Hl. discriminate.
    + intros n msgs [].
  - specialize (IH (S index)).
    destruct (validate_rows (S index) rest) as [validRows errors].
    destruct IH as (Hv & Hlen & Hall & Hex).
    cbn [List.filter]. unfold row_valid at 1.
    destruct (parse csvRowSchema (processedRow row)) as [iss0|v0] eqn:Hp;
      cbn [is_ok length].
    + split; [exact Hv|]. split; [lia|]. split.
      * intros i r iss Hl Hpr. destruct i as [|i]; cbn in Hl.
        -- injection Hl as <-. rewrite Hp in Hpr. injection Hpr as <-.
           left. f_equal. lia.
        -- right. replace (index + S i + 1)%nat with (S index + i + 1)%nat
             by lia. eapply Hall; eauto.
      * intros n msgs [Heq|Hin].
        -- injection Heq as <- <-. exists 0%nat, row, iss0.
           split; [lia|]. auto.
        -- destruct (Hex n msgs Hin) as (i & r & iss & -> & Hl & Hpr & ->).
           exists (S i), r, iss. split; [lia|]. auto.
    + split; [rewrite Hv; reflexivity|]. split; [lia|]. split.
      * intros i r iss Hl Hpr. destruct i as [|i]; cbn in Hl.
        -- injection Hl as <-. rewrite Hp in Hpr. discriminate.
        -- replace (index + S i + 1)%nat with (S index + i + 1)%nat by lia.
           eapply Hall; eauto.
      * intros n msgs Hin.
        destruct (Hex n msgs Hin) as (i & r & iss & -> & Hl & Hpr & ->).
        exists (S i), r, iss. split; [lia|]. auto.
Qed.

(** A batch with a row that fails the bulk-import validation leaves the
    store as it was; when the batch is within the limit of 200 rows, the
    answer carries one entry for every failing row, numbered from 1 by
    position and holding what [error.errors?.map(...)] gives for that
    row, together with the number of valid rows and the number of
    rows. *)
Lemma import_rejection d u rows now :
  (exists row, In row rows /\ row_valid row = false) ->
  fst (import_buyers d u rows now) = d
  /\ ((length rows <= 200)%nat ->
      exists errors,
        snd (import_buyers d u rows now)
        = ImportRejected errors (length (List.filter row_valid rows))
            (length rows)
        /\ (length (List.filter row_valid rows) + length errors
            = length rows)%nat
        /\ (forall i row iss,
              rows !! i = Some row ->
              parse csvRowSchema (processedRow row) = inl iss ->
              In (S i, row_messages iss) errors)
        /\ (forall n msgs,
              In (n, msgs) errors ->
              exists i row iss,
                n = S i /\ rows !! i = Some row
                /\ parse csvRowSchema (processedRow row) = inl iss
                /\ msgs = row_messages iss)).
Proof.
  intros (bad & Hin & Hbad).
  pose proof (validate_rows_spec rows 0) as Hspec.
  destruct (validate_rows 0 rows) as [validRows errors] eqn:Hv.
  destruct Hspec as (Hcount & Hlen & Hall & Hex).
  assert (Herr : errors <> []).
  { apply (proj2 (list_elem_of_In _ _)) in Hin.
    apply list_elem_of_lookup in Hin as [i Hi].
    unfold row_valid in Hbad.
    destruct (parse csvRowSchema (processedRow bad)) as [iss|v] eqn:Hp;
      [|discriminate].
    intros ->. exact (Hall i bad iss Hi Hp). }
  assert (Hrows : rows <> []) by (intros ->; destruct Hin).
  unfold import_buyers. destruct rows as [|r0 rows']; [congruence|].
  destruct (200 <? length (r0 :: rows'))%nat eqn:Hcap.
  - split; [reflexivity|]. intros Hle. apply Nat.ltb_lt in Hcap. lia.
  - rewrite Hv. destruct errors as [|e errors']; [congruence|].
    split; [reflexivity|]. intros _. exists (e :: errors').
    cbn [snd]. rewrite Hcount. split; [reflexivity|].
    split; [rewrite <- Hcount; exact Hlen|]. split.
    + intros i row iss Hl Hp.
      replace (S i) with (0 + i + 1)%nat by lia. exact (Hall i row iss Hl Hp).
    + intros n msgs Hn. destruct (Hex n msgs Hn) as (i & row & iss & E & ?).
      exists i, row, iss. split; [lia|assumption].
Qed.

(** C1, where it fails.  The schemas are built with [safeExtend], so
    the release of the schema library is one whose error object has no
    [errors]: [error.errors?.map(...)] is [undefined] for every failing
    row.  A batch within the limit with a failing row is then rejected
    as a whole, the store is as it was and the counts of valid and of
    all rows are reported, but the error list holds the numbers of the
    failing rows and not one validation message. *)
Theorem import_rejection_without_messages d u rows now :
  (forall iss, ZodError_errors iss = None) ->
  (exists row, In row rows /\ row_valid row = false) ->
  (length rows <= 200)%nat ->
  exists errors,
    import_buyers d u rows now
    = (d, ImportRejected errors (length (List.filter row_valid rows))
            (length rows))
    /\ (forall i row,
          rows !! i = Some row -> row_valid row = false ->
          In (S i, None) errors)
    /\ (forall n msgs,
          In (n, msgs) errors ->
          msgs = None
          /\ exists i row,
              n = S i /\ rows !! i = Some row /\ row_valid row = false).
Proof.
  intros Hnone Hbad Hlen.
  destruct (import_rejection d u rows now Hbad) as [Hd Hrej].
  destruct (Hrej Hlen) as (errors & Hsnd & _ & Hall & Hex).
  exists errors. split; [|split].
  - rewrite <- Hd at 2. rewrite <- Hsnd. apply surjective_pairing.
  - intros i row Hi Hrow. unfold row_valid in Hrow.
    destruct (parse csvRowSchema (processedRow row)) as [iss|v] eqn:Hp;
      [|discriminate].
    pose proof (Hall i row iss Hi Hp) as Hin.
    unfold row_messages in Hin. rewrite Hnone in Hin. exact Hin.
  - intros n msgs Hin.
    destruct (Hex n msgs Hin) as (i & row & iss & -> & Hi & Hp & ->).
    split; [unfold row_messages; rewrite Hnone; reflexivity|].
    exists i, row. split; [reflexivity|]. split; [exact Hi|].
    unfold row_valid. rewrite Hp. reflexivity.
Qed.

End ImportProperties.

(** ** Export followed by import *)
Section Decimal.

Lemma dec_val_digit_char d : 0 <= d < 10 -> dec_val (digit_char d) = Some d.
Proof.
  intros Hd.
  assert (Hc : d = 0 \/ d = 1 \/ d = 2 \/ d = 3 \/ d = 4 \/ d = 5 \/ d = 6
               \/ d = 7 \/ d = 8 \/ d = 9) by lia.
  repeat (destruct Hc as [->|Hc]; [reflexivity|]). subst. reflexivity.
Qed.

Lemma dec_val_is_digit c v : dec_val c = Some v -> is_digit c = true.
Proof. unfold dec_val. destruct (is_digit c); [reflexivity|discriminate]. Qed.

Lemma is_digit_dec_val c : is_digit c = true -> exists v, dec_val c = Some v.
Proof. unfold dec_val. intros ->. eauto. Qed.

Lemma all_chars_app p s1 s2 :
  all_chars p (s1 ++ s2) = all_chars p s1 && all_chars p s2.
Proof.
  induction s1 as [|c s1 IH]; simpl; [reflexivity|].
  rewrite IH, andb_assoc. reflexivity.
Qed.

Lemma parse_digits_app s1 s2 a :
  all_chars is_digit s1 = true ->
  parse_digits dec_val 10 (s1 ++ s2) a =
    parse_digits dec_val 10 s2 (parse_digits dec_val 10 s1 a).
Proof.
  revert a. induction s1 as [|c s1 IH]; intros a Hall; simpl in *;
    [reflexivity|].
  apply andb_prop in Hall as [Hc Hall].
  destruct (is_digit_dec_val c Hc) as [v ->]. apply IH, Hall.
Qed.

Lemma digits_all fuel n : 0 <= n -> all_chars is_digit (digits fuel n) = true.
Proof.
  revert n. induction fuel as [|fuel IH]; intros n Hn; cbn [digits];
    [reflexivity|].
  destruct (Z.ltb_spec n 10).
  - cbn [all_chars]. rewrite andb_true_r.
    eapply dec_val_is_digit, dec_val_digit_char. lia.
  - rewrite all_chars_app, IH by (apply Z.div_pos; lia).
    cbn [all_chars andb]. rewrite andb_true_r.
    eapply dec_val_is_digit, dec_val_digit_char. apply Z.mod_pos_bound. lia.
Qed.

Lemma digits_S fuel n :
  digits (S fuel) n =
    if n <? 10 then String (digit_char n) ""
    else digits fuel (n / 10) ++ String (digit_char (n mod 10)) "".
Proof. reflexivity. Qed.

Lemma parse_digits_digits fuel n :
  0 <= n < 10 * 2 ^ Z.of_nat fuel ->
  parse_digits dec_val 10 (digits (S fuel) n) None = Some n.
Proof.
  revert n. induction fuel as [|fuel IH]; intros n Hn; rewrite digits_S.
  - change (2 ^ Z.of_nat 0) with 1 in Hn.
    destruct (Z.ltb_spec n 10); [|lia].
    cbn [parse_digits]. rewrite dec_val_digit_char by lia. f_equal; lia.
  - destruct (Z.ltb_spec n 10) as [Hlt|Hge].
    + cbn [parse_digits]. rewrite dec_val_digit_char by lia. f_equal; lia.
    + rewrite parse_digits_app by (apply digits_all, Z.div_pos; lia).
      rewrite Nat2Z.inj_succ, Z.pow_succ_r in Hn by lia.
      assert (Hq : 0 <= n / 10 < 10 * 2 ^ Z.of_nat fuel).
      { split; [apply Z.div_pos; lia|].
        apply Z.div_lt_upper_bound; [lia|].
        pose proof (Z.pow_pos_nonneg 2 (Z.of_nat fuel)). lia. }
      rewrite (IH _ Hq). cbn [parse_digits].
      rewrite dec_val_digit_char by (apply Z.mod_pos_bound; lia).
      f_equal; pose proof (Z.div_mod n 10); lia.
Qed.

Lemma digits_first fuel n :
  0 <= n -> exists c s, digits (S fuel) n = String c s /\ is_digit c = true.
Proof.
  intros Hn. pose proof (digits_all (S fuel) n Hn) as Hall.
  destruct (digits (S fuel) n) as [|c s] eqn:E.
  - exfalso. rewrite digits_S in E. destruct (n <? 10); [discriminate|].
    destruct (digits fuel (n / 10)); discriminate.
  - cbn [all_chars] in Hall. apply andb_prop in Hall as [Hc _]. eauto.
Qed.

Lemma is_digit_not c c' : is_digit c = true -> is_digit c' = false ->
  Ascii.eqb c c' = false.
Proof.
  intros Hc Hc'. destruct (Ascii.eqb_spec c c'); [congruence|reflexivity].
Qed.

Lemma is_digit_not_space c : is_digit c = true -> is_space c = false.
Proof.
  unfold is_digit, is_space. intros Hd.
  apply andb_prop in Hd as [H1 H2].
  apply Nat.leb_le in H1. apply Nat.leb_le in H2.
  destruct (Nat.leb_spec 9 (nat_of_ascii c));
    destruct (Nat.leb_spec (nat_of_ascii c) 13);
    destruct (Nat.eqb_spec (nat_of_ascii c) 32);
    destruct (Nat.eqb_spec (nat_of_ascii c) 160); cbn; try reflexivity; lia.
Qed.

(** [parseInt] on a string of digits reads all of it in base ten. *)
Lemma parseInt_digits s :
  all_chars is_digit s = true ->
  parseInt s = match parse_digits dec_val 10 s None with
               | Some n => JNum n
               | None => JNaN
               end.
Proof.
  intros Hall. unfold parseInt. destruct s as [|c s]; [reflexivity|].
  cbn [all_chars] in Hall. apply andb_prop in Hall as [Hc Hs].
  cbn [ltrim]. rewrite (is_digit_not_space c Hc).
  rewrite (is_digit_not c "-" Hc eq_refl), (is_digit_not c "+" Hc eq_refl).
  destruct s as [|c1 s]; [destruct (parse_digits _ _ _ _); reflexivity|].
  cbn [all_chars] in Hs. apply andb_prop in Hs as [Hc1 Hs].
  rewrite (is_digit_not c1 "x" Hc1 eq_refl), (is_digit_not c1 "X" Hc1 eq_refl).
  rewrite andb_false_r.
  destruct (parse_digits _ _ _ _); reflexivity.
Qed.

(** Printing a natural number and parsing it back. *)
Lemma parseInt_decimal n : 0 <= n -> parseInt (decimal n) = JNum n.
Proof.
  intros Hn. unfold decimal. destruct (Z.ltb_spec n 0); [lia|].
  rewrite parseInt_digits by (apply digits_all, Hn).
  rewrite parse_digits_digits; [reflexivity|].
  split; [exact Hn|]. rewrite Z2Nat.id by apply Z.log2_nonneg.
  destruct (Z.eq_dec n 0) as [->|Hnz]; [cbn; lia|].
  pose proof (Z.log2_spec n ltac:(lia)) as [_ Hu].
  rewrite Z.pow_succ_r in Hu by apply Z.log2_nonneg. lia.
Qed.

Lemma decimal_nonempty n : 0 <= n -> String.eqb (decimal n) "" = false.
Proof.
  intros Hn. unfold decimal. destruct (Z.ltb_spec n 0); [lia|].
  destruct (digits_first (Z.to_nat (Z.log2 n)) n Hn) as (c & s & -> & _).
  reflexivity.
Qed.

End Decimal.

Section Tags.

Lemma split_on_no_comma x : no_comma x = true -> split_on comma x = [x].
Proof.
  unfold no_comma. induction x as [|c x IH]; cbn [all_chars split_on];
    [reflexivity|].
  intros Hx. apply andb_prop in Hx as [Hc Hx].
  apply negb_true_iff in Hc. rewrite Hc, (IH Hx). reflexivity.
Qed.

Lemma split_on_app_comma x rest :
  no_comma x = true ->
  split_on comma (x ++ String comma rest) = x :: split_on comma rest.
Proof.
  unfold no_comma. induction x as [|c x IH]; simpl; [reflexivity|].
  intros Hx. apply andb_prop in Hx as [Hc Hx].
  apply negb_true_iff in Hc. rewrite Hc, (IH Hx). reflexivity.
Qed.

Lemma split_join l :
  Forall (fun x => no_comma x = true) l -> l <> [] ->
  split_on comma (join "," l) = l.
Proof.
  induction 1 as [|x l Hx Hl IH]; intros Hne; [congruence|].
  destruct l as [|y l].
  - cbn [join]. apply split_on_no_comma, Hx.
  - change (join "," (x :: y :: l))
      with (x ++ String comma (join "," (y :: l))).
    rewrite split_on_app_comma by exact Hx. f_equal. apply IH. discriminate.
Qed.

Lemma join_nonempty x l :
  (0 <? String.length x)%nat = true -> String.eqb (join "," (x :: l)) "" = false.
Proof.
  intros Hx. destruct x as [|c x]; [discriminate|].
  destruct l; reflexivity.
Qed.

Lemma tag_ok_parts tag :
  tag_ok tag = true ->
  (0 <? String.length tag)%nat = true /\ trim tag = tag /\ no_comma tag = true.
Proof.
  unfold tag_ok. intros Ht. apply andb_prop in Ht as [Ht Hc].
  apply andb_prop in Ht as [Hl Htr]. apply String.eqb_eq in Htr. auto.
Qed.

Lemma map_trim_tags l :
  Forall (fun t => tag_ok t = true) l -> map trim l = l.
Proof.
  induction 1 as [|t l Ht _ IH]; [reflexivity|].
  cbn [map]. rewrite IH. apply tag_ok_parts in Ht as (_ & -> & _).
  reflexivity.
Qed.

Lemma filter_nonempty_tags l :
  Forall (fun t => tag_ok t = true) l ->
  List.filter (fun tag => (0 <? String.length tag)%nat) l = l.
Proof.
  induction 1 as [|t l Ht _ IH]; [reflexivity|].
  cbn [List.filter]. apply tag_ok_parts in Ht as (-> & _ & _).
  rewrite IH. reflexivity.
Qed.

(** The tags of a lead survive the comma-join of the export and the
    split, trim and filter of the import when each of them is [tag_ok]. *)
Lemma csv_tags_join l :
  forallb tag_ok l = true ->
  csv_tags (js_or (JStr (join "," l)) (JStr "")) = JArr l.
Proof.
  intros Hall.
  assert (Hf : Forall (fun t => tag_ok t = true) l).
  { apply Forall_forall. intros t Ht.
    apply (proj1 (forallb_forall _ _) Hall), list_elem_of_In, Ht. }
  destruct l as [|x l]; [reflexivity|].
  assert (Hx : (0 <? String.length x)%nat = true).
  { apply Forall_inv in Hf. apply tag_ok_parts in Hf. tauto. }
  assert (Hor : js_or (JStr (join "," (x :: l))) (JStr "")
                = JStr (join "," (x :: l))).
  { unfold js_or. cbn [truthy]. rewrite (join_nonempty x l Hx). reflexivity. }
  rewrite Hor. unfold csv_tags. cbn [truthy].
  rewrite (join_nonempty x l Hx). cbn [negb].
  rewrite split_join; [| |discriminate].
  - rewrite (map_trim_tags _ Hf), (filter_nonempty_tags _ Hf). reflexivity.
  - eapply Forall_impl; [exact Hf|]. intros t Ht.
    apply tag_ok_parts in Ht. tauto.
Qed.

End Tags.

Section FieldFacts.
Context `{Platform}.

(** When every field accepts its input, the field pass returns the
    parsed values that are defined, in the order of the shape. *)
Lemma parse_fields_all sh input ws :
  Forall2 (fun kt w => run (snd kt) (get input (fst kt)) = inr w) sh ws ->
  parse_fields sh input = ([], defined_entries (combine (map fst sh) ws)).
Proof.
  induction 1 as [|[k t] w sh ws Hr _ IH]; [reflexivity|].
  cbn [parse_fields map combine fst snd] in *. rewrite IH, Hr.
  unfold defined_entries. cbn [List.filter snd].
  destruct w; reflexivity.
Qed.

Lemma enum_ok vals s :
  existsb (String.eqb s) vals = true -> run (z_enum vals) (JStr s) = inr (JStr s).
Proof. intros Hs. cbn [z_enum run]. rewrite Hs. reflexivity. Qed.

Lemma fullName_type_ok s :
  (2 <=? String.length s)%nat && (String.length s <=? 80)%nat = true ->
  run fullName_type (JStr s) = inr (JStr s).
Proof.
  intros Hs. apply andb_prop in Hs as [H1 H2].
  unfold fullName_type, z_string, ck_min, ck_max. cbn [run omap list_omap].
  rewrite H1, H2. reflexivity.
Qed.

Lemma email_type_empty : run email_type (JStr "") = inr (JStr "").
Proof.
  unfold email_type, or, optional, z_string, z_literal, ck_format.
  cbn [run optin omap list_omap]. destruct (is_email ""); reflexivity.
Qed.

Lemma email_type_ok s :
  is_email s = true -> run email_type (JStr s) = inr (JStr s).
Proof.
  intros Hs. unfold email_type, or, optional, z_string, z_literal, ck_format.
  cbn [run optin omap list_omap]. rewrite Hs. reflexivity.
Qed.

Lemma phoneSchema_ok s :
  (10 <=? String.length s)%nat && (String.length s <=? 15)%nat
  && all_chars is_digit s = true ->
  run phoneSchema (JStr s) = inr (JStr s).
Proof.
  intros Hs. unfold phoneSchema, z_string, ck_format, phone_re.
  cbn [run omap list_omap]. rewrite Hs. reflexivity.
Qed.

Lemma budget_type_undefined : run budget_type JUndefined = inr JUndefined.
Proof. reflexivity. Qed.

Lemma budget_type_ok n :
  (0 <=? n) && (n <=? INT4_MAX) = true ->
  run budget_type (JNum n) = inr (JNum n).
Proof.
  intros Hn. apply andb_prop in Hn as [H0 H1].
  apply Z.leb_le in H0. apply Z.leb_le in H1. unfold INT4_MAX in H1.
  unfold budget_type, optional, z_int, MAX_SAFE_INTEGER. cbn [run optin].
  destruct (Z.leb_spec (- (2 ^ 53 - 1)) n); [|lia].
  destruct (Z.leb_spec n (2 ^ 53 - 1)); [|lia].
  cbn [andb negb]. destruct (Z.ltb_spec n 0); [lia|reflexivity].
Qed.

Lemma notes_type_ok s :
  (String.length s <=? 1000)%nat = true ->
  run notes_type (JStr s) = inr (JStr s).
Proof.
  intros Hs. unfold notes_type, optional, z_string, ck_max.
  cbn [run optin omap list_omap]. rewrite Hs. reflexivity.
Qed.

Lemma csv_tags_type_string s :
  run csv_tags_type (JStr s) = inr (csv_tags (JStr s)).
Proof. reflexivity. Qed.

Lemma csvRowSchema_shape :
  shape csvRowSchema =
    [ ("fullName", fullName_type); ("email", email_type);
      ("phone", phoneSchema); ("city", CityEnum);
      ("propertyType", PropertyTypeEnum); ("bhk", optional BHKEnum);
      ("purpose", PurposeEnum); ("budgetMin", budget_type);
      ("budgetMax", budget_type); ("timeline", TimelineEnum);
      ("source", SourceEnum); ("status", status_type);
      ("notes", notes_type); ("tags", csv_tags_type) ].
Proof. reflexivity. Qed.

Lemma csvRowSchema_checks out :
  omap (fun ck => ck out) (checks csvRowSchema) =
    ((if bhk_rule out then []
      else [(["bhk"], "BHK is required for Apartment and Villa property types")])
     ++
     (if budget_rule out then []
      else [(["budgetMax"],
             "Budget max must be greater than or equal to budget min")]))%list.
Proof.
  cbn [csvRowSchema safeExtend buyerSchema refine checks shape z_object app
         omap list_omap].
  destruct (bhk_rule out), (budget_rule out); reflexivity.
Qed.

End FieldFacts.

Section RoundTrip.
Context `{Platform}.

Lemma obj_by_keys (c : obj) :
  NoDup (keys c) -> c = map (fun k => (k, get c k)) (keys c).
Proof.
  induction c as [|[k0 v0] c IH]; intros Hnd; [reflexivity|].
  change (keys ((k0, v0) :: c)) with (k0 :: keys c) in *.
  apply NoDup_cons in Hnd as [Hn Hnd].
  cbn [map get]. rewrite String.eqb_refl. f_equal.
  rewrite (IH Hnd) at 1. apply map_ext_in. intros k Hk.
  destruct (String.eqb_spec k0 k) as [->|_]; [|reflexivity].
  exfalso. apply Hn, list_elem_of_In, Hk.
Qed.

(** The typed copy of the row that the import handler reads back from
    an exported lead. *)
Lemma processed_export b :
  processedRow (csv_record (export_row b)) =
    let c := b_cols b in
    [ ("fullName", JStr (csv_cell (get c "full_name")));
      ("email", JStr (csv_cell (get c "email")));
      ("phone", JStr (csv_cell (get c "phone")));
      ("city", JStr (csv_cell (get c "city")));
      ("propertyType", JStr (csv_cell (get c "property_type")));
      ("bhk", JStr (csv_cell (get c "bhk")));
      ("purpose", JStr (csv_cell (get c "purpose")));
      ("budgetMin", parse_budget (JStr (csv_cell (get c "budget_min"))));
      ("budgetMax", parse_budget (JStr (csv_cell (get c "budget_max"))));
      ("timeline", JStr (csv_cell (get c "timeline")));
      ("source", JStr (csv_cell (get c "source")));
      ("status", JStr (csv_cell (get c "status")));
      ("notes", JStr (csv_cell (get c "notes")));
      ("tags", js_or (JStr (csv_cell (array_to_string (get c "tags"))))
                 (JStr "")) ].
Proof. reflexivity. Qed.

Lemma get_defined_entries (o : obj) k :
  NoDup (keys o) -> get (defined_entries o) k = get o k.
Proof.
  induction o as [|[k0 v0] o IH]; intros Hnd; [reflexivity|].
  change (keys ((k0, v0) :: o)) with (k0 :: keys o) in Hnd.
  apply NoDup_cons in Hnd as [Hn Hnd]. specialize (IH Hnd).
  unfold defined_entries in *. cbn [List.filter snd get].
  destruct (decide (v0 = JUndefined)) as [->|Hv]; cbn [get].
  - rewrite IH. destruct (String.eqb_spec k0 k) as [->|_]; [|reflexivity].
    apply get_notin. rewrite <- list_elem_of_In. exact Hn.
  - rewrite IH. reflexivity.
Qed.

Lemma member_nonempty s vals :
  existsb (String.eqb s) vals = true -> existsb (String.eqb "") vals = false ->
  String.eqb s "" = false.
Proof.
  intros Hs He. destruct (String.eqb_spec s "") as [->|_]; [|reflexivity].
  congruence.
Qed.

Lemma col_enum_member nullable vals s :
  col_enum nullable vals (JStr s) = true -> existsb (String.eqb s) vals = true.
Proof. intros Hs. exact Hs. Qed.

(** An exported email or notes cell, read back. *)
Lemma text_cell p t hi x :
  (forall s, p s = true -> (String.length s <=? hi)%nat = true ->
             run t (JStr s) = inr (JStr s)) ->
  run t (JStr "") = inr (JStr "") ->
  col_text true 0 hi x = true -> nonempty_text_or_null p x = true ->
  run t (JStr (csv_cell x)) = inr (JStr (csv_cell x))
  /\ js_or (JStr (csv_cell x)) JNull = x.
Proof.
  intros Hok Hempty Hcol Hne. destruct x; try discriminate.
  - split; [exact Hempty | reflexivity].
  - cbn [nonempty_text_or_null] in Hne. apply andb_prop in Hne as [Hs Hp].
    cbn [col_text] in Hcol. apply andb_prop in Hcol as [Hcol _].
    cbn [csv_cell]. split; [apply Hok; auto|].
    unfold js_or. cbn [truthy]. rewrite Hs. reflexivity.
Qed.

(** An exported budget cell, read back. *)
Lemma budget_cell x :
  col_budget x = true -> nonzero_or_null x = true ->
  let w := match x with JNum n => JNum n | _ => JUndefined end in
  run budget_type (parse_budget (JStr (csv_cell x))) = inr w
  /\ js_or w JNull = x.
Proof.
  intros Hcol Hnz. destruct x; try discriminate; cbv zeta.
  - split; reflexivity.
  - cbn [col_budget] in Hcol. cbn [nonzero_or_null] in Hnz.
    pose proof Hcol as Hcol'. apply andb_prop in Hcol' as [H0 _].
    apply Z.leb_le in H0. cbn [csv_cell].
    unfold parse_budget. cbn [truthy]. rewrite (decimal_nonempty n H0).
    cbn [negb]. rewrite (parseInt_decimal n H0). split.
    + apply budget_type_ok, Hcol.
    + unfold js_or. cbn [truthy]. rewrite Hnz. reflexivity.
Qed.

Lemma csv_tags_field tags :
  forallb tag_ok tags = true ->
  run csv_tags_type (js_or (JStr (join "," tags)) (JStr "")) = inr (JArr tags).
Proof.
  intros Ht. rewrite <- (csv_tags_join tags Ht). unfold js_or.
  destruct (truthy (JStr (join "," tags))); reflexivity.
Qed.

Lemma enum_field nullable vals s :
  col_enum nullable vals (JStr s) = true ->
  run (z_enum vals) (JStr s) = inr (JStr s).
Proof. intros Hs. apply enum_ok. exact Hs. Qed.

Lemma export_import_row b :
  roundtrips (b_cols b) = true ->
  exists v,
    parse csvRowSchema (processedRow (csv_record (export_row b))) = inr v
    /\ insert_columns v = b_cols b.
Proof.
  intros Hrt. rewrite processed_export. cbv zeta.
  unfold roundtrips in Hrt.
  apply andb_prop in Hrt as [Hrt Rtags]. apply andb_prop in Hrt as [Hrt Rmax].
  apply andb_prop in Hrt as [Hrt Rmin]. apply andb_prop in Hrt as [Hrt Rnotes].
  apply andb_prop in Hrt as [Hrt Remail]. apply andb_prop in Hrt as [Hrt Rst].
  apply andb_prop in Hrt as [Hrt Rbhk].
  unfold row_ok in Hrt.
  apply andb_prop in Hrt as [Hrt Kbhkreq]. apply andb_prop in Hrt as [Hrt Kbud].
  apply andb_prop in Hrt as [Hrt Ktags]. apply andb_prop in Hrt as [Hrt Knotes].
  apply andb_prop in Hrt as [Hrt Kst]. apply andb_prop in Hrt as [Hrt Ksrc].
  apply andb_prop in Hrt as [Hrt Ktl]. apply andb_prop in Hrt as [Hrt Kmax].
  apply andb_prop in Hrt as [Hrt Kmin]. apply andb_prop in Hrt as [Hrt Kpur].
  apply andb_prop in Hrt as [Hrt Kbhk]. apply andb_prop in Hrt as [Hrt Kpt].
  apply andb_prop in Hrt as [Hrt Kcity]. apply andb_prop in Hrt as [Hrt Kph].
  apply andb_prop in Hrt as [Hrt Kem]. apply andb_prop in Hrt as [Hrt Kfn].
  destruct (decide (keys (b_cols b) = data_columns)) as [Hkeys|];
    [clear Hrt|discriminate].
  assert (Hc : b_cols b = map (fun k => (k, get (b_cols b) k)) data_columns).
  { rewrite <- Hkeys. apply obj_by_keys. rewrite Hkeys. compute_done. }
  cbn [map data_columns] in Hc.
  unfold budget_check, bhk_required_check in *.
  set (x1 := get (b_cols b) "full_name") in *.
  set (x2 := get (b_cols b) "email") in *.
  set (x3 := get (b_cols b) "phone") in *.
  set (x4 := get (b_cols b) "city") in *.
  set (x5 := get (b_cols b) "property_type") in *.
  set (x6 := get (b_cols b) "bhk") in *.
  set (x7 := get (b_cols b) "purpose") in *.
  set (x8 := get (b_cols b) "budget_min") in *.
  set (x9 := get (b_cols b) "budget_max") in *.
  set (x10 := get (b_cols b) "timeline") in *.
  set (x11 := get (b_cols b) "source") in *.
  set (x12 := get (b_cols b) "status") in *.
  set (x13 := get (b_cols b) "notes") in *.
  set (x14 := get (b_cols b) "tags") in *.
  rewrite Hc. clear Hc Hkeys.
  clearbody x1 x2 x3 x4 x5 x6 x7 x8 x9 x10 x11 x12 x13 x14.
  destruct x1 as [| | | | |s1| |]; try discriminate Kfn.
  destruct x3 as [| | | | |s3| |]; try discriminate Kph.
  destruct x4 as [| | | | |s4| |]; try discriminate Kcity.
  destruct x5 as [| | | | |s5| |]; try discriminate Kpt.
  destruct x6 as [| | | | |s6| |]; try discriminate Kbhk;
    try discriminate Rbhk.
  destruct x7 as [| | | | |s7| |]; try discriminate Kpur.
  destruct x10 as [| | | | |s10| |]; try discriminate Ktl.
  destruct x11 as [| | | | |s11| |]; try discriminate Ksrc.
  destruct x12 as [| | | | |s12| |]; try discriminate Kst;
    try discriminate Rst.
  destruct x14 as [| | | | | |tags|]; try discriminate Rtags.
  assert (Lfn : (2 <=? String.length s1)%nat && (String.length s1 <=? 80)%nat
                = true).
  { cbn [col_text] in Kfn. apply andb_prop in Kfn as [Kfn _]. exact Kfn. }
  cbn [csv_cell array_to_string].
  destruct (text_cell is_email email_type 255%nat x2
              (fun s Hs _ => email_type_ok s Hs) email_type_empty Kem Remail)
    as [Fem Iem].
  destruct (text_cell (fun _ => true) notes_type 1000%nat x13
              (fun s _ Hl => notes_type_ok s Hl) eq_refl Knotes Rnotes)
    as [Fno Ino].
  destruct (budget_cell x8 Kmin Rmin) as [Fmin Imin].
  destruct (budget_cell x9 Kmax Rmax) as [Fmax Imax].
  set (w8 := match x8 with JNum n => JNum n | _ => JUndefined end) in *.
  set (w9 := match x9 with JNum n => JNum n | _ => JUndefined end) in *.
  assert (Hs6 : String.eqb s6 "" = false)
    by (eapply member_nonempty; [exact Kbhk | reflexivity]).
  assert (Hs12 : String.eqb s12 "" = false)
    by (eapply member_nonempty; [exact Kst | reflexivity]).
  match goal with
  | |- exists v, parse _ ?i = _ /\ _ => set (input := i)
  end.
  set (ws := [JStr s1; JStr (csv_cell x2); JStr s3; JStr s4; JStr s5; JStr s6;
              JStr s7; w8; w9; JStr s10; JStr s11; JStr s12;
              JStr (csv_cell x13); JArr tags]).
  assert (Hfields : parse_fields (shape csvRowSchema) input
                    = ([], defined_entries
                             (combine (map fst (shape csvRowSchema)) ws))).
  { apply parse_fields_all. rewrite csvRowSchema_shape. subst input ws.
    repeat (apply List.Forall2_cons;
            [cbn [fst snd get String.eqb Ascii.eqb Bool.eqb];
             first [ exact Fem | exact Fno | exact Fmin | exact Fmax
                   | apply fullName_type_ok; exact Lfn
                   | apply phoneSchema_ok; exact Kph
                   | apply csv_tags_field; exact Rtags
                   | eapply enum_field; eassumption ]
            |]).
    apply List.Forall2_nil. }
  assert (Hnd : NoDup (keys (combine (map fst (shape csvRowSchema)) ws)))
    by compute_done.
  set (o := combine (map fst (shape csvRowSchema)) ws) in *.
  assert (G1 : get o "fullName" = JStr s1) by reflexivity.
  assert (G2 : get o "email" = JStr (csv_cell x2)) by reflexivity.
  assert (G3 : get o "phone" = JStr s3) by reflexivity.
  assert (G4 : get o "city" = JStr s4) by reflexivity.
  assert (G5 : get o "propertyType" = JStr s5) by reflexivity.
  assert (G6 : get o "bhk" = JStr s6) by reflexivity.
  assert (G7 : get o "purpose" = JStr s7) by reflexivity.
  assert (G8 : get o "budgetMin" = w8) by reflexivity.
  assert (G9 : get o "budgetMax" = w9) by reflexivity.
  assert (G10 : get o "timeline" = JStr s10) by reflexivity.
  assert (G11 : get o "source" = JStr s11) by reflexivity.
  assert (G12 : get o "status" = JStr s12) by reflexivity.
  assert (G13 : get o "notes" = JStr (csv_cell x13)) by reflexivity.
  assert (G14 : get o "tags" = JArr tags) by reflexivity.
  clearbody o.
  exists (defined_entries o). split.
  - assert (Hb1 : bhk_rule (defined_entries o) = true).
    { unfold bhk_rule. rewrite !(get_defined_entries o _ Hnd), G5, G6.
      cbn [truthy]. rewrite Hs6. cbn [negb]. rewrite andb_false_r.
      reflexivity. }
    assert (Hb2 : budget_rule (defined_entries o) = true).
    { unfold budget_rule. rewrite !(get_defined_entries o _ Hnd), G8, G9.
      subst w8 w9. destruct x8; try discriminate Kmin; try reflexivity.
      destruct x9; try discriminate Kmax; cbn [truthy];
        rewrite ?andb_false_r; try reflexivity.
      cbn [nonzero_or_null] in Rmin, Rmax. rewrite Rmin, Rmax.
      exact Kbud. }
    unfold parse. rewrite Hfields, csvRowSchema_checks, Hb1, Hb2.
    reflexivity.
  - unfold insert_columns. rewrite !(get_defined_entries o _ Hnd).
    rewrite G1, G2, G3, G4, G5, G6, G7, G8, G9, G10, G11, G12, G13, G14.
    rewrite Iem, Ino, Imin, Imax. unfold js_or. cbn [truthy sql_param].
    rewrite Hs6, Hs12. reflexivity.
Qed.

Lemma roundtrips_row_ok c : roundtrips c = true -> row_ok c = true.
Proof.
  unfold roundtrips. intros Hrt.
  do 7 (apply andb_prop in Hrt as [Hrt _]). exact Hrt.
Qed.

Lemma validate_rows_export leads : forall index,
  Forall (fun b => roundtrips (b_cols b) = true) leads ->
  exists validRows,
    validate_rows index (export_rows leads) = (validRows, [])
    /\ map insert_columns validRows = map b_cols leads
    /\ Forall (fun v => row_ok (insert_columns v) = true) validRows.
Proof.
  induction leads as [|b leads IH]; intros index Hall.
  - exists []. repeat split. constructor.
  - apply Forall_cons in Hall as [Hb Hall].
    destruct (IH (S index) Hall) as (vs & Hv & Hm & Hok).
    destruct (export_import_row b Hb) as (v & Hp & Hi).
    exists (v :: vs). cbn [export_rows map validate_rows].
    fold (export_rows leads). rewrite Hv, Hp. cbn [map].
    rewrite Hi, Hm. split; [reflexivity|]. split; [reflexivity|].
    constructor; [|exact Hok]. rewrite Hi. apply roundtrips_row_ok, Hb.
Qed.

Lemma insert_buyer_spec d cols owner now d1 b :
  insert_buyer d cols owner now = Some (d1, b) ->
  b_cols b = cols /\ b_owner b = owner
  /\ buyers d !! b_id b = None
  /\ buyers d1 = <[b_id b := b]> (buyers d).
Proof.
  unfold insert_buyer. destruct (row_ok cols); [|discriminate].
  intros [= <- <-]. cbn. repeat split.
  apply not_elem_of_dom, is_fresh.
Qed.

(** The transaction on rows that satisfy the constraints of the table:
    every row is inserted under a new identifier with the caller as
    owner, and the leads that were there stay. *)
Lemma insert_rows_ok u now validRows : forall d,
  Forall (fun v => row_ok (insert_columns v) = true) validRows ->
  exists d1 inserted,
    insert_rows d u validRows now = Some (d1, inserted)
    /\ map b_cols inserted = map insert_columns validRows
    /\ Forall (fun b => b_owner b = u_id u
                        /\ buyers d !! b_id b = None
                        /\ buyers d1 !! b_id b = Some b) inserted
    /\ (forall i b, buyers d !! i = Some b -> buyers d1 !! i = Some b).
Proof.
  induction validRows as [|v vs IH]; intros d Hall.
  - exists d, []. repeat split; auto.
  - apply Forall_cons in Hall as [Hv Hall]. cbn [insert_rows].
    destruct (insert_buyer d (insert_columns v) (u_id u) now)
      as [[d1 b]|] eqn:Hi.
    2:{ unfold insert_buyer in Hi. rewrite Hv in Hi. discriminate. }
    apply insert_buyer_spec in Hi as (Hc & Ho & Hnew & Hb1).
    destruct (IH (recordHistory d1 (b_id b) (u_id u) (DImported v) now) Hall)
      as (d3 & bs & Hr & Hm & Hf & Hkeep).
    rewrite Hr. exists d3, (b :: bs). split; [reflexivity|].
    cbn [recordHistory buyers] in Hf, Hkeep.
    split; [cbn [map]; rewrite Hc, Hm; reflexivity|]. split.
    + constructor.
      * split; [exact Ho|]. split; [exact Hnew|].
        apply Hkeep. rewrite Hb1. apply lookup_insert_eq.
      * eapply Forall_impl; [exact Hf|]. intros b' (Ho' & Hn' & Hs').
        split; [exact Ho'|]. split; [|exact Hs'].
        rewrite Hb1 in Hn'. apply lookup_insert_None in Hn'. tauto.
    + intros i b' Hib. apply Hkeep. rewrite Hb1.
      rewrite lookup_insert_ne; [exact Hib|]. congruence.
Qed.

(** C8, amended. For one to 200 leads that satisfy the constraints of
    the table and [roundtrips] (bedroom class and status set, email and
    notes null or non-empty, budgets null or non-zero, tags non-empty,
    trimmed and without comma), importing the exported rows succeeds and
    inserts, in order, leads with the same fourteen data columns, owned
    by the caller, next to the leads that were in the store. *)
Theorem export_import_roundtrip d u leads now :
  leads <> [] -> (length leads <= 200)%nat ->
  Forall (fun b => roundtrips (b_cols b) = true) leads ->
  exists d1 inserted,
    import_buyers d u (export_rows leads) now
    = (d1, ImportOk (length leads) inserted)
    /\ map b_cols inserted = map b_cols leads
    /\ Forall (fun b => b_owner b = u_id u
                        /\ buyers d !! b_id b = None
                        /\ buyers d1 !! b_id b = Some b) inserted
    /\ (forall i b, buyers d !! i = Some b -> buyers d1 !! i = Some b).
Proof.
  intros Hne Hlen Hall.
  destruct (validate_rows_export leads 0 Hall) as (vs & Hv & Hm & Hok).
  destruct (insert_rows_ok u now vs d Hok) as (d1 & bs & Hr & Hc & Hf & Hk).
  assert (Hl : length (export_rows leads) = length leads)
    by apply length_map.
  assert (Hlb : length bs = length leads).
  { rewrite <- (length_map b_cols bs), Hc, Hm. apply length_map. }
  exists d1, bs. unfold import_buyers.
  destruct (export_rows leads) as [|r rs] eqn:He.
  { destruct leads; [congruence|discriminate]. }
  rewrite Hl. destruct (Nat.ltb_spec 200 (length leads)); [lia|].
  rewrite Hv, Hr, Hlb. split; [reflexivity|].
  split; [rewrite Hc; exact Hm|]. auto.
Qed.

End RoundTrip.

(** ** Import, list and export on the sample data *)
Section PipelineExamples.
Import Sample.

Lemma updateBuyerSchema_skips_refinements_witness :
  parse updateBuyerSchema
    [("propertyType", JStr "Apartment"); ("fullName", JStr "A")]
  = inl [(["fullName"], "Full name must be at least 2 characters")]
  /\ exists k t msgs m,
      In (k, t) (shape updateBuyerSchema)
      /\ run t (get [("propertyType", JStr "Apartment"); ("fullName", JStr "A")] k)
         = inl msgs
      /\ In m msgs
      /\ (["fullName"], "Full name must be at least 2 characters") = ([k], m).
Proof.
  assert (Hp : parse updateBuyerSchema
                 [("propertyType", JStr "Apartment"); ("fullName", JStr "A")]
               = inl [(["fullName"], "Full name must be at least 2 characters")])
    by (vm_compute; reflexivity).
  split; [exact Hp|].
  destruct updateBuyerSchema_skips_refinements as (_ & Horigin & _).
  apply (Horigin _ _ _ Hp). left. reflexivity.
Defined.

Lemma import_rejection_without_messages_witness :
  (forall iss, ZodError_errors iss = None)
  /\ In csv_empty_bhk file6 /\ row_valid csv_empty_bhk = false
  /\ (length file6 <= 200)%nat
  /\ exists errors,
      import_buyers db1 alice file6 later
      = (db1, ImportRejected errors 5 6)
      /\ In (6%nat, None) errors
      /\ forall n msgs, In (n, msgs) errors -> msgs = None.
Proof.
  assert (Hin : In csv_empty_bhk file6) by (cbn; tauto).
  assert (Hbad : row_valid csv_empty_bhk = false) by (vm_compute; reflexivity).
  assert (Hnone : forall iss : list issue, ZodError_errors iss = None)
    by (intros iss; reflexivity).
  split; [exact Hnone|]. split; [exact Hin|]. split; [exact Hbad|].
  split; [cbn; lia|].
  destruct (import_rejection_without_messages db1 alice file6 later
              Hnone (ex_intro _ csv_empty_bhk (conj Hin Hbad))
              ltac:(cbn; lia)) as (errors & Himp & Hall & Hex).
  exists errors. split; [exact Himp|]. split.
  - apply (Hall 5%nat csv_empty_bhk); [reflexivity|exact Hbad].
  - intros n msgs Hn. apply (Hex n msgs Hn).
Defined.

(** The answer to the file, as the caller sees it: the number of the
    failing row and the two counts. *)
Example import_file6 :
  import_buyers db1 alice file6 later
  = (db1, ImportRejected [(6%nat, None)] 5 6).
Proof. vm_compute. reflexivity. Qed.

Lemma list_sort_column_witness :
  list_buyers_query [("sortBy", JStr "fullName")]
  = inr (ListQuery [] None "b.full_name" "DESC" (JNum 10) (JNum 0))
  /\ mapping_get validSortColumns "fullName" = Some "b.full_name"
  /\ In "b.full_name" ["b.updated_at"; "b.full_name"; "b.created_at"].
Proof.
  assert (Hq : list_buyers_query [("sortBy", JStr "fullName")]
               = inr (ListQuery [] None "b.full_name" "DESC" (JNum 10) (JNum 0)))
    by (vm_compute; reflexivity).
  split; [exact Hq|].
  destruct (list_sort_column [("sortBy", JStr "fullName")]) as [Ha _].
  apply (Ha _ "fullName" Hq); [reflexivity | discriminate].
Defined.

(** C7 fails as stated: an unrecognised [sortBy] is an error of the
    filter schema, there is no fallback to the default column. *)
Lemma unknown_sortBy_is_rejected :
  list_buyers_query [("sortBy", JStr "phone")]
  = inl [(["sortBy"], "Invalid input")].
Proof. vm_compute. reflexivity. Qed.

(** An empty [sortBy] passes the schema as it is and names no column. *)
Example empty_sortBy_names_no_column :
  list_buyers_query [("sortBy", JStr "")]
  = inr (ListQuery [] None "undefined" "DESC" (JNum 10) (JNum 0)).
Proof. vm_compute. reflexivity. Qed.

Lemma export_import_roundtrip_witness :
  [villa] <> [] /\ (length [villa] <= 200)%nat
  /\ roundtrips (b_cols villa) = true
  /\ exists d1 inserted,
      import_buyers db1 bob (export_rows [villa]) later
      = (d1, ImportOk (length [villa]) inserted)
      /\ map b_cols inserted = map b_cols [villa]
      /\ Forall (fun b => b_owner b = u_id bob
                          /\ buyers db1 !! b_id b = None
                          /\ buyers d1 !! b_id b = Some b) inserted
      /\ (forall i b, buyers db1 !! i = Some b -> buyers d1 !! i = Some b).
Proof.
  assert (Hr : roundtrips (b_cols villa) = true) by (vm_compute; reflexivity).
  split; [discriminate|]. split; [cbn; lia|]. split; [exact Hr|].
  apply export_import_roundtrip; [discriminate | cbn; lia |].
  constructor; [exact Hr | constructor].
Defined.

(** C8 fails as stated: a lead without bedroom class is exported with an
    empty [bhk] cell, which the import rejects; and tags that hold a
    comma or surrounding spaces come back as other tags. *)
Lemma export_import_not_identity :
  row_ok (b_cols lead1) = true
  /\ snd (import_buyers (Db ∅ []) bob (export_rows [lead1]) later)
     = ImportRejected [(1%nat, None)] 0 1
  /\ row_ok (b_cols villa_odd_tags) = true
  /\ get (b_cols villa_odd_tags) "tags" = JArr ["east,west"; " corner "]
  /\ exists b,
      snd (import_buyers (Db ∅ []) bob (export_rows [villa_odd_tags]) later)
      = ImportOk 1 [b]
      /\ get (b_cols b) "tags" = JArr ["east"; "west"; "corner"].
Proof.
  split; [vm_compute; reflexivity|]. split; [vm_compute; reflexivity|].
  split; [vm_compute; reflexivity|]. split; [vm_compute; reflexivity|].
  eexists. split; vm_compute; reflexivity.
Qed.

End PipelineExamples.

(** * Further properties of the handlers *)

(** ** The delete handler *)
Section DeleteProperties.

(** The handler of [DELETE /:id] once the store has read the
    identifier: NotFound exactly when the lead does not exist and
    Forbidden exactly when it exists and the caller is neither admin nor
    owner; both leave the store as it was.  On success the lead and
    every history row of it are gone, and every other lead and history
    row stays, the history in its order. *)
Lemma delete_buyer_found d u id :
  (snd (delete_buyer d u id) = DeleteNotFound <-> buyers d !! id = None)
  /\ (snd (delete_buyer d u id) = DeleteForbidden <->
      exists b, buyers d !! id = Some b /\ checkOwnership u (b_owner b) = false)
  /\ (snd (delete_buyer d u id) <> DeleteOk -> fst (delete_buyer d u id) = d)
  /\ (snd (delete_buyer d u id) = DeleteOk ->
      buyers (fst (delete_buyer d u id)) !! id = None
      /\ (forall i, i <> id ->
            buyers (fst (delete_buyer d u id)) !! i = buyers d !! i)
      /\ history (fst (delete_buyer d u id))
         = List.filter (fun h => negb (Pos.eqb (h_buyer h) id)) (history d)
      /\ (forall h, In h (history (fst (delete_buyer d u id))) <->
                    In h (history d) /\ h_buyer h <> id)).
Proof.
  unfold delete_buyer, select_buyer.
  destruct (buyers d !! id) as [b|] eqn:Hb.
  - destruct (checkOwnership u (b_owner b)) eqn:Ho; cbn [negb fst snd].
    + split; [split; discriminate|]. split.
      { split; [discriminate|]. intros (b' & [= <-] & Hf). congruence. }
      split; [congruence|]. intros _. cbn [delete_buyer_row buyers history].
      split; [apply lookup_delete_eq|].
      split; [intros i Hi; apply lookup_delete_ne; congruence|].
      split; [reflexivity|].
      intros h. rewrite filter_In, negb_true_iff, Pos.eqb_neq. reflexivity.
    + split; [split; discriminate|]. split; [|split; [reflexivity|discriminate]].
      split; [eauto|reflexivity].
  - cbn [fst snd]. split; [split; reflexivity|].
    split; [|split; [reflexivity|discriminate]].
    split; [discriminate|]. intros (b' & [=] & _).
Qed.

Lemma delete_buyer_no_error d u i : snd (delete_buyer d u i) <> DeleteServerError.
Proof.
  unfold delete_buyer. destruct (select_buyer d i) as [b|]; [|discriminate].
  destruct (negb _); discriminate.
Qed.

End DeleteProperties.

Section DeleteRequest.
Context `{Platform}.

(** On the text of a UUID a request to [PUT /:id] is the handler on the
    identifier; on any other text a valid payload is answered with a
    server error, and nothing is written. *)
Lemma put_buyer_request_spec d u id body now :
  match uuid_in id with
  | Some i => put_buyer_request d u id body now = put_buyer d u i body now
  | None =>
      fst (put_buyer_request d u id body now) = d
      /\ forall v, parse updateBuyerSchema body = inr v ->
                   snd (put_buyer_request d u id body now) = PutServerError
  end.
Proof.
  unfold put_buyer_request, put_buyer.
  destruct (uuid_in id) as [i|].
  - destruct (parse updateBuyerSchema body); reflexivity.
  - destruct (parse updateBuyerSchema body) as [iss|v0].
    + split; [reflexivity|]. intros v [=].
    + split; [reflexivity|]. intros v _. reflexivity.
Qed.

(** X1. [DELETE /:id] on the identifier of the path.  The answer is a
    server error exactly when the identifier is not the text of a UUID,
    NotFound exactly when it is one and no lead has it, and Forbidden
    exactly when a lead has it and the caller is neither admin nor
    owner; all three leave the store as it was.  On success the lead and
    every history row of it are gone, and every other lead and history
    row stays, the history in its order. *)
Theorem delete_buyer_request_spec d u id :
  (snd (delete_buyer_request d u id) = DeleteServerError <-> uuid_in id = None)
  /\ (snd (delete_buyer_request d u id) = DeleteNotFound <->
      exists i, uuid_in id = Some i /\ buyers d !! i = None)
  /\ (snd (delete_buyer_request d u id) = DeleteForbidden <->
      exists i b, uuid_in id = Some i /\ buyers d !! i = Some b
                  /\ checkOwnership u (b_owner b) = false)
  /\ (snd (delete_buyer_request d u id) <> DeleteOk ->
      fst (delete_buyer_request d u id) = d)
  /\ (snd (delete_buyer_request d u id) = DeleteOk ->
      exists i,
        uuid_in id = Some i
        /\ buyers (fst (delete_buyer_request d u id)) !! i = None
        /\ (forall j, j <> i ->
              buyers (fst (delete_buyer_request d u id)) !! j = buyers d !! j)
        /\ history (fst (delete_buyer_request d u id))
           = List.filter (fun h => negb (Pos.eqb (h_buyer h) i)) (history d)
        /\ (forall h, In h (history (fst (delete_buyer_request d u id))) <->
                      In h (history d) /\ h_buyer h <> i)).
Proof.
  unfold delete_buyer_request. destruct (uuid_in id) as [i|] eqn:Hid.
  - destruct (delete_buyer_found d u i) as (Hnf & Hfb & Hsame & Hok).
    pose proof (delete_buyer_no_error d u i) as Hne.
    split; [split; [contradiction|discriminate]|].
    split.
    { rewrite Hnf. split; [eauto|]. intros (j & [= <-] & Hj). exact Hj. }
    split.
    { rewrite Hfb. split.
      - intros (b & Hb & Ho). eauto.
      - intros (j & b & [= <-] & Hb & Ho). eauto. }
    split; [exact Hsame|].
    intros Hd. exists i. split; [reflexivity|]. exact (Hok Hd).
  - cbn [fst snd]. split; [split; reflexivity|].
    split; [split; [discriminate|intros (j & [=] & _)]|].
    split; [split; [discriminate|intros (j & b & [=] & _)]|].
    split; [reflexivity|discriminate].
Qed.

End DeleteRequest.

(** ** Records accepted by the full-record schema *)
Section AcceptedRecords.
Context `{Platform}.

(** The parsed value of a field of an accepted input. *)
Lemma parse_value o body v k t :
  parse o body = inr v -> NoDup (map fst (shape o)) -> In (k, t) (shape o) ->
  (forall x, run t x <> inl []) ->
  exists w, run t (get body k) = inr w /\ get v k = w.
Proof.
  intros Hp Hnd Hin Hne. apply parse_inr_fields in Hp.
  destruct (parse_fields_ok _ _ _ _ _ Hp Hin Hne) as [w Hw].
  exists w. split; [exact Hw|].
  pose proof (parse_fields_get _ body _ _ _ Hnd Hin Hw) as Hg.
  rewrite Hp in Hg. exact Hg.
Qed.

(** Every refinement holds of an accepted input. *)
Lemma parse_checks o body v ck :
  parse o body = inr v -> In ck (checks o) -> ck v = None.
Proof.
  unfold parse. destruct (parse_fields (shape o) body) as [[|i l] out];
    [|discriminate].
  destruct (omap (fun ck0 => ck0 out) (checks o)) as [|e l] eqn:E;
    [|discriminate].
  intros [= <-] Hin. destruct (ck out) as [e|] eqn:Hc; [|reflexivity].
  assert (He : e ∈ omap (fun ck0 => ck0 out) (checks o)).
  { apply list_elem_of_omap. exists ck. split; [|exact Hc].
    apply list_elem_of_In, Hin. }
  rewrite E in He. inversion He.
Qed.

Lemma z_string_inv cks x w :
  run (z_string cks) x = inr w ->
  exists s, x = JStr s /\ w = JStr s /\ Forall (fun ck => ck s = None) cks.
Proof.
  unfold z_string. cbn [run]. destruct x; try discriminate.
  destruct (omap (fun ck => ck s) cks) as [|e l] eqn:E; [|discriminate].
  intros [= <-]. exists s. split; [reflexivity|]. split; [reflexivity|].
  apply Forall_forall. intros ck Hin.
  destruct (ck s) as [e|] eqn:Hc; [|reflexivity].
  assert (He : e ∈ omap (fun ck0 => ck0 s) cks).
  { apply list_elem_of_omap. exists ck. auto. }
  rewrite E in He. inversion He.
Qed.

Lemma z_string_explains cks x : run (z_string cks) x <> inl [].
Proof.
  unfold z_string. cbn [run]. destruct x; try discriminate.
  destruct (omap (fun ck => ck s) cks); discriminate.
Qed.

Lemma z_enum_inv vals x w :
  run (z_enum vals) x = inr w ->
  exists s, x = JStr s /\ w = JStr s /\ existsb (String.eqb s) vals = true.
Proof.
  unfold z_enum. cbn [run]. destruct x; try discriminate.
  destruct (existsb (String.eqb s) vals) eqn:E; [|discriminate].
  intros [= <-]. eauto.
Qed.

Lemma z_enum_explains vals x : run (z_enum vals) x <> inl [].
Proof.
  unfold z_enum. cbn [run]. destruct x; try discriminate.
  destruct (existsb (String.eqb s) vals); discriminate.
Qed.

Lemma optional_enum_inv vals x w :
  run (optional (z_enum vals)) x = inr w ->
  (x = JUndefined /\ w = JUndefined)
  \/ exists s, x = JStr s /\ w = JStr s /\ existsb (String.eqb s) vals = true.
Proof.
  unfold optional. cbn [run optin z_enum].
  destruct x; try discriminate; [intros [= <-]; auto|].
  destruct (existsb (String.eqb s) vals) eqn:E; [|discriminate].
  intros [= <-]. right. eauto.
Qed.

Lemma optional_explains t x :
  optin t = false -> (forall y, run t y <> inl []) ->
  run (optional t) x <> inl [].
Proof.
  intros Ho Ht. unfold optional. cbn [run]. rewrite Ho.
  destruct x; try apply Ht. discriminate.
Qed.

Lemma z_int_inv lo hi x w :
  run (z_int lo hi) x = inr w ->
  exists n, x = JNum n /\ w = JNum n /\ lo <= n <= MAX_SAFE_INTEGER
            /\ match hi with Some h => n <= h | None => True end.
Proof.
  unfold z_int. cbn [run]. destruct x; try discriminate.
  destruct (Z.leb_spec (- MAX_SAFE_INTEGER) n); cbn [andb negb];
    [|discriminate].
  destruct (Z.leb_spec n MAX_SAFE_INTEGER); cbn [negb]; [|discriminate].
  destruct (Z.ltb_spec n lo); [discriminate|].
  destruct hi as [h|].
  - destruct (Z.ltb_spec h n); [discriminate|]. intros [= <-].
    exists n. repeat split; lia.
  - intros [= <-]. exists n. repeat split; lia.
Qed.

Lemma z_int_explains lo hi x : run (z_int lo hi) x <> inl [].
Proof.
  unfold z_int. cbn [run]. destruct x; try discriminate.
  destruct (negb _); [discriminate|]. destruct (n <? lo); [discriminate|].
  destruct hi as [h|]; [destruct (h <? n)|]; discriminate.
Qed.

Lemma budget_type_inv x w :
  run budget_type x = inr w ->
  (x = JUndefined /\ w = JUndefined)
  \/ exists n, x = JNum n /\ w = JNum n /\ 0 <= n <= MAX_SAFE_INTEGER.
Proof.
  unfold budget_type, optional. cbn [run optin z_int].
  destruct x; try discriminate; [intros [= <-]; auto|].
  intros Hr. right.
  destruct (z_int_inv 0 None (JNum n) w Hr) as (m & [= <-] & -> & Hb & _).
  eauto.
Qed.

Lemma email_type_inv x w :
  run email_type x = inr w ->
  (x = JUndefined /\ w = JUndefined)
  \/ exists s, x = JStr s /\ w = JStr s /\ (is_email s = true \/ s = "").
Proof.
  unfold email_type, or, optional, z_string, z_literal, ck_format.
  cbn [run optin omap list_omap].
  destruct x; try discriminate; [intros [= <-]; auto|].
  destruct (is_email s) eqn:E; cbn [omap list_omap option_bind].
  - intros [= <-]. right. eauto.
  - destruct (String.eqb_spec s ""); [|discriminate].
    intros [= <-]. right. eauto.
Qed.

Lemma email_type_explains x : run email_type x <> inl [].
Proof.
  unfold email_type, or. cbn [run].
  destruct (run (optional _) x); [|discriminate].
  destruct (run (z_literal "") x); discriminate.
Qed.

Lemma notes_type_inv x w :
  run notes_type x = inr w ->
  (x = JUndefined /\ w = JUndefined)
  \/ exists s, x = JStr s /\ w = JStr s /\ (String.length s <= 1000)%nat.
Proof.
  unfold notes_type, optional. cbn [run optin z_string].
  destruct x; try discriminate; [intros [= <-]; auto|].
  intros Hr. right.
  destruct (z_string_inv _ (JStr s) w Hr) as (s' & [= <-] & -> & Hf).
  exists s. split; [reflexivity|]. split; [reflexivity|].
  apply Forall_inv in Hf. unfold ck_max in Hf.
  destruct (Nat.leb_spec (String.length s) 1000); [assumption|discriminate].
Qed.

Lemma status_type_inv x w :
  run status_type x = inr w ->
  exists s, w = JStr s
            /\ existsb (String.eqb s)
                 ["New"; "Qualified"; "Contacted"; "Visited"; "Negotiation";
                  "Converted"; "Dropped"] = true
            /\ (x = JUndefined -> s = "New") /\ (x <> JUndefined -> x = w).
Proof.
  unfold status_type, default. cbn [run].
  destruct x; try (intros Hr; apply z_enum_inv in Hr as (s & ? & ? & ?);
                   discriminate).
  - intros [= <-]. exists "New". repeat split; congruence.
  - intros Hr. apply z_enum_inv in Hr as (s' & [= <-] & -> & Hs).
    exists s. repeat split; congruence.
Qed.

Lemma status_type_explains x : run status_type x <> inl [].
Proof.
  unfold status_type, default. cbn [run].
  destruct x; try apply z_enum_explains. discriminate.
Qed.

Lemma tags_type_inv x w :
  run tags_type x = inr w ->
  exists l, w = JArr l /\ (x = JUndefined -> l = []) /\ (x <> JUndefined -> x = w).
Proof.
  unfold tags_type, default, optional, z_array_of_strings. cbn [run optin].
  destruct x; try discriminate; intros [= <-].
  - exists []. repeat split; congruence.
  - exists l. repeat split; congruence.
Qed.

Lemma tags_type_explains x : run tags_type x <> inl [].
Proof.
  unfold tags_type, default, optional, z_array_of_strings. cbn [run optin].
  destruct x; discriminate.
Qed.

Lemma buyerSchema_keys : NoDup (map fst (shape buyerSchema)).
Proof. compute_done. Qed.

Lemma buyerSchema_checks_hold body v :
  parse buyerSchema body = inr v -> bhk_rule v = true /\ budget_rule v = true.
Proof.
  intros Hp. split.
  - pose proof (parse_checks buyerSchema body v
                  (fun data => if bhk_rule data then None
                               else Some (["bhk"],
                                 "BHK is required for Apartment and Villa property types"))
                  Hp) as Hc.
    cbv beta in Hc. destruct (bhk_rule v); [reflexivity|].
    discriminate Hc. cbn. auto.
  - pose proof (parse_checks buyerSchema body v
                  (fun data => if budget_rule data then None
                               else Some (["budgetMax"],
                                 "Budget max must be greater than or equal to budget min"))
                  Hp) as Hc.
    cbv beta in Hc. destruct (budget_rule v); [reflexivity|].
    discriminate Hc. cbn. auto.
Qed.

(** The fields of a record that the full-record schema accepts. *)
Lemma buyerSchema_fields body v :
  parse buyerSchema body = inr v ->
  (exists s, get v "fullName" = JStr s
             /\ (2 <= String.length s <= 80)%nat)
  /\ (get v "email" = JUndefined
      \/ exists s, get v "email" = JStr s /\ (is_email s = true \/ s = ""))
  /\ (exists s, get v "phone" = JStr s /\ phone_re s = true)
  /\ (exists s, get v "city" = JStr s
                /\ existsb (String.eqb s)
                     ["Chandigarh"; "Mohali"; "Zirakpur"; "Panchkula"; "Other"]
                   = true)
  /\ (exists s, get v "propertyType" = JStr s
                /\ get body "propertyType" = JStr s
                /\ existsb (String.eqb s)
                     ["Apartment"; "Villa"; "Plot"; "Office"; "Retail"] = true)
  /\ ((get v "bhk" = JUndefined /\ get body "bhk" = JUndefined)
      \/ exists s, get v "bhk" = JStr s
                   /\ existsb (String.eqb s) ["1"; "2"; "3"; "4"; "Studio"]
                      = true)
  /\ (exists s, get v "purpose" = JStr s
                /\ existsb (String.eqb s) ["Buy"; "Rent"] = true)
  /\ (get v "budgetMin" = JUndefined
      \/ exists n, get v "budgetMin" = JNum n /\ get body "budgetMin" = JNum n
                   /\ 0 <= n <= MAX_SAFE_INTEGER)
  /\ (get v "budgetMax" = JUndefined
      \/ exists n, get v "budgetMax" = JNum n /\ get body "budgetMax" = JNum n
                   /\ 0 <= n <= MAX_SAFE_INTEGER)
  /\ (exists s, get v "timeline" = JStr s
                /\ existsb (String.eqb s) ["0-3m"; "3-6m"; ">6m"; "Exploring"]
                   = true)
  /\ (exists s, get v "source" = JStr s
                /\ existsb (String.eqb s)
                     ["Website"; "Referral"; "Walk-in"; "Call"; "Other"] = true)
  /\ (exists s, get v "status" = JStr s
                /\ existsb (String.eqb s)
                     ["New"; "Qualified"; "Contacted"; "Visited"; "Negotiation";
                      "Converted"; "Dropped"] = true
                /\ (get body "status" = JUndefined -> s = "New"))
  /\ (get v "notes" = JUndefined
      \/ exists s, get v "notes" = JStr s /\ (String.length s <= 1000)%nat)
  /\ (exists l, get v "tags" = JArr l
                /\ (get body "tags" = JUndefined -> l = [])).
Proof.
  intros Hp.
  pose proof (fun k t Hin He =>
                parse_value buyerSchema body v k t Hp buyerSchema_keys Hin He)
    as Hval.
  assert (Hin : forall k t, In (k, t) buyerFields -> In (k, t) (shape buyerSchema))
    by (intros k t Hi; exact Hi).
  repeat split.
  - destruct (Hval "fullName" fullName_type) as (w & Hr & Hg);
      [apply Hin; cbn; tauto | apply z_string_explains |].
    apply z_string_inv in Hr as (s & _ & -> & Hf).
    exists s. split; [exact Hg|].
    apply Forall_cons in Hf as [H1 Hf]. apply Forall_cons in Hf as [H2 _].
    unfold ck_min in H1. unfold ck_max in H2.
    destruct (Nat.leb_spec 2 (String.length s)); [|discriminate].
    destruct (Nat.leb_spec (String.length s) 80); [|discriminate]. lia.
  - destruct (Hval "email" email_type) as (w & Hr & Hg);
      [apply Hin; cbn; tauto | apply email_type_explains |].
    apply email_type_inv in Hr as [[_ ->]|(s & _ & -> & Hs)]; [auto|].
    right. eauto.
  - destruct (Hval "phone" phoneSchema) as (w & Hr & Hg);
      [apply Hin; cbn; tauto | apply z_string_explains |].
    apply z_string_inv in Hr as (s & _ & -> & Hf).
    exists s. split; [exact Hg|]. apply Forall_inv in Hf.
    unfold ck_format in Hf. destruct (phone_re s); [reflexivity|discriminate].
  - destruct (Hval "city" CityEnum) as (w & Hr & Hg);
      [apply Hin; cbn; tauto | apply z_enum_explains |].
    apply z_enum_inv in Hr as (s & _ & -> & Hs). eauto.
  - destruct (Hval "propertyType" PropertyTypeEnum) as (w & Hr & Hg);
      [apply Hin; cbn; tauto | apply z_enum_explains |].
    apply z_enum_inv in Hr as (s & Hb & -> & Hs). eauto.
  - destruct (Hval "bhk" (optional BHKEnum)) as (w & Hr & Hg);
      [apply Hin; cbn; tauto
      | intros x; apply optional_explains; [reflexivity | apply z_enum_explains] |].
    apply optional_enum_inv in Hr as [[Hb ->]|(s & _ & -> & Hs)]; [auto|].
    right. eauto.
  - destruct (Hval "purpose" PurposeEnum) as (w & Hr & Hg);
      [apply Hin; cbn; tauto | apply z_enum_explains |].
    apply z_enum_inv in Hr as (s & _ & -> & Hs). eauto.
  - destruct (Hval "budgetMin" budget_type) as (w & Hr & Hg);
      [apply Hin; cbn; tauto
      | intros x; apply optional_explains; [reflexivity | apply z_int_explains] |].
    apply budget_type_inv in Hr as [[_ ->]|(n & Hb & -> & Hn)]; [auto|].
    right. eauto.
  - destruct (Hval "budgetMax" budget_type) as (w & Hr & Hg);
      [apply Hin; cbn; tauto
      | intros x; apply optional_explains; [reflexivity | apply z_int_explains] |].
    apply budget_type_inv in Hr as [[_ ->]|(n & Hb & -> & Hn)]; [auto|].
    right. eauto.
  - destruct (Hval "timeline" TimelineEnum) as (w & Hr & Hg);
      [apply Hin; cbn; tauto | apply z_enum_explains |].
    apply z_enum_inv in Hr as (s & _ & -> & Hs). eauto.
  - destruct (Hval "source" SourceEnum) as (w & Hr & Hg);
      [apply Hin; cbn; tauto | apply z_enum_explains |].
    apply z_enum_inv in Hr as (s & _ & -> & Hs). eauto.
  - destruct (Hval "status" status_type) as (w & Hr & Hg);
      [apply Hin; cbn; tauto | apply status_type_explains |].
    apply status_type_inv in Hr as (s & -> & Hs & Hd & _). eauto.
  - destruct (Hval "notes" notes_type) as (w & Hr & Hg);
      [apply Hin; cbn; tauto
      | intros x; apply optional_explains; [reflexivity | apply z_string_explains] |].
    apply notes_type_inv in Hr as [[_ ->]|(s & _ & -> & Hs)]; [auto|].
    right. eauto.
  - destruct (Hval "tags" tags_type) as (w & Hr & Hg);
      [apply Hin; cbn; tauto | apply tags_type_explains |].
    apply tags_type_inv in Hr as (l & -> & Hd & _). eauto.
Qed.

End AcceptedRecords.

(** ** The create handler *)
Section CreateProperties.
Context `{Platform}.

Lemma member_nonempty' s vals :
  existsb (String.eqb s) vals = true -> existsb (String.eqb "") vals = false ->
  truthy (JStr s) = true.
Proof.
  intros Hs He. cbn [truthy]. destruct (String.eqb_spec s "") as [->|_];
    [congruence|reflexivity].
Qed.

(** A record that the full-record schema accepts gives a row that
    satisfies the constraints of the table, when its budgets fit the
    integer column and its email the text column. *)
Lemma accepted_row_ok body v :
  parse buyerSchema body = inr v ->
  (forall n, get v "budgetMin" = JNum n -> n <= INT4_MAX) ->
  (forall n, get v "budgetMax" = JNum n -> n <= INT4_MAX) ->
  (forall s, get v "email" = JStr s -> (String.length s <= 255)%nat) ->
  payload_free_of_nul v = true ->
  row_ok (insert_columns v) = true.
Proof.
  intros Hp Hmin Hmax Hem Hnul.
  unfold payload_free_of_nul in Hnul.
  apply andb_prop in Hnul as [Hnul N14]. apply andb_prop in Hnul as [Hnul N13].
  apply andb_prop in Hnul as [N1 N2].
  destruct (buyerSchema_checks_hold body v Hp) as [Hbhk Hbud].
  destruct (buyerSchema_fields body v Hp)
    as ((s1 & G1 & L1) & G2 & (s3 & G3 & L3) & (s4 & G4 & L4)
        & (s5 & G5 & _ & L5) & G6 & (s7 & G7 & L7) & G8 & G9
        & (s10 & G10 & L10) & (s11 & G11 & L11) & (s12 & G12 & L12 & _)
        & G13 & (tags & G14 & _)).
  unfold bhk_rule in Hbhk. unfold budget_rule in Hbud.
  unfold row_ok, budget_check, bhk_required_check.
  change (keys (insert_columns v)) with data_columns.
  change (get (insert_columns v) "full_name") with (sql_param (get v "fullName")).
  change (get (insert_columns v) "email") with (js_or (get v "email") JNull).
  change (get (insert_columns v) "phone") with (sql_param (get v "phone")).
  change (get (insert_columns v) "city") with (sql_param (get v "city")).
  change (get (insert_columns v) "property_type")
    with (sql_param (get v "propertyType")).
  change (get (insert_columns v) "bhk") with (js_or (get v "bhk") JNull).
  change (get (insert_columns v) "purpose") with (sql_param (get v "purpose")).
  change (get (insert_columns v) "budget_min")
    with (js_or (get v "budgetMin") JNull).
  change (get (insert_columns v) "budget_max")
    with (js_or (get v "budgetMax") JNull).
  change (get (insert_columns v) "timeline") with (sql_param (get v "timeline")).
  change (get (insert_columns v) "source") with (sql_param (get v "source")).
  change (get (insert_columns v) "status")
    with (js_or (get v "status") (JStr "New")).
  change (get (insert_columns v) "notes") with (js_or (get v "notes") JNull).
  change (get (insert_columns v) "tags") with (js_or (get v "tags") (JArr [])).
  rewrite G1, G3, G4, G5, G7, G10, G11, G12, G14 in *.
  assert (T12 : truthy (JStr s12) = true)
    by (eapply member_nonempty'; [exact L12 | reflexivity]).
  assert (J12 : js_or (JStr s12) (JStr "New") = JStr s12)
    by (unfold js_or; rewrite T12; reflexivity).
  assert (J14 : js_or (JArr tags) (JArr []) = JArr tags) by reflexivity.
  rewrite J12, J14. cbn [sql_param col_tags].
  cbn [text_free_of_nul] in N1, N14.
  destruct (decide (data_columns = data_columns)) as [_|]; [|congruence].
  unfold phone_re in L3. cbn [col_text col_enum].
  rewrite L3, L4, L5, L7, L10, L11, L12, N1, N14.
  destruct (Nat.leb_spec 2 (String.length s1)); [|lia].
  destruct (Nat.leb_spec (String.length s1) 80); [|lia].
  cbn [andb].
  assert (E2 : col_text true 0 255 (js_or (get v "email") JNull) = true).
  { destruct G2 as [->|(s & G2 & _)]; [reflexivity|]. rewrite G2 in *.
    unfold js_or. destruct (truthy (JStr s)); [|reflexivity].
    cbn [col_text]. cbn [text_free_of_nul] in N2. rewrite N2.
    specialize (Hem s eq_refl).
    destruct (Nat.leb_spec (String.length s) 255); [reflexivity|lia]. }
  assert (E13 : col_text true 0 1000 (js_or (get v "notes") JNull) = true).
  { destruct G13 as [G13|(s & G13 & Hs)]; rewrite G13 in *; [reflexivity|].
    unfold js_or. destruct (truthy (JStr s)); [|reflexivity].
    cbn [col_text]. cbn [text_free_of_nul] in N13. rewrite N13.
    destruct (Nat.leb_spec (String.length s) 1000); [reflexivity|lia]. }
  assert (E6 : col_enum true ["1"; "2"; "3"; "4"; "Studio"]
                 (js_or (get v "bhk") JNull) = true
               /\ (existsb (String.eqb s5) ["Apartment"; "Villa"] = true ->
                   js_or (get v "bhk") JNull <> JNull)).
  { destruct G6 as [[G6 _]|(s & G6 & Hs)]; rewrite G6 in *.
    - split; [reflexivity|]. intros Hs5. cbn [includes] in Hbhk.
      rewrite Hs5 in Hbhk. discriminate.
    - assert (T : truthy (JStr s) = true)
        by (eapply member_nonempty'; [exact Hs | reflexivity]).
      unfold js_or. rewrite T. split; [exact Hs | discriminate]. }
  destruct E6 as [E6 E6'].
  assert (E8 : forall k, (get v k = JUndefined
                          \/ exists n, get v k = JNum n /\ get body k = JNum n
                                       /\ 0 <= n <= MAX_SAFE_INTEGER) ->
                         (forall n, get v k = JNum n -> n <= INT4_MAX) ->
                         col_budget (js_or (get v k) JNull) = true
                         /\ (js_or (get v k) JNull = JNull
                             \/ exists n, get v k = JNum n /\ n <> 0
                                          /\ js_or (get v k) JNull = JNum n)).
  { intros k [->|(n & Gk & _ & Hn)] Hfit; [split; [reflexivity|auto]|].
    rewrite Gk. unfold js_or. cbn [truthy].
    destruct (Z.eqb_spec n 0) as [->|Hnz]; cbn [negb];
      [split; [reflexivity|auto]|].
    split.
    - cbn [col_budget]. specialize (Hfit n Gk).
      destruct (Z.leb_spec 0 n); [|lia].
      destruct (Z.leb_spec n INT4_MAX); [reflexivity|lia].
    - right. eauto. }
  destruct (E8 "budgetMin" G8 Hmin) as [E8a E8b].
  destruct (E8 "budgetMax" G9 Hmax) as [E9a E9b].
  rewrite E2, E13, E6, E8a, E9a. cbn [andb].
  apply andb_true_intro. split.
  - destruct E8b as [->|(lo & Glo & Hlo & ->)]; [reflexivity|].
    destruct E9b as [->|(hi & Ghi & Hhi & ->)]; [reflexivity|].
    rewrite Glo, Ghi in Hbud. cbn [truthy js_ge] in Hbud.
    destruct (Z.eqb_spec lo 0); [contradiction|].
    destruct (Z.eqb_spec hi 0); [contradiction|]. exact Hbud.
  - destruct (existsb (String.eqb s5) ["Apartment"; "Villa"]) eqn:Es5;
      [|reflexivity].
    cbn [negb orb]. specialize (E6' eq_refl).
    destruct (decide (js_or (get v "bhk") JNull = JNull)); [contradiction|].
    reflexivity.
Qed.

Lemma bhk_missing_rejected o input p :
  NoDup (map fst (shape o)) ->
  In ("propertyType", PropertyTypeEnum) (shape o) ->
  In ("bhk", optional BHKEnum) (shape o) ->
  In (fun data => if bhk_rule data then None
                  else Some (["bhk"],
                    "BHK is required for Apartment and Villa property types"))
     (checks o) ->
  get input "propertyType" = JStr p -> p = "Apartment" \/ p = "Villa" ->
  get input "bhk" = JUndefined \/ get input "bhk" = JStr "" ->
  is_ok (parse o input) = false.
Proof.
  intros Hnd Hpt Hbhk Hck Hp Hpv Hb.
  destruct (parse o input) as [iss|v] eqn:Hparse; [reflexivity|exfalso].
  destruct (parse_value o input v _ _ Hparse Hnd Hpt (z_enum_explains _))
    as (w5 & R5 & G5).
  destruct (parse_value o input v "bhk" (optional BHKEnum) Hparse Hnd Hbhk)
    as (w6 & R6 & G6).
  { intros x. apply optional_explains; [reflexivity | apply z_enum_explains]. }
  rewrite Hp in R5. apply z_enum_inv in R5 as (s & [= <-] & -> & _).
  assert (w6 = JUndefined) as ->.
  { destruct Hb as [Hb|Hb]; rewrite Hb in R6.
    - cbn in R6. congruence.
    - cbn in R6. discriminate. }
  pose proof (parse_checks o input v _ Hparse Hck) as Hc. cbv beta in Hc.
  unfold bhk_rule in Hc. rewrite G5, G6 in Hc.
  destruct Hpv as [-> | ->]; cbn in Hc; discriminate.
Qed.

(** X2. A record whose property type is Apartment or Villa and whose
    bedroom class is missing, or the empty text of an empty CSV cell, is
    rejected by the full-record schema and by the CSV-row schema, whatever
    its other fields are. *)
Theorem bhk_required input p :
  get input "propertyType" = JStr p -> p = "Apartment" \/ p = "Villa" ->
  get input "bhk" = JUndefined \/ get input "bhk" = JStr "" ->
  is_ok (parse buyerSchema input) = false
  /\ is_ok (parse csvRowSchema input) = false.
Proof.
  intros Hp Hpv Hb. split.
  - eapply bhk_missing_rejected; eauto.
    + apply buyerSchema_keys.
    + cbn. tauto.
    + cbn. tauto.
    + cbn. tauto.
  - eapply bhk_missing_rejected; eauto.
    + compute_done.
    + rewrite csvRowSchema_shape. cbn. tauto.
    + rewrite csvRowSchema_shape. cbn. tauto.
    + cbn. tauto.
Qed.

(** X3. In every record that the full-record schema or the CSV-row
    schema accepts, two budget bounds that are both present and not zero
    are in order: the maximum is at least the minimum. *)
Theorem accepted_budgets_ordered input v lo hi :
  parse buyerSchema input = inr v \/ parse csvRowSchema input = inr v ->
  get v "budgetMin" = JNum lo -> get v "budgetMax" = JNum hi ->
  lo <> 0 -> hi <> 0 ->
  lo <= hi.
Proof.
  intros Hp Glo Ghi Hlo Hhi.
  assert (Hb : budget_rule v = true).
  { set (ck := fun data : obj =>
                 if budget_rule data then None
                 else Some (["budgetMax"],
                   "Budget max must be greater than or equal to budget min")).
    assert (Hc : ck v = None).
    { destruct Hp as [Hp|Hp].
      - apply (parse_checks buyerSchema input v ck Hp). cbn. tauto.
      - apply (parse_checks csvRowSchema input v ck Hp). cbn. tauto. }
    subst ck. cbv beta in Hc. destruct (budget_rule v);
      [reflexivity|discriminate]. }
  unfold budget_rule in Hb. rewrite Glo, Ghi in Hb. cbn [truthy js_ge] in Hb.
  destruct (Z.eqb_spec lo 0); [contradiction|].
  destruct (Z.eqb_spec hi 0); [contradiction|].
  cbn in Hb. apply Z.leb_le, Hb.
Qed.

(** X4. [POST /] on a payload that the full-record schema accepts, with
    budgets that fit the integer column, an email that fits the text
    column and no code unit 0 in the name, the email, the notes or a tag
    (the store refuses it in a text): the lead is stored under a new
    identifier with the caller as
    owner, the validated values in its columns (absent or empty optional
    values and a zero budget as null) and both timestamps at the time of
    the request; it satisfies the constraints of the table; exactly one
    [created] history entry with the validated payload is appended; no
    other lead changes. *)
Theorem post_buyer_created d u body now v :
  parse buyerSchema body = inr v ->
  (forall n, get v "budgetMin" = JNum n -> n <= INT4_MAX) ->
  (forall n, get v "budgetMax" = JNum n -> n <= INT4_MAX) ->
  (forall s, get v "email" = JStr s -> (String.length s <= 255)%nat) ->
  payload_free_of_nul v = true ->
  exists b,
    post_buyer d u body now
    = (Db (<[b_id b := b]> (buyers d))
          (history d
           ++ [HistoryRow (b_id b) (u_id u) now (DCreated v)])%list,
       PostCreated b)
    /\ buyers d !! b_id b = None
    /\ b_owner b = u_id u /\ b_cols b = insert_columns v
    /\ b_created b = now /\ b_updated b = now
    /\ row_ok (b_cols b) = true.
Proof.
  intros Hp Hmin Hmax Hem Hnul.
  pose proof (accepted_row_ok body v Hp Hmin Hmax Hem Hnul) as Hok.
  unfold post_buyer, insert_buyer. rewrite Hp, Hok.
  exists (Buyer (fresh (dom (buyers d))) (insert_columns v) (u_id u) now now).
  split; [reflexivity|]. cbn [b_id b_owner b_cols b_created b_updated].
  split; [apply not_elem_of_dom, is_fresh|]. auto.
Qed.

(** A budget beyond the integer column makes the row violate the
    constraints of the table. *)
Lemma budget_overflow_row v n :
  get v "budgetMin" = JNum n \/ get v "budgetMax" = JNum n ->
  INT4_MAX < n ->
  row_ok (insert_columns v) = false.
Proof.
  intros Hb Hn.
  assert (Hcol : col_budget (js_or (JNum n) JNull) = false).
  { unfold js_or. cbn [truthy].
    destruct (Z.eqb_spec n 0) as [->|_]; [unfold INT4_MAX in Hn; lia|].
    cbn [negb col_budget]. apply andb_false_iff. right.
    apply Z.leb_gt, Hn. }
  destruct (row_ok (insert_columns v)) eqn:E; [exfalso|reflexivity].
  unfold row_ok in E.
  repeat (let E' := fresh "E" in apply andb_prop in E as [E E']).
  change (get (insert_columns v) "budget_min")
    with (js_or (get v "budgetMin") JNull) in *.
  change (get (insert_columns v) "budget_max")
    with (js_or (get v "budgetMax") JNull) in *.
  destruct Hb as [Hb|Hb]; rewrite Hb in *; congruence.
Qed.

(** X5. The schema takes budgets up to the largest safe integer, the
    column only up to the largest 32-bit integer: [POST /] on a payload
    that the schema accepts with a budget above that bound is answered
    with a server error, and nothing is stored. *)
Theorem post_buyer_budget_overflow d u body now v n :
  parse buyerSchema body = inr v ->
  get v "budgetMin" = JNum n \/ get v "budgetMax" = JNum n ->
  INT4_MAX < n ->
  post_buyer d u body now = (d, PostServerError).
Proof.
  intros Hp Hb Hn. unfold post_buyer, insert_buyer.
  rewrite Hp, (budget_overflow_row v n Hb Hn). reflexivity.
Qed.

End CreateProperties.

(** ** A successful update *)
Section UpdateSuccess.
Context `{Platform}.

Lemma parse_fields_nodup sh input :
  NoDup (map fst sh) -> NoDup (keys (snd (parse_fields sh input))).
Proof.
  induction sh as [|[k t] sh IH]; cbn [map fst parse_fields]; intros Hnd.
  - constructor.
  - apply NoDup_cons in Hnd as [Hn Hnd]. specialize (IH Hnd).
    pose proof (parse_fields_keys sh input) as Hincl.
    destruct (parse_fields sh input) as [iss out]. cbn [snd] in *.
    assert (Hk : NoDup (keys ((k, JNull) :: out))).
    { change (NoDup (k :: keys out)). apply NoDup_cons. split; [|exact IH].
      intros Hin. apply Hn. apply list_elem_of_In, Hincl, list_elem_of_In, Hin. }
    destruct (run t (get input k)) as [msgs|w]; [exact IH|].
    destruct w; first [exact IH | exact Hk].
Qed.

Lemma parse_nodup o input v :
  NoDup (map fst (shape o)) -> parse o input = inr v -> NoDup (keys v).
Proof.
  intros Hnd Hp. apply parse_inr_fields in Hp.
  pose proof (parse_fields_nodup (shape o) input Hnd) as Hk.
  rewrite Hp in Hk. exact Hk.
Qed.

Lemma get_in (o : obj) k val : NoDup (keys o) -> In (k, val) o -> get o k = val.
Proof.
  induction o as [|[k0 v0] o IH]; [intros _ []|].
  change (keys ((k0, v0) :: o)) with (k0 :: keys o). intros Hnd Hin.
  apply NoDup_cons in Hnd as [Hn Hnd]. cbn [get].
  destruct Hin as [Heq|Hin].
  - injection Heq as -> ->. rewrite String.eqb_refl. reflexivity.
  - destruct (String.eqb_spec k0 k) as [->|_]; [|apply IH; assumption].
    exfalso. apply Hn, list_elem_of_In. apply in_map_iff. exists (k, val). auto.
Qed.

Lemma in_get (o : obj) k : get o k <> JUndefined -> In (k, get o k) o.
Proof.
  induction o as [|[k0 v0] o IH]; cbn [get]; [congruence|].
  destruct (String.eqb_spec k0 k) as [->|_]; [left; reflexivity|].
  intros Hd. right. apply IH, Hd.
Qed.

(** The columns after a list of assignments to distinct columns. *)
Lemma fold_set_get_notin sets : forall cols c,
  ~ In c (map fst sets) ->
  get (fold_left (fun o kv => set o (fst kv) (snd kv)) sets cols) c = get cols c.
Proof.
  induction sets as [|[c0 w0] sets IH]; intros cols c Hn; [reflexivity|].
  cbn [fold_left fst snd]. rewrite IH by (cbn in Hn; tauto).
  rewrite get_set. destruct (String.eqb_spec c0 c) as [->|_]; [|reflexivity].
  exfalso. apply Hn. left. reflexivity.
Qed.

Lemma fold_set_get_in sets : forall cols c w,
  NoDup (map fst sets) -> In (c, w) sets ->
  get (fold_left (fun o kv => set o (fst kv) (snd kv)) sets cols) c = w.
Proof.
  induction sets as [|[c0 w0] sets IH]; intros cols c w Hnd Hin; [destruct Hin|].
  cbn [map fst] in Hnd. apply NoDup_cons in Hnd as [Hn Hnd].
  cbn [fold_left fst snd]. destruct Hin as [Heq|Hin].
  - injection Heq as -> ->.
    rewrite fold_set_get_notin by (rewrite <- list_elem_of_In; exact Hn).
    rewrite get_set, String.eqb_refl. reflexivity.
  - apply IH; assumption.
Qed.

Lemma mapping_get_in m k c : mapping_get m k = Some c -> In (k, c) m.
Proof.
  induction m as [|[k0 c0] m IH]; cbn [mapping_get]; [discriminate|].
  destruct (String.eqb_spec k0 k) as [->|_].
  - intros [= ->]. left. reflexivity.
  - intros Hm. right. apply IH, Hm.
Qed.

Lemma mapping_get_injective k1 k2 c :
  mapping_get fieldMapping k1 = Some c -> mapping_get fieldMapping k2 = Some c ->
  k1 = k2.
Proof.
  intros H1 H2. apply mapping_get_in in H1. apply mapping_get_in in H2.
  unfold fieldMapping in H1, H2. cbn [In] in H1, H2.
  repeat (destruct H1 as [H1|H1];
          [injection H1 as <- <-;
           repeat (destruct H2 as [H2|H2];
                   [first [discriminate H2 | injection H2 as <-; reflexivity]|]);
           destruct H2|]).
  destruct H1.
Qed.

Lemma assignment_inv k val c w :
  assignment (k, val) = Some (c, w) ->
  mapping_get fieldMapping k = Some c /\ val <> JUndefined
  /\ w = empty_to_null val.
Proof.
  unfold assignment, assigned_column. cbn [fst snd].
  destruct (String.eqb k "updatedAt"); [discriminate|].
  destruct (mapping_get fieldMapping k) as [c'|]; [|discriminate].
  destruct val; try discriminate; intros [= <- <-];
    repeat split; discriminate.
Qed.

Lemma assignments_nodup v :
  NoDup (keys v) -> NoDup (map fst (omap assignment v)).
Proof.
  induction v as [|[k val] v IH]; [constructor|].
  change (keys ((k, val) :: v)) with (k :: keys v). intros Hnd.
  apply NoDup_cons in Hnd as [Hn Hnd]. specialize (IH Hnd).
  cbn [omap list_omap]. fold (omap assignment v).
  destruct (assignment (k, val)) as [[c w]|] eqn:Ea; [|exact IH].
  cbn [map fst]. apply NoDup_cons. split; [|exact IH].
  intros Hin. apply list_elem_of_In, in_map_iff in Hin as ([c' w'] & Hc & Hin).
  cbn [fst] in Hc. subst c'.
  apply (proj2 (list_elem_of_In _ _)), list_elem_of_omap in Hin
    as ([k' val'] & Hin & Ha').
  apply assignment_inv in Ea as (Hm & _). apply assignment_inv in Ha' as (Hm' & _).
  assert (k' = k) as -> by (eapply mapping_get_injective; eauto).
  apply Hn. apply list_elem_of_fmap. exists (k, val'). auto.
Qed.

(** What a successful update did, read off the handler. *)
Lemma put_validated_ok_inv d u id v now d1 b1 :
  put_validated d u id v now = (d1, PutOk b1) ->
  exists cur,
    buyers d !! id = Some cur
    /\ checkOwnership u (b_owner cur) = true
    /\ stale v cur = false
    /\ omap assignment v <> []
    /\ b1 = Buyer (b_id cur)
              (fold_left (fun o kv => set o (fst kv) (snd kv))
                 (omap assignment v) (b_cols cur))
              (b_owner cur) (b_created cur) now
    /\ row_ok (b_cols b1) = true
    /\ buyers d1 = <[id := b1]> (buyers d)
    /\ history d1
       = (history d
          ++ match snd (update_loop (b_cols cur) v) with
             | [] => []
             | ch => [HistoryRow id (u_id u) now (DUpdated ch)]
             end)%list.
Proof.
  unfold put_validated, select_buyer.
  destruct (buyers d !! id) as [cur|] eqn:Hcur; [|discriminate].
  destruct (checkOwnership u (b_owner cur)) eqn:Ho; cbn [negb]; [|discriminate].
  destruct (stale v cur) eqn:Hst; [discriminate|].
  pose proof (update_loop_fst (b_cols cur) v) as Hfst.
  pose proof (update_loop_data_columns (b_cols cur) v) as Hdata.
  destruct (update_loop (b_cols cur) v) as [sets changes] eqn:Hl.
  cbn [fst snd] in *.
  subst sets. destruct (omap assignment v) as [|a sets] eqn:Eo; [discriminate|].
  rewrite (update_buyer_data d id (a :: sets) now Hdata), Hcur. cbv zeta.
  destruct (row_ok _) eqn:Hok; [|discriminate].
  intros Hr. exists cur.
  assert (Hd : (d1, PutOk b1)
               = (Db (<[id := Buyer (b_id cur)
                               (fold_left (fun o kv => set o (fst kv) (snd kv))
                                  (a :: sets) (b_cols cur))
                               (b_owner cur) (b_created cur) now]> (buyers d))
                     (history d
                      ++ match changes with
                         | [] => []
                         | ch => [HistoryRow id (u_id u) now (DUpdated ch)]
                         end)%list,
                  PutOk (Buyer (b_id cur)
                           (fold_left (fun o kv => set o (fst kv) (snd kv))
                              (a :: sets) (b_cols cur))
                           (b_owner cur) (b_created cur) now))).
  { destruct changes; rewrite <- Hr; unfold recordHistory;
      cbn [buyers history]; rewrite ?app_nil_r; reflexivity. }
  injection Hd as -> ->. rewrite Hl. cbn [b_cols buyers history snd].
  split; [reflexivity|]. split; [exact Ho|]. split; [exact Hst|].
  rewrite ?Eo. split; [discriminate|]. split; [reflexivity|].
  split; [exact Hok|]. split; [reflexivity|]. destruct changes; reflexivity.
Qed.

(** X6. A successful [PUT /:id] writes exactly the fields of the
    validated payload: each mapped field with a defined value is stored
    (the empty string as null), every other column keeps its value, the
    owner and the creation time stay, [updated_at] becomes the time of the
    request, the stored row satisfies the constraints of the table, and
    no other lead changes. *)
Theorem put_buyer_writes_supplied_fields d u id body now d1 b1 :
  put_buyer d u id body now = (d1, PutOk b1) ->
  exists v cur,
    parse updateBuyerSchema body = inr v
    /\ buyers d !! id = Some cur
    /\ buyers d1 !! id = Some b1
    /\ (forall i, i <> id -> buyers d1 !! i = buyers d !! i)
    /\ (forall k c,
          mapping_get fieldMapping k = Some c ->
          get (b_cols b1) c
          = if decide (get v k = JUndefined) then get (b_cols cur) c
            else empty_to_null (get v k))
    /\ b_owner b1 = b_owner cur /\ b_created b1 = b_created cur
    /\ b_updated b1 = now
    /\ row_ok (b_cols b1) = true.
Proof.
  unfold put_buyer.
  destruct (parse updateBuyerSchema body) as [iss|v] eqn:Hp; [discriminate|].
  intros Hr. apply put_validated_ok_inv in Hr
    as (cur & Hcur & _ & _ & _ & Hb1 & Hok & Hbs & _).
  exists v, cur. split; [reflexivity|]. split; [exact Hcur|].
  split; [rewrite Hbs; apply lookup_insert_eq|].
  split; [intros i Hi; rewrite Hbs; apply lookup_insert_ne; congruence|].
  split; [|subst b1; cbn; auto].
  intros k c Hm. subst b1. cbn [b_cols].
  pose proof (parse_nodup _ _ _ updateBuyerSchema_keys Hp) as Hnd.
  assert (Hu : String.eqb k "updatedAt" = false).
  { destruct (String.eqb_spec k "updatedAt") as [->|]; [|reflexivity].
    discriminate Hm. }
  destruct (decide (get v k = JUndefined)) as [Hundef|Hdef].
  - apply fold_set_get_notin. intros Hin.
    apply in_map_iff in Hin as ([c' w] & Hc & Hin). cbn [fst] in Hc. subst c'.
    apply (proj2 (list_elem_of_In _ _)), list_elem_of_omap in Hin
      as ([k' val] & Hin & Ha).
    apply assignment_inv in Ha as (Hm' & Hval & _).
    assert (k' = k) as -> by (eapply mapping_get_injective; eauto).
    apply (proj1 (list_elem_of_In _ _)) in Hin.
    rewrite (get_in v k val Hnd Hin) in Hundef. contradiction.
  - apply fold_set_get_in; [apply assignments_nodup, Hnd|].
    apply list_elem_of_In, list_elem_of_omap. exists (k, get v k).
    split; [apply list_elem_of_In, in_get, Hdef|].
    unfold assignment, assigned_column. cbn [fst snd]. rewrite Hu, Hm.
    destruct (get v k); congruence.
Qed.

(** X7. A successful [PUT /:id] appends at most one history entry: none
    when no supplied value differs from the stored one, otherwise one
    [updated] entry for the lead by the caller.  Its change set has an
    entry for a key exactly when the key is a mapped field of the
    validated payload with a defined value that is not identical ([!==],
    on the value as supplied) to the stored value, and the entry holds
    the stored and the supplied value. *)
Theorem put_buyer_history d u id body now d1 b1 :
  put_buyer d u id body now = (d1, PutOk b1) ->
  exists v cur changes,
    parse updateBuyerSchema body = inr v
    /\ buyers d !! id = Some cur
    /\ (forall k, changes_get changes k = change_of (b_cols cur) k (get v k))
    /\ history d1
       = (history d
          ++ match changes with
             | [] => []
             | ch => [HistoryRow id (u_id u) now (DUpdated ch)]
             end)%list.
Proof.
  unfold put_buyer.
  destruct (parse updateBuyerSchema body) as [iss|v] eqn:Hp; [discriminate|].
  intros Hr. apply put_validated_ok_inv in Hr
    as (cur & Hcur & _ & _ & _ & _ & _ & _ & Hh).
  exists v, cur, (snd (update_loop (b_cols cur) v)).
  split; [reflexivity|]. split; [exact Hcur|].
  split; [|rewrite Hh; destruct (snd (update_loop (b_cols cur) v)); reflexivity].
  intros k. unfold update_loop.
  rewrite fold_update_changes
    by exact (parse_nodup _ _ _ updateBuyerSchema_keys Hp).
  cbn [snd changes_get]. destruct (change_of (b_cols cur) k (get v k));
    reflexivity.
Qed.

End UpdateSuccess.

(** ** The import handler: gates and success *)
Section ImportSuccess.
Context `{Platform}.

Lemma validate_rows_errors_nil rows : forall index validRows,
  validate_rows index rows = (validRows, []) ->
  Forall2 (fun row v => parse csvRowSchema (processedRow row) = inr v)
    rows validRows.
Proof.
  induction rows as [|row rows IH]; intros index vs; cbn [validate_rows].
  - intros [= <-]. constructor.
  - destruct (validate_rows (S index) rows) as [vs' errs] eqn:Hv.
    destruct (parse csvRowSchema (processedRow row)) as [iss|v] eqn:Hp;
      [discriminate|].
    intros [= <- ->]. constructor; [exact Hp|]. eapply IH, Hv.
Qed.

Lemma validate_rows_some_error rows : forall index validRows e errors,
  validate_rows index rows = (validRows, e :: errors) ->
  exists row, In row rows /\ row_valid row = false.
Proof.
  induction rows as [|row rows IH]; intros index vs e errs;
    cbn [validate_rows]; [discriminate|].
  destruct (validate_rows (S index) rows) as [vs' errs'] eqn:Hv.
  destruct (parse csvRowSchema (processedRow row)) as [iss|v] eqn:Hp.
  - intros _. exists row. split; [left; reflexivity|].
    unfold row_valid. rewrite Hp. reflexivity.
  - intros [= <- ->]. destruct (IH _ _ _ _ Hv) as (r & Hin & Hr).
    exists r. split; [right; exact Hin | exact Hr].
Qed.

Lemma Forall2_In_r {A B} (P : A -> B -> Prop) l k y :
  Forall2 P l k -> In y k -> exists x, In x l /\ P x y.
Proof.
  induction 1 as [|x y0 l k Hp _ IH]; [intros []|].
  intros [<-|Hin]; [exists x; split; [left; reflexivity | exact Hp]|].
  destruct (IH Hin) as (x' & Hx & Hpx). exists x'. split; [right|]; assumption.
Qed.

(** The rows of a committed transaction. *)
Lemma insert_rows_inv u now validRows : forall d d1 inserted,
  insert_rows d u validRows now = Some (d1, inserted) ->
  Forall2 (fun v b => b_cols b = insert_columns v /\ b_owner b = u_id u
                      /\ b_created b = now /\ b_updated b = now
                      /\ row_ok (b_cols b) = true
                      /\ buyers d !! b_id b = None
                      /\ buyers d1 !! b_id b = Some b) validRows inserted
  /\ NoDup (map b_id inserted)
  /\ history d1
     = (history d
        ++ map (fun bv => HistoryRow (b_id (fst bv)) (u_id u) now
                            (DImported (snd bv)))
             (combine inserted validRows))%list
  /\ (forall i b, buyers d !! i = Some b -> buyers d1 !! i = Some b)
  /\ (forall i b, buyers d1 !! i = Some b ->
                  buyers d !! i = Some b \/ In b inserted).
Proof.
  induction validRows as [|v vs IH]; intros d d1 bs; cbn [insert_rows].
  - intros [= <- <-]. split; [constructor|]. split; [constructor|].
    split; [cbn; rewrite app_nil_r; reflexivity|]. auto.
  - destruct (insert_buyer d (insert_columns v) (u_id u) now)
      as [[d2 b]|] eqn:Hi; [|discriminate].
    destruct (insert_rows (recordHistory d2 (b_id b) (u_id u) (DImported v) now)
                u vs now) as [[d3 bs']|] eqn:Hr; [|discriminate].
    intros [= <- <-].
    destruct (IH _ _ _ Hr) as (Hf & Hnd & Hh & Hkeep & Hfrom).
    cbn [recordHistory buyers history] in Hf, Hh, Hkeep, Hfrom.
    assert (Hrow : row_ok (insert_columns v) = true).
    { unfold insert_buyer in Hi. destruct (row_ok (insert_columns v));
        [reflexivity|discriminate]. }
    assert (Hb : b = Buyer (fresh (dom (buyers d))) (insert_columns v)
                       (u_id u) now now
                 /\ buyers d2 = <[b_id b := b]> (buyers d)
                 /\ history d2 = history d).
    { unfold insert_buyer in Hi. rewrite Hrow in Hi.
      injection Hi as <- <-. auto. }
    destruct Hb as (Hb & Hb2 & Hh2).
    assert (Hnew : buyers d !! b_id b = None).
    { rewrite Hb. cbn [b_id]. apply not_elem_of_dom, is_fresh. }
    assert (Hin2 : buyers d2 !! b_id b = Some b)
      by (rewrite Hb2; apply lookup_insert_eq).
    split; [|split; [|split; [|split]]].
    + constructor.
      * rewrite Hb at 1 2 3 4 5. cbn [b_cols b_owner b_created b_updated].
        repeat split; auto.
      * eapply Forall2_impl; [exact Hf|]. intros v' b' (? & ? & ? & ? & ? & Hn' & ?).
        repeat split; auto. rewrite Hb2 in Hn'.
        apply lookup_insert_None in Hn'. tauto.
    + cbn [map]. apply NoDup_cons. split; [|exact Hnd].
      intros Hin. apply list_elem_of_In, in_map_iff in Hin as (b' & Hid & Hin).
      destruct (Forall2_In_r _ _ _ _ Hf Hin)
        as (v' & _ & (_ & _ & _ & _ & _ & Hn' & _)).
      rewrite Hid, Hin2 in Hn'. discriminate.
    + rewrite Hh, Hh2. cbn [combine map fst snd]. rewrite <- app_assoc.
      reflexivity.
    + intros i b0 Hi0. apply Hkeep. rewrite Hb2.
      rewrite lookup_insert_ne; [exact Hi0|]. congruence.
    + intros i b0 Hi0. destruct (Hfrom i b0 Hi0) as [Hold|Hin].
      * rewrite Hb2 in Hold. destruct (decide (b_id b = i)) as [<-|Hne].
        -- rewrite lookup_insert_eq in Hold. injection Hold as <-.
           right. left. reflexivity.
        -- rewrite lookup_insert_ne in Hold by exact Hne. auto.
      * right. right. exact Hin.
Qed.

Lemma insert_rows_fails u now validRows : forall d,
  (exists v, In v validRows /\ row_ok (insert_columns v) = false) ->
  insert_rows d u validRows now = None.
Proof.
  induction validRows as [|v vs IH]; intros d (w & Hin & Hw); [destruct Hin|].
  cbn [insert_rows]. unfold insert_buyer.
  destruct (row_ok (insert_columns v)) eqn:Hv; [|reflexivity].
  destruct Hin as [->|Hin]; [congruence|].
  rewrite IH; [reflexivity|]. eauto.
Qed.

(** X8. The size limits of [POST /import]: the answer is "empty file"
    exactly when the file has no row and "more than 200 rows" exactly
    when it has more than 200; in both cases no row is validated or
    inserted, and a file of exactly 200 rows is within the limit. *)
Theorem import_buyers_gates d u rows now :
  (snd (import_buyers d u rows now) = ImportEmpty <-> rows = [])
  /\ (snd (import_buyers d u rows now) = ImportTooMany <->
      (200 < length rows)%nat)
  /\ (rows = [] \/ (200 < length rows)%nat ->
      fst (import_buyers d u rows now) = d).
Proof.
  unfold import_buyers. destruct rows as [|r rows].
  - cbn. repeat split; try discriminate; try reflexivity; lia.
  - destruct (Nat.ltb_spec 200 (length (r :: rows))) as [Hgt|Hle].
    + cbn [fst snd]. repeat split; try discriminate; try reflexivity; auto.
    + destruct (validate_rows 0 (r :: rows)) as [vs errs].
      assert (Hsnd : forall x,
                 snd (match errs with
                      | [] =>
                          match insert_rows d u vs now with
                          | Some (d1, bs) => (d1, ImportOk (length bs) bs)
                          | None => (d, ImportServerError)
                          end
                      | _ :: _ =>
                          (d, ImportRejected errs (length vs) (length (r :: rows)))
                      end) = x ->
                 x <> ImportEmpty /\ x <> ImportTooMany).
      { intros x <-. destruct errs; [|split; discriminate].
        destruct (insert_rows d u vs now) as [[d1 bs]|]; split; discriminate. }
      split; [split; [intros E; apply Hsnd in E; tauto | discriminate]|].
      split; [split; [intros E; apply Hsnd in E; tauto | lia]|].
      intros [?|?]; [discriminate|lia].
Qed.

(** X9. When [POST /import] answers with success, every row of the file
    passed the validation and was inserted exactly once, in row order,
    under a new identifier, with the caller as owner and the validated
    values in its columns; the history gained one [imported] entry per
    row, in order, carrying the validated row; the reported count is the
    number of rows; the leads that were in the store are still there and
    nothing else was added. *)
Theorem import_buyers_committed d u rows now d1 n inserted :
  import_buyers d u rows now = (d1, ImportOk n inserted) ->
  n = length rows /\ (1 <= length rows <= 200)%nat
  /\ exists validRows,
      Forall2 (fun row v => parse csvRowSchema (processedRow row) = inr v)
        rows validRows
      /\ Forall2 (fun v b => b_cols b = insert_columns v /\ b_owner b = u_id u
                             /\ b_created b = now /\ b_updated b = now
                             /\ row_ok (b_cols b) = true
                             /\ buyers d !! b_id b = None
                             /\ buyers d1 !! b_id b = Some b)
           validRows inserted
      /\ NoDup (map b_id inserted)
      /\ history d1
         = (history d
            ++ map (fun bv => HistoryRow (b_id (fst bv)) (u_id u) now
                                (DImported (snd bv)))
                 (combine inserted validRows))%list
      /\ (forall i b, buyers d !! i = Some b -> buyers d1 !! i = Some b)
      /\ (forall i b, buyers d1 !! i = Some b ->
                      buyers d !! i = Some b \/ In b inserted).
Proof.
  unfold import_buyers. destruct rows as [|r rows]; [discriminate|].
  destruct (Nat.ltb_spec 200 (length (r :: rows))) as [Hgt|Hle]; [discriminate|].
  destruct (validate_rows 0 (r :: rows)) as [vs errs] eqn:Hv.
  destruct errs as [|e errs]; [|discriminate].
  destruct (insert_rows d u vs now) as [[d2 bs]|] eqn:Hi; [|discriminate].
  intros [= <- <- <-].
  pose proof (validate_rows_errors_nil _ _ _ Hv) as Hvalid.
  pose proof (insert_rows_inv _ _ _ _ _ _ Hi) as (Hf & Hrest).
  split; [rewrite <- (Forall2_length _ _ _ Hf), <- (Forall2_length _ _ _ Hvalid);
          reflexivity|].
  split; [cbn [length] in *; lia|].
  exists vs. auto.
Qed.

(** X10. When every row of a file passes the validation but one of them
    violates a constraint of the table (a budget beyond the integer
    column, say), the transaction is rolled back: the answer is a server
    error and no row of the file is in the store, not even the rows
    before the failing one. *)
Theorem import_buyers_rollback d u rows now validRows v :
  (length rows <= 200)%nat ->
  Forall2 (fun row w => parse csvRowSchema (processedRow row) = inr w)
    rows validRows ->
  In v validRows -> row_ok (insert_columns v) = false ->
  import_buyers d u rows now = (d, ImportServerError).
Proof.
  intros Hlen Hvalid Hin Hbad.
  assert (Hv : forall index, validate_rows index rows = (validRows, [])).
  { clear Hlen Hin. induction Hvalid as [|row w rows vs Hp _ IH]; intros index;
      cbn [validate_rows]; [reflexivity|]. rewrite IH, Hp. reflexivity. }
  unfold import_buyers. destruct rows as [|r rows].
  { inversion Hvalid; subst. destruct Hin. }
  destruct (Nat.ltb_spec 200 (length (r :: rows))); [lia|].
  rewrite Hv, insert_rows_fails by eauto. reflexivity.
Qed.

End ImportSuccess.


(** ** The statement of the list handler *)
Section ListStatement.
Context `{Platform}.

Lemma or_explains a b x : run (or a b) x <> inl [].
Proof.
  unfold or. cbn [run]. destruct (run a x); [|discriminate].
  destruct (run b x); discriminate.
Qed.

Lemma default_explains t d x :
  (forall y, run t y <> inl []) -> run (default t d) x <> inl [].
Proof.
  intros Ht. unfold default. cbn [run]. destruct x; try apply Ht. discriminate.
Qed.

Lemma z_literal_inv lit x w :
  run (z_literal lit) x = inr w -> x = JStr lit /\ w = JStr lit.
Proof.
  unfold z_literal. cbn [run]. destruct x; try discriminate.
  destruct (String.eqb_spec s lit) as [->|_]; [|discriminate].
  intros [= <-]. auto.
Qed.

Lemma or_inv a b x w :
  run (or a b) x = inr w -> run a x = inr w \/ run b x = inr w.
Proof.
  unfold or. cbn [run]. destruct (run a x) as [e|r]; [|intros [= <-]; auto].
  destruct (run b x) as [e'|r]; [discriminate|intros [= <-]; auto].
Qed.

(** An enum filter lets through an absent parameter, the empty string
    and the values of the enum, each unchanged. *)
Lemma enum_filter_inv vals x w :
  run (or (optional (z_enum vals)) (z_literal "")) x = inr w ->
  w = x /\ (x = JUndefined \/ x = JStr ""
            \/ exists s, x = JStr s /\ In s vals).
Proof.
  intros Hr. apply or_inv in Hr as [Hr|Hr].
  - apply optional_enum_inv in Hr as [[-> ->]|(s & -> & -> & Hs)]; [auto|].
    split; [reflexivity|]. right. right. exists s. split; [reflexivity|].
    apply existsb_exists in Hs as (y & Hy & Hys).
    apply String.eqb_eq in Hys. subst y. exact Hy.
  - apply z_literal_inv in Hr as [-> ->]. auto.
Qed.

Lemma search_filter_inv x w :
  run (or (optional (z_string [])) (z_literal "")) x = inr w ->
  w = x /\ (x = JUndefined \/ exists s, x = JStr s).
Proof.
  intros Hr. apply or_inv in Hr as [Hr|Hr].
  - unfold optional in Hr. cbn [run optin z_string omap] in Hr.
    destruct x; try discriminate; injection Hr as <-; eauto.
  - apply z_literal_inv in Hr as [-> ->]. eauto.
Qed.



Lemma filters_field query filters k t :
  parse filtersSchema query = inr filters ->
  In (k, t) (shape filtersSchema) -> (forall x, run t x <> inl []) ->
  exists w, run t (get query k) = inr w /\ get filters k = w.
Proof.
  intros Hp Hin Hne.
  exact (parse_value _ _ _ _ _ Hp filtersSchema_keys Hin Hne).
Qed.


(** X12. The filters that [GET /] sends to the store.  The equality
    filters are those of the parameters [city], [propertyType], [status]
    and [timeline] that are present and not empty, in this order, each
    on its own column and with the parameter's own value, which is one
    of the values of the column's enum; the search pattern is the
    [search] parameter between two percent signs, and there is none when
    the parameter is absent or empty. *)
Theorem list_buyers_filters query q :
  list_buyers_query query = inr q ->
  q_filters q
  = add_filter "b.timeline" (get query "timeline")
      (add_filter "b.status" (get query "status")
         (add_filter "b.property_type" (get query "propertyType")
            (add_filter "b.city" (get query "city") [])))
  /\ (forall column v,
        In (column, v) (q_filters q) ->
        exists s, v = JStr s /\ s <> ""
          /\ ((column = "b.city"
               /\ In s ["Chandigarh"; "Mohali"; "Zirakpur"; "Panchkula"; "Other"])
              \/ (column = "b.property_type"
                  /\ In s ["Apartment"; "Villa"; "Plot"; "Office"; "Retail"])
              \/ (column = "b.status"
                  /\ In s ["New"; "Qualified"; "Contacted"; "Visited";
                           "Negotiation"; "Converted"; "Dropped"])
              \/ (column = "b.timeline"
                  /\ In s ["0-3m"; "3-6m"; ">6m"; "Exploring"])))
  /\ q_search q = match get query "search" with
                  | JStr s => if String.eqb s "" then None
                              else Some ("%" ++ s ++ "%")
                  | _ => None
                  end.
Proof.
  unfold list_buyers_query.
  destruct (parse filtersSchema query) as [iss|filters] eqn:Hp; [discriminate|].
  intros [= <-].
  destruct (filters_field query filters "city" _ Hp
              ltac:(cbn; left; reflexivity) ltac:(intros x; apply or_explains))
    as (city & Hcity & Gcity).
  destruct (filters_field query filters "propertyType" _ Hp
              ltac:(cbn; right; left; reflexivity)
              ltac:(intros x; apply or_explains))
    as (ptype & Hptype & Gptype).
  destruct (filters_field query filters "status" _ Hp
              ltac:(cbn; do 2 right; left; reflexivity)
              ltac:(intros x; apply or_explains))
    as (status & Hstatus & Gstatus).
  destruct (filters_field query filters "timeline" _ Hp
              ltac:(cbn; do 3 right; left; reflexivity)
              ltac:(intros x; apply or_explains))
    as (timeline & Htimeline & Gtimeline).
  destruct (filters_field query filters "search" _ Hp
              ltac:(cbn; do 4 right; left; reflexivity)
              ltac:(intros x; apply or_explains))
    as (search & Hsearch & Gsearch).
  apply enum_filter_inv in Hcity as [-> Ccity].
  apply enum_filter_inv in Hptype as [-> Cptype].
  apply enum_filter_inv in Hstatus as [-> Cstatus].
  apply enum_filter_inv in Htimeline as [-> Ctimeline].
  apply search_filter_inv in Hsearch as [-> Csearch].
  unfold build_list_query. cbn [q_filters q_search].
  rewrite Gcity, Gptype, Gstatus, Gtimeline, Gsearch.
  assert (Hone : forall column x vals fs c v,
             (x = JUndefined \/ x = JStr ""
              \/ exists s, x = JStr s /\ In s vals) ->
             In (c, v) (add_filter column x fs) ->
             In (c, v) fs
             \/ (c = column /\ exists s, v = JStr s /\ s <> "" /\ In s vals)).
  { intros column x vals fs c v Hx. unfold add_filter.
    destruct Hx as [->|[->|(s & -> & Hs)]]; cbn [truthy negb];
      [auto|rewrite String.eqb_refl; cbn [negb]; auto|].
    destruct (String.eqb_spec s "") as [->|Hne]; cbn [negb]; [auto|].
    rewrite in_app_iff. cbn [In]. intros [?|[[= <- <-]|[]]]; [auto|].
    right. split; [reflexivity|]. exists s. auto. }
  split; [reflexivity|]. split.
  - intros column v Hin.
    apply (Hone _ _ _ _ _ _ Ctimeline) in Hin as [Hin|[-> (s & -> & ? & ?)]];
      [|exists s; auto 10].
    apply (Hone _ _ _ _ _ _ Cstatus) in Hin as [Hin|[-> (s & -> & ? & ?)]];
      [|exists s; auto 10].
    apply (Hone _ _ _ _ _ _ Cptype) in Hin as [Hin|[-> (s & -> & ? & ?)]];
      [|exists s; auto 10].
    apply (Hone _ _ _ _ _ _ Ccity) in Hin as [[]|[-> (s & -> & ? & ?)]].
    exists s; auto 10.
  - destruct Csearch as [->|[s ->]]; [reflexivity|].
    cbn [truthy str_of]. destruct (String.eqb s ""); reflexivity.
Qed.

(** X13. The direction that [GET /] puts after the sort column is [ASC]
    for the parameter [asc], [DESC] for [desc] and when the parameter is
    absent, and nothing at all for the empty string; any other
    [sortOrder] makes the filter schema fail. *)
Theorem list_buyers_direction query :
  (forall q, list_buyers_query query = inr q ->
     (get query "sortOrder" = JStr "asc" /\ q_order_direction q = "ASC")
     \/ (get query "sortOrder" = JStr "desc" /\ q_order_direction q = "DESC")
     \/ (get query "sortOrder" = JUndefined /\ q_order_direction q = "DESC")
     \/ (get query "sortOrder" = JStr "" /\ q_order_direction q = ""))
  /\ (get query "sortOrder" <> JStr "asc" ->
      get query "sortOrder" <> JStr "desc" ->
      get query "sortOrder" <> JStr "" ->
      get query "sortOrder" <> JUndefined ->
      exists iss, list_buyers_query query = inl iss).
Proof.
  assert (Hdir : forall q, list_buyers_query query = inr q ->
     (get query "sortOrder" = JStr "asc" /\ q_order_direction q = "ASC")
     \/ (get query "sortOrder" = JStr "desc" /\ q_order_direction q = "DESC")
     \/ (get query "sortOrder" = JUndefined /\ q_order_direction q = "DESC")
     \/ (get query "sortOrder" = JStr "" /\ q_order_direction q = "")).
  { intros q. unfold list_buyers_query.
    destruct (parse filtersSchema query) as [iss|filters] eqn:Hp;
      [discriminate|].
    intros [= <-].
    destruct (filters_field query filters "sortOrder" _ Hp
                ltac:(cbn; do 8 right; left; reflexivity)
                ltac:(intros x; apply default_explains; intros y;
                      apply or_explains))
      as (w & Hw & Gw).
    unfold build_list_query. cbn [q_order_direction]. rewrite Gw.
    unfold default in Hw. cbn [run] in Hw.
    destruct (get query "sortOrder") as [| | | | |s| |] eqn:Hs;
      try (injection Hw as <-; auto 10);
      try (apply or_inv in Hw as [Hw|Hw];
           [apply z_enum_inv in Hw as (? & ? & _); discriminate
           |apply z_literal_inv in Hw as [? _]; discriminate]).
    apply or_inv in Hw as [Hw|Hw].
    - apply z_enum_inv in Hw as (s' & [= <-] & -> & Hs').
      cbn [existsb] in Hs'.
      destruct (String.eqb_spec s "asc") as [->|_]; [auto|].
      destruct (String.eqb_spec s "desc") as [->|_]; [auto|]. discriminate.
    - apply z_literal_inv in Hw as [[= ->] ->]. auto 10. }
  split; [exact Hdir|].
  intros H1 H2 H3 H4.
  destruct (list_buyers_query query) as [iss|q] eqn:Hq; [eauto|].
  destruct (Hdir q eq_refl) as [[? _]|[[? _]|[[? _]|[? _]]]]; contradiction.
Qed.

End ListStatement.


(** ** The tags of an imported row *)
Section ImportedTags.

(** No piece of a split at the commas holds a comma. *)
Lemma split_on_comma_free s :
  Forall (fun x => no_comma x = true) (split_on comma s).
Proof.
  unfold no_comma. induction s as [|c s IH]; cbn [split_on].
  - repeat constructor.
  - destruct (Ascii.eqb c comma) eqn:Ec.
    + constructor; [reflexivity|exact IH].
    + destruct (split_on comma s) as [|x xs].
      * constructor; [cbn [all_chars]; rewrite Ec; reflexivity|constructor].
      * apply Forall_cons_1 in IH as [Hx Hxs].
        constructor; [cbn [all_chars]; rewrite Ec, Hx; reflexivity|exact Hxs].
Qed.

Lemma ltrim_all_chars p s : all_chars p s = true -> all_chars p (ltrim s) = true.
Proof.
  induction s as [|c s IH]; cbn [ltrim all_chars]; [reflexivity|].
  intros Hs. destruct (is_space c).
  - apply andb_prop in Hs as [_ Hs]. apply IH, Hs.
  - exact Hs.
Qed.

Lemma rtrim_all_chars p s : all_chars p s = true -> all_chars p (rtrim s) = true.
Proof.
  induction s as [|c s IH]; cbn [rtrim all_chars]; [reflexivity|].
  intros Hs. apply andb_prop in Hs as [Hc Hs]. specialize (IH Hs).
  destruct (rtrim s) as [|c' r].
  - destruct (is_space c); [reflexivity|].
    cbn [all_chars]. rewrite Hc. reflexivity.
  - cbn [all_chars] in *. rewrite Hc, IH. reflexivity.
Qed.

Lemma rtrim_idempotent s : rtrim (rtrim s) = rtrim s.
Proof.
  induction s as [|c s IH]; [reflexivity|].
  cbn [rtrim]. destruct (rtrim s) as [|c' r] eqn:Er.
  - destruct (is_space c) eqn:Ec; [reflexivity|].
    cbn [rtrim]. rewrite Ec. reflexivity.
  - change (rtrim (String c (String c' r)))
      with (match rtrim (String c' r) with
            | EmptyString =>
                if is_space c then EmptyString else String c EmptyString
            | x => String c x
            end).
    rewrite IH. reflexivity.
Qed.

Lemma ltrim_head s :
  ltrim s = EmptyString
  \/ exists c r, ltrim s = String c r /\ is_space c = false.
Proof.
  induction s as [|c s IH]; [left; reflexivity|].
  cbn [ltrim]. destruct (is_space c) eqn:Ec; [exact IH|].
  right. exists c, s. auto.
Qed.

Lemma rtrim_head c r :
  is_space c = false -> exists r', rtrim (String c r) = String c r'.
Proof.
  intros Hc. cbn [rtrim]. destruct (rtrim r) as [|c' r'].
  - rewrite Hc. eauto.
  - eauto.
Qed.

(** Trimming twice is trimming once. *)
Lemma trim_idempotent s : trim (trim s) = trim s.
Proof.
  unfold trim. destruct (ltrim_head s) as [->|(c & r & -> & Hc)];
    [reflexivity|].
  destruct (rtrim_head c r Hc) as [r' Hr]. rewrite Hr.
  cbn [ltrim]. rewrite Hc, <- Hr. apply rtrim_idempotent.
Qed.

Lemma trim_no_comma s : no_comma s = true -> no_comma (trim s) = true.
Proof.
  unfold no_comma, trim. intros Hs. apply rtrim_all_chars, ltrim_all_chars, Hs.
Qed.

(** X14. The tags that the import makes of the [tags] cell of a row are
    in normal form: whatever the cell holds, the result is a list of
    tags of which none is empty, none holds a comma and none starts or
    ends with white space; and writing that list to a cell as the
    export does and importing the cell again gives the same list. *)
Theorem csv_tags_normal_form val :
  exists l,
    csv_tags val = JArr l
    /\ Forall (fun tag => tag <> "" /\ no_comma tag = true /\ trim tag = tag) l
    /\ forallb tag_ok l = true
    /\ csv_tags (js_or (array_to_string (JArr l)) (JStr "")) = JArr l.
Proof.
  assert (Hnil : exists l,
             JArr [] = JArr l
             /\ Forall (fun tag => tag <> "" /\ no_comma tag = true
                                   /\ trim tag = tag) l
             /\ forallb tag_ok l = true
             /\ csv_tags (js_or (array_to_string (JArr l)) (JStr "")) = JArr l).
  { exists []. split; [reflexivity|]. split; [constructor|].
    split; reflexivity. }
  unfold csv_tags. destruct val as [| | | | |s| |]; try exact Hnil.
  destruct (negb (truthy (JStr s))); [exact Hnil|].
  set (l := List.filter (fun tag => (0 <? String.length tag)%nat)
              (map trim (split_on comma s))).
  assert (Hl : Forall (fun tag => tag_ok tag = true) l).
  { apply Forall_forall. intros tag Hin. apply list_elem_of_In in Hin.
    unfold l in Hin. apply filter_In in Hin as [Hin Hlen].
    apply in_map_iff in Hin as (piece & <- & Hpiece).
    unfold tag_ok. rewrite Hlen, trim_idempotent, String.eqb_refl.
    cbn [andb]. apply trim_no_comma.
    pose proof (split_on_comma_free s) as Hfree.
    rewrite Forall_forall in Hfree. apply Hfree, list_elem_of_In, Hpiece. }
  assert (Hall : forallb tag_ok l = true).
  { apply forallb_forall. intros tag Hin.
    rewrite Forall_forall in Hl. apply Hl, list_elem_of_In, Hin. }
  exists l. split; [reflexivity|]. split; [|split; [exact Hall|]].
  - eapply Forall_impl; [exact Hl|]. intros tag Ht.
    apply tag_ok_parts in Ht as (Hlen & Htrim & Hcomma).
    split; [|auto]. intros ->. discriminate.
  - cbn [array_to_string]. apply (csv_tags_join l Hall).
Qed.

End ImportedTags.


(** ** Accounts and authentication *)
Section AuthProperties.
Context `{Platform}.
Variable jwt_sign : jwt_payload -> string.
Variable jwt_verify : string -> option jwt_payload.
Variable bcrypt_hash : string -> string.
Variable bcrypt_compare : string -> string -> bool.

Lemma split_on_none sep x :
  all_chars (fun c => negb (Ascii.eqb c sep)) x = true -> split_on sep x = [x].
Proof.
  induction x as [|c x IH]; cbn [all_chars split_on]; [reflexivity|].
  intros Hx. apply andb_prop in Hx as [Hc Hx].
  apply negb_true_iff in Hc. rewrite Hc, (IH Hx). reflexivity.
Qed.

Lemma split_on_app sep x rest :
  all_chars (fun c => negb (Ascii.eqb c sep)) x = true ->
  split_on sep (x ++ String sep rest) = x :: split_on sep rest.
Proof.
  induction x as [|c x IH]; cbn [all_chars]; intros Hx.
  - change ("" ++ String sep rest) with (String sep rest).
    cbn [split_on]. rewrite Ascii.eqb_refl. reflexivity.
  - apply andb_prop in Hx as [Hc Hx]. apply negb_true_iff in Hc.
    change (String c x ++ String sep rest)
      with (String c (x ++ String sep rest)).
    cbn [split_on]. rewrite Hc, (IH Hx). reflexivity.
Qed.

Lemma append_nonempty_r a b : b <> "" -> a ++ b <> "".
Proof. destruct a; [auto|discriminate]. Qed.

(** The token of a header made of a scheme word, a space, a token and
    possibly more after another space. *)
Lemma header_token_scheme scheme token rest :
  no_space scheme = true -> no_space token = true ->
  header_token (Some (scheme ++ String space token)) = Some token
  /\ header_token (Some (scheme ++ String space (token ++ String space rest)))
     = Some token.
Proof.
  intros Hs Ht. unfold header_token.
  assert (Hne : forall r, String.eqb (scheme ++ String space r) "" = false).
  { intros r. apply String.eqb_neq, append_nonempty_r. discriminate. }
  rewrite !Hne, !(split_on_app space scheme) by exact Hs.
  rewrite (split_on_none space token Ht), (split_on_app space token rest Ht).
  split; reflexivity.
Qed.

(** X15. The middleware reads the token as the second of the pieces that
    the spaces cut the [Authorization] header into.  A request without
    the header, or with a header that holds no space, is answered 401
    without the token library being asked; the first piece is not looked
    at, so any scheme word does what [Bearer] does; and what follows a
    second space is ignored. *)
Theorem authenticateToken_header users :
  authenticateToken jwt_verify users None = AuthTokenRequired
  /\ (forall h, no_space h = true ->
        authenticateToken jwt_verify users (Some h) = AuthTokenRequired)
  /\ (forall scheme token rest,
        no_space scheme = true -> no_space token = true ->
        authenticateToken jwt_verify users (Some (scheme ++ " " ++ token))
        = authenticateToken jwt_verify users (Some ("Bearer " ++ token))
        /\ authenticateToken jwt_verify users
             (Some (scheme ++ " " ++ token ++ " " ++ rest))
           = authenticateToken jwt_verify users (Some ("Bearer " ++ token))).
Proof.
  split; [reflexivity|]. split.
  - intros h Hh. unfold authenticateToken, header_token.
    destruct (String.eqb h ""); [reflexivity|].
    rewrite (split_on_none space h Hh). reflexivity.
  - intros scheme token rest Hs Ht.
    change (scheme ++ " " ++ token) with (scheme ++ String space token).
    change (scheme ++ " " ++ token ++ " " ++ rest)
      with (scheme ++ String space (token ++ String space rest)).
    change ("Bearer " ++ token) with ("Bearer" ++ String space token).
    unfold authenticateToken.
    destruct (header_token_scheme scheme token rest Hs Ht) as [-> ->].
    destruct (header_token_scheme "Bearer" token rest eq_refl Ht) as [-> _].
    split; reflexivity.
Qed.

Lemma users_by_id_In users id a :
  In a (users_by_id users id) -> In a users /\ a_id a = id.
Proof.
  unfold users_by_id. intros Hin. apply filter_In in Hin as [Hin He].
  apply Pos.eqb_eq in He. auto.
Qed.

(** X16. When the middleware lets a request through, the token of the
    header was accepted by the token library and [req.user] is a row of
    the [users] table at that moment: its identifier is the one in the
    token, and its role is the role of that row, whatever role the token
    carries.  A token that is accepted for an identifier which has no
    row any more is answered 401, a token that is not accepted 403. *)
Theorem authenticateToken_user users authHeader token :
  header_token authHeader = Some token -> token <> "" ->
  match jwt_verify token with
  | None => authenticateToken jwt_verify users authHeader = AuthInvalidToken
  | Some decoded =>
      (forall a, In a users -> a_id a <> p_userId decoded)
      /\ authenticateToken jwt_verify users authHeader = AuthUserNotFound
      \/ exists a,
          In a users /\ a_id a = p_userId decoded
          /\ authenticateToken jwt_verify users authHeader
             = AuthNext (User (p_userId decoded) (a_role a))
  end.
Proof.
  intros Hh Hne. unfold authenticateToken. rewrite Hh.
  destruct (String.eqb_spec token ""); [contradiction|].
  destruct (jwt_verify token) as [decoded|]; [|reflexivity].
  destruct (users_by_id users (p_userId decoded)) as [|row rows] eqn:Hu.
  - left. split; [|reflexivity]. intros a Hin Hid.
    assert (Ha : In a (users_by_id users (p_userId decoded))).
    { unfold users_by_id. apply filter_In. split; [exact Hin|].
      apply Pos.eqb_eq, Hid. }
    rewrite Hu in Ha. destruct Ha.
  - right. exists row.
    destruct (users_by_id_In users (p_userId decoded) row) as [Hin Hid].
    { rewrite Hu. left. reflexivity. }
    rewrite Hid. auto.
Qed.

Lemma registerSchema_keys : NoDup (map fst (shape registerSchema)).
Proof. compute_done. Qed.

(** What an accepted registration holds. *)
Lemma registerSchema_fields body v :
  parse registerSchema body = inr v ->
  exists e pw r,
    get body "email" = JStr e /\ is_email e = true /\ get v "email" = JStr e
    /\ get body "password" = JStr pw /\ (6 <= String.length pw)%nat
    /\ get v "password" = JStr pw
    /\ get v "role" = JStr r /\ (r = "user" \/ r = "admin")
    /\ JStr r = match get body "role" with
                | JUndefined => JStr "user"
                | x => x
                end.
Proof.
  intros Hp.
  destruct (parse_value _ _ _ "email" _ Hp registerSchema_keys
              ltac:(cbn; left; reflexivity)
              ltac:(intros x; apply z_string_explains))
    as (we & Hwe & Gwe).
  destruct (parse_value _ _ _ "password" _ Hp registerSchema_keys
              ltac:(cbn; right; left; reflexivity)
              ltac:(intros x; apply z_string_explains))
    as (wp & Hwp & Gwp).
  destruct (parse_value _ _ _ "role" _ Hp registerSchema_keys
              ltac:(cbn; do 2 right; left; reflexivity)
              ltac:(intros x; apply default_explains; intros y;
                    apply z_enum_explains))
    as (wr & Hwr & Gwr).
  apply z_string_inv in Hwe as (e & He & -> & Hce).
  apply z_string_inv in Hwp as (pw & Hpw & -> & Hcp).
  apply Forall_cons_1 in Hce as [Hce _]. apply Forall_cons_1 in Hcp as [Hcp _].
  unfold ck_format in Hce. unfold ck_min in Hcp.
  destruct (is_email e) eqn:Ee; [|discriminate].
  destruct (Nat.leb_spec 6 (String.length pw)); [|discriminate].
  assert (Hr : exists r, wr = JStr r /\ (r = "user" \/ r = "admin")
                         /\ JStr r = match get body "role" with
                                     | JUndefined => JStr "user"
                                     | x => x
                                     end).
  { unfold default in Hwr. cbn [run] in Hwr.
    destruct (get body "role") as [| |b|k| |s|l|] eqn:Hb;
      try (apply z_enum_inv in Hwr as (? & ? & _); discriminate).
    - injection Hwr as <-. exists "user". auto.
    - apply z_enum_inv in Hwr as (s' & [= <-] & -> & Hs).
      exists s. split; [reflexivity|]. split; [|reflexivity].
      cbn [existsb] in Hs.
      destruct (String.eqb_spec s "user"); [auto|].
      destruct (String.eqb_spec s "admin"); [auto|discriminate]. }
  destruct Hr as (r & -> & Hr & Hbr).
  exists e, pw, r. auto 10.
Qed.

(** The login schema accepts an email in the format together with a
    password that is not empty. *)
Lemma loginSchema_accepts body e pw :
  get body "email" = JStr e -> is_email e = true ->
  get body "password" = JStr pw -> (1 <= String.length pw)%nat ->
  parse loginSchema body = inr [("email", JStr e); ("password", JStr pw)].
Proof.
  intros He Hf Hpw Hlen. rewrite parse_no_checks by reflexivity.
  rewrite (parse_fields_all (shape loginSchema) body [JStr e; JStr pw]);
    [reflexivity|].
  constructor; [|constructor; [|constructor]]; cbn [fst snd].
  - rewrite He. unfold z_string, ck_format. cbn [run]. cbn. rewrite Hf.
    reflexivity.
  - rewrite Hpw. unfold z_string, ck_min. cbn [run]. cbn.
    destruct pw; [cbn in Hlen; lia|reflexivity].
Qed.

Lemma filter_none {A K} (f : A -> K) (eqb : K -> K -> bool) (l : list A) k :
  (forall x y, eqb x y = true <-> x = y) ->
  ~ In k (map f l) -> List.filter (fun x => eqb (f x) k) l = [].
Proof.
  intros Heqb. induction l as [|x l IH]; cbn [map In List.filter];
    [reflexivity|].
  intros Hn. destruct (eqb (f x) k) eqn:E.
  - apply Heqb in E. tauto.
  - apply IH. tauto.
Qed.

(** A key that is unique in a table selects its row alone. *)
Lemma filter_unique {A K} (f : A -> K) (eqb : K -> K -> bool) (l : list A) a :
  (forall x y, eqb x y = true <-> x = y) ->
  NoDup (map f l) -> In a l -> List.filter (fun x => eqb (f x) (f a)) l = [a].
Proof.
  intros Heqb. induction l as [|x l IH]; cbn [map In List.filter];
    [intros _ []|].
  intros Hnd Hin. apply NoDup_cons in Hnd as [Hx Hnd].
  rewrite list_elem_of_In in Hx. destruct Hin as [->|Hin].
  - rewrite (proj2 (Heqb (f a) (f a)) eq_refl).
    rewrite (filter_none f eqb l (f a) Heqb Hx). reflexivity.
  - destruct (eqb (f x) (f a)) eqn:E.
    + apply Heqb in E. exfalso. apply Hx. rewrite E. apply in_map, Hin.
    + apply IH; assumption.
Qed.

Lemma users_by_email_none users e :
  users_by_email users e = [] -> ~ In e (map a_email users).
Proof.
  unfold users_by_email. intros Hf Hin.
  apply in_map_iff in Hin as (a & <- & Ha).
  assert (Hm : In a (List.filter (fun x => String.eqb (a_email x) (a_email a))
                       users)).
  { apply filter_In. split; [exact Ha|apply String.eqb_refl]. }
  rewrite Hf in Hm. destruct Hm.
Qed.

(** What a successful registration did. *)
Lemma register_created_inv users body now users1 p created token :
  register jwt_sign bcrypt_hash users body now
  = (users1, RegisterCreated p created token) ->
  exists e pw r a,
    get body "email" = JStr e /\ is_email e = true
    /\ get body "password" = JStr pw /\ (6 <= String.length pw)%nat
    /\ (r = "user" \/ r = "admin")
    /\ JStr r = match get body "role" with
                | JUndefined => JStr "user"
                | x => x
                end
    /\ ~ In e (map a_email users)
    /\ a = Account (fresh (list_to_set (map a_id users) : gset uuid))
                   e (bcrypt_hash pw) r now
    /\ users1 = (users ++ [a])%list
    /\ p = profile_of a /\ created = now /\ token = token_for jwt_sign a.
Proof.
  unfold register.
  destruct (parse registerSchema body) as [iss|v] eqn:Hp; [discriminate|].
  destruct (registerSchema_fields body v Hp)
    as (e & pw & r & He & Hf & Ge & Hpw & Hlen & Gpw & Gr & Hr & Hbr).
  rewrite Ge, Gpw, Gr. cbn [str_of].
  destruct (users_by_email users e) as [|x xs] eqn:Hu; [|discriminate].
  unfold insert_user.
  destruct (_ && _); [|discriminate].
  intros [= <- <- <- <-].
  exists e, pw, r. eexists. split; [exact He|]. split; [exact Hf|].
  split; [exact Hpw|]. split; [exact Hlen|]. split; [exact Hr|].
  split; [exact Hbr|]. split; [apply users_by_email_none, Hu|].
  split; [reflexivity|]. auto.
Qed.

(** X17. [POST /register] keeps the accounts distinct: in a table where
    no two rows share an email or an identifier, the same holds
    afterwards.  An answer other than 201 leaves the table as it was; a
    201 appended one row, with the email of the request, an email that
    no row had, the hash of the password and the role that the request
    names, [user] when it names none. *)
Theorem register_keeps_accounts_distinct users body now users1 r :
  NoDup (map a_email users) -> NoDup (map a_id users) ->
  register jwt_sign bcrypt_hash users body now = (users1, r) ->
  NoDup (map a_email users1) /\ NoDup (map a_id users1)
  /\ match r with
     | RegisterCreated p created token =>
         exists a pw,
           users1 = (users ++ [a])%list
           /\ get body "email" = JStr (a_email a)
           /\ ~ In (a_email a) (map a_email users)
           /\ get body "password" = JStr pw
           /\ a_password_hash a = bcrypt_hash pw
           /\ JStr (a_role a) = match get body "role" with
                                | JUndefined => JStr "user"
                                | x => x
                                end
           /\ p = Profile (a_id a) (a_email a) (a_role a)
     | _ => users1 = users
     end.
Proof.
  intros Hne Hni Hreg.
  destruct r as [details| |p created token|];
    try (assert (users1 = users) as ->;
         [ unfold register in Hreg;
           destruct (parse registerSchema body); [congruence|];
           destruct (users_by_email users _); [|congruence];
           destruct (insert_user users _ _ _ now) as [[? ?]|]; congruence
         | auto ]).
  apply register_created_inv in Hreg
    as (e & pw & ro & a & He & _ & Hpw & _ & _ & Hbr & Hfree & Ha & -> & -> & _).
  rewrite !map_app. cbn [map]. subst a. cbn [a_email a_id a_role a_password_hash].
  split; [|split].
  - apply NoDup_app. split; [exact Hne|]. split; [|apply NoDup_singleton].
    intros x Hx Hx'. apply list_elem_of_singleton in Hx'. subst x.
    apply Hfree, list_elem_of_In, Hx.
  - apply NoDup_app. split; [exact Hni|]. split; [|apply NoDup_singleton].
    intros x Hx Hx'. apply list_elem_of_singleton in Hx'. subst x.
    apply (is_fresh (list_to_set (map a_id users) : gset uuid)).
    apply elem_of_list_to_set, Hx.
  - eexists. exists pw. split; [reflexivity|]. cbn [a_email a_id a_role
      a_password_hash profile_of]. auto 10.
Qed.

(** X18. An account that [POST /register] has just created can log in:
    provided the password library recognises a password against its own
    hash, [POST /login] with the same body on the table after the
    registration answers 200 with the same [user] object. *)
Theorem register_then_login users body now users1 p created token :
  (forall pw, bcrypt_compare pw (bcrypt_hash pw) = true) ->
  register jwt_sign bcrypt_hash users body now
  = (users1, RegisterCreated p created token) ->
  exists token', login jwt_sign bcrypt_compare users1 body = LoginOk p token'.
Proof.
  intros Hbcrypt Hreg.
  apply register_created_inv in Hreg
    as (e & pw & ro & a & He & Hf & Hpw & Hlen & _ & _ & Hfree & Ha & -> & ->
        & _ & _).
  unfold login. rewrite (loginSchema_accepts body e pw He Hf Hpw) by lia.
  cbn [get String.eqb Ascii.eqb Bool.eqb str_of].
  unfold users_by_email. rewrite List.filter_app.
  rewrite (filter_none a_email String.eqb users e String.eqb_eq Hfree).
  subst a. cbn [List.filter a_email app]. rewrite String.eqb_refl.
  cbn [a_password_hash]. rewrite Hbcrypt. cbn [negb]. eauto.
Qed.

(** X19. [POST /demo-login] asks for no credential.  Where the table
    holds the seeded administrator, a request that names the role
    [admin] is answered with a token for that account; a request that
    carries this token passes the middleware as that account, passes
    [requireAdmin], and may delete every lead of the store, whoever owns
    it. *)
Theorem demo_login_grants_admin users a :
  NoDup (map a_email users) -> NoDup (map a_id users) ->
  In a users -> a_email a = "admin@example.com" -> a_role a = "admin" ->
  jwt_verify (token_for jwt_sign a)
  = Some (JwtPayload (a_id a) (a_email a) (a_role a)) ->
  token_for jwt_sign a <> "" -> no_space (token_for jwt_sign a) = true ->
  demo_login jwt_sign users [("role", JStr "admin")]
  = DemoOk (profile_of a) (token_for jwt_sign a)
  /\ authenticateToken jwt_verify users
       (Some ("Bearer " ++ token_for jwt_sign a))
     = AuthNext (User (a_id a) "admin")
  /\ requireAdmin (User (a_id a) "admin") = true
  /\ forall d id b,
       buyers d !! id = Some b ->
       delete_buyer d (User (a_id a) "admin") id
       = (delete_buyer_row d id, DeleteOk).
Proof.
  intros Hne Hni Hin Hemail Hrole Hverify Htok Hsp.
  split; [|split; [|split]].
  - unfold demo_login. cbn [get String.eqb Ascii.eqb Bool.eqb].
    destruct (decide (JStr "admin" = JStr "admin")) as [_|Hn]; [|congruence].
    unfold users_by_email. rewrite <- Hemail.
    rewrite (filter_unique a_email String.eqb users a String.eqb_eq Hne Hin).
    reflexivity.
  - change ("Bearer " ++ token_for jwt_sign a)
      with ("Bearer" ++ String space (token_for jwt_sign a)).
    unfold authenticateToken.
    destruct (header_token_scheme "Bearer" (token_for jwt_sign a) ""
                eq_refl Hsp) as [-> _].
    destruct (String.eqb_spec (token_for jwt_sign a) ""); [contradiction|].
    rewrite Hverify. cbn [p_userId]. unfold users_by_id.
    rewrite (filter_unique a_id Pos.eqb users a Pos.eqb_eq Hni Hin).
    rewrite Hrole. reflexivity.
  - reflexivity.
  - intros d id b Hb. unfold delete_buyer, select_buyer. rewrite Hb.
    reflexivity.
Qed.

End AuthProperties.


(** ** The migration runner *)
Section MigrationProperties.
Variable schema : Type.
Variable run_sql : string -> schema -> option schema.

Lemma string_leb_trans a : forall b c,
  String.leb a b = true -> String.leb b c = true -> String.leb a c = true.
Proof.
  unfold String.leb.
  induction a as [|x a IH]; intros [|y b] [|z c]; cbn [String.compare];
    try discriminate; try reflexivity.
  unfold Ascii.compare.
  destruct (N.compare_spec (N_of_ascii x) (N_of_ascii y)) as [E1|L1|G1];
    try discriminate;
    destruct (N.compare_spec (N_of_ascii y) (N_of_ascii z)) as [E2|L2|G2];
    try discriminate;
    destruct (N.compare_spec (N_of_ascii x) (N_of_ascii z)) as [E3|L3|G3];
    try reflexivity; try lia; try (intros _ _; reflexivity).
  apply IH.
Qed.

Lemma sort_insert_In x l y : In y (sort_insert x l) <-> y = x \/ In y l.
Proof.
  induction l as [|z l IH]; cbn [sort_insert In]; [intuition|].
  destruct (String.leb x z); cbn [In]; [intuition|]. rewrite IH. intuition.
Qed.

Lemma js_sort_In l y : In y (js_sort l) <-> In y l.
Proof.
  unfold js_sort. induction l as [|x l IH]; cbn [fold_right In]; [tauto|].
  rewrite sort_insert_In, IH. intuition.
Qed.

Lemma sort_insert_sorted x l :
  StronglySorted ascending l -> StronglySorted ascending (sort_insert x l).
Proof.
  induction 1 as [|z l Hl IH Hz]; cbn [sort_insert].
  - constructor; constructor.
  - destruct (String.leb x z) eqn:E.
    + constructor; [constructor; assumption|].
      constructor; [exact E|].
      eapply Forall_impl; [exact Hz|]. intros y Hy.
      exact (string_leb_trans x z y E Hy).
    + constructor; [exact IH|].
      apply Forall_forall. intros y Hy. apply list_elem_of_In in Hy.
      apply sort_insert_In in Hy as [->|Hy].
      * destruct (String.leb_total x z) as [Hxz|Hzx]; [congruence|exact Hzx].
      * rewrite Forall_forall in Hz. apply Hz, list_elem_of_In, Hy.
Qed.

Lemma js_sort_sorted l : StronglySorted ascending (js_sort l).
Proof.
  unfold js_sort. induction l as [|x l IH]; cbn [fold_right];
    [constructor|apply sort_insert_sorted, IH].
Qed.

Lemma filter_sorted (p : string -> bool) l :
  StronglySorted ascending l -> StronglySorted ascending (List.filter p l).
Proof.
  induction 1 as [|z l Hl IH Hz]; cbn [List.filter]; [constructor|].
  destruct (p z); [|exact IH]. constructor; [exact IH|].
  apply Forall_forall. intros y Hy. apply list_elem_of_In in Hy.
  apply filter_In in Hy as [Hy _].
  rewrite Forall_forall in Hz. apply Hz, list_elem_of_In, Hy.
Qed.

Lemma app_sorted_l (l k : list string) :
  StronglySorted ascending (l ++ k) -> StronglySorted ascending l.
Proof.
  induction l as [|x l IH]; cbn [app]; [constructor|].
  intros Hs. apply StronglySorted_inv in Hs as [Hs Hx].
  constructor; [apply IH, Hs|].
  apply Forall_app in Hx as [Hx _]. exact Hx.
Qed.

Lemma existsb_eqb_In f l : existsb (String.eqb f) l = true <-> In f l.
Proof.
  rewrite existsb_exists. split.
  - intros (x & Hx & He). apply String.eqb_eq in He. subst x. exact Hx.
  - intros Hin. exists f. split; [exact Hin|apply String.eqb_refl].
Qed.

(** The loop executes the files that were not executed, in the order of
    the list, up to the first one that fails. *)
Lemma migration_loop_inv ex files : forall d d1 ok,
  migration_loop run_sql ex files d = (d1, ok) ->
  exists done,
    m_executed d1 = (m_executed d ++ done)%list
    /\ run_all run_sql done (m_schema d) = Some (m_schema d1)
    /\ (forall f, In f done -> ~ In f (m_executed d))
    /\ NoDup done
    /\ if ok
       then done
            = List.filter (fun f => negb (existsb (String.eqb f) ex)) files
       else exists f rest,
           List.filter (fun f => negb (existsb (String.eqb f) ex)) files
           = (done ++ f :: rest)%list
           /\ run_migration run_sql f d1 = None.
Proof.
  induction files as [|f files IH]; intros d d1 ok; cbn [migration_loop].
  - intros [= <- <-]. exists []. rewrite app_nil_r.
    split; [reflexivity|]. split; [reflexivity|]. split; [intros f []|].
    split; [constructor|reflexivity].
  - cbn [List.filter]. destruct (negb (existsb (String.eqb f) ex)); [|apply IH].
    destruct (run_migration run_sql f d) as [d2|] eqn:Hrun.
    + intros Hloop. apply IH in Hloop as (done & He & Hs & Hfresh & Hnd & Hok).
      unfold run_migration in Hrun.
      destruct (run_sql f (m_schema d)) as [s|] eqn:Hsql; [|discriminate].
      destruct (existsb (String.eqb f) (m_executed d)) eqn:Hex; [discriminate|].
      injection Hrun as <-. cbn [m_executed m_schema] in *.
      assert (Hf : ~ In f (m_executed d)).
      { intros Hin. apply existsb_eqb_In in Hin. congruence. }
      exists (f :: done). rewrite He, <- app_assoc. cbn [app run_all].
      rewrite Hsql. split; [reflexivity|]. split; [exact Hs|]. split; [|split].
      * intros g [<-|Hg]; [exact Hf|].
        intros Hin. apply (Hfresh g Hg). apply in_or_app. auto.
      * apply NoDup_cons. split; [|exact Hnd].
        intros Hin. apply list_elem_of_In in Hin.
        apply (Hfresh f Hin). apply in_or_app. right. left. reflexivity.
      * destruct ok; [rewrite Hok; reflexivity|].
        destruct Hok as (g & rest & -> & Hg). exists g, rest. auto.
    + intros [= <- <-]. exists []. rewrite app_nil_r.
      split; [reflexivity|]. split; [reflexivity|]. split; [intros g []|].
      split; [constructor|]. exists f. eauto.
Qed.

Lemma pending_spec dir executed f :
  In f (pending dir executed)
  <-> In f dir /\ endsWith f ".sql" = true /\ ~ In f executed.
Proof.
  unfold pending. rewrite filter_In, js_sort_In, filter_In, negb_true_iff.
  split.
  - intros [[Hd He] Hx]. split; [exact Hd|]. split; [exact He|].
    intros Hin. apply existsb_eqb_In in Hin. congruence.
  - intros (Hd & He & Hn). split; [auto|].
    destruct (existsb (String.eqb f) executed) eqn:E; [|reflexivity].
    apply existsb_eqb_In in E. contradiction.
Qed.

Lemma pending_sorted dir executed :
  StronglySorted ascending (pending dir executed).
Proof. apply filter_sorted, js_sort_sorted. Qed.

Lemma migration_loop_skip ex files (d : migration_db schema) :
  (forall f, In f files -> In f ex) ->
  migration_loop run_sql ex files d = (d, true).
Proof.
  induction files as [|f files IH]; cbn [migration_loop]; [reflexivity|].
  intros Hall.
  rewrite (proj2 (existsb_eqb_In f ex)) by (apply Hall; left; reflexivity).
  cbn [negb]. apply IH. intros g Hg. apply Hall. right. exact Hg.
Qed.

(** X20. What a run of the migrations does.  It executes the files of
    the directory whose name ends in [.sql] and is not in the
    [migrations] table, in ascending order of the names, each in its own
    transaction, and stops at the first one that fails: the files before
    it stay executed and recorded, the failing one leaves no trace, the
    ones after it are not run.  A run that ends well has executed all of
    them. *)
Theorem runMigrations_outcome dir d d1 ok :
  runMigrations run_sql dir d = (d1, ok) ->
  exists done,
    m_executed d1 = (m_executed d ++ done)%list
    /\ run_all run_sql done (m_schema d) = Some (m_schema d1)
    /\ if ok then done = pending dir (m_executed d)
       else exists f rest,
           pending dir (m_executed d) = (done ++ f :: rest)%list
           /\ run_migration run_sql f d1 = None.
Proof.
  unfold runMigrations. intros Hloop.
  apply migration_loop_inv in Hloop as (done & He & Hs & _ & _ & Hok).
  exists done. auto.
Qed.

(** X21. The names that a run adds to the [migrations] table, whether
    it ends well or not: each is the name of a file of the directory
    that ends in [.sql] and was not in the table, they are added in
    ascending order, and none is added twice, so that a table without
    duplicates stays without duplicates. *)
Theorem runMigrations_records dir d d1 ok :
  runMigrations run_sql dir d = (d1, ok) ->
  exists done,
    m_executed d1 = (m_executed d ++ done)%list
    /\ (forall f, In f done ->
          In f dir /\ endsWith f ".sql" = true /\ ~ In f (m_executed d))
    /\ StronglySorted ascending done
    /\ NoDup done
    /\ (NoDup (m_executed d) -> NoDup (m_executed d1)).
Proof.
  unfold runMigrations. intros Hloop.
  apply migration_loop_inv in Hloop as (done & He & _ & Hfresh & Hnd & Hok).
  fold (pending dir (m_executed d)) in Hok.
  assert (Hpre : exists rest, pending dir (m_executed d) = (done ++ rest)%list).
  { destruct ok; [exists []; rewrite app_nil_r; auto|].
    destruct Hok as (f & rest & -> & _). eauto. }
  destruct Hpre as [rest Hpre].
  exists done. split; [exact He|]. split; [|split; [|split; [exact Hnd|]]].
  - intros f Hf. apply pending_spec. rewrite Hpre. apply in_or_app. auto.
  - apply (app_sorted_l done rest). rewrite <- Hpre. apply pending_sorted.
  - intros Hex. rewrite He. apply NoDup_app. split; [exact Hex|].
    split; [|exact Hnd]. intros f Hf Hf'.
    apply (Hfresh f); apply list_elem_of_In; assumption.
Qed.

(** X22. Running the migrations again after a run that ended well
    executes nothing: the second run ends well and leaves the database
    as the first one left it. *)
Theorem runMigrations_idempotent dir d d1 :
  runMigrations run_sql dir d = (d1, true) ->
  runMigrations run_sql dir d1 = (d1, true).
Proof.
  unfold runMigrations. intros Hloop.
  apply migration_loop_inv in Hloop as (done & He & _ & _ & _ & Hok).
  apply migration_loop_skip. intros f Hf. rewrite He. apply in_or_app.
  destruct (existsb (String.eqb f) (m_executed d)) eqn:Hex.
  - left. apply existsb_eqb_In, Hex.
  - right. rewrite Hok. apply filter_In. split; [exact Hf|].
    rewrite Hex. reflexivity.
Qed.

End MigrationProperties.


(** ** Reading a lead and a page of leads *)
Section ReadProperties.

Lemma insert_desc_perm h l : Permutation (insert_desc h l) (h :: l).
Proof.
  induction l as [|x l IH]; cbn [insert_desc]; [reflexivity|].
  destruct (h_changed_at x <? h_changed_at h); [reflexivity|].
  rewrite IH. apply perm_swap.
Qed.

Lemma order_by_perm l : Permutation (order_by_changed_at_desc l) l.
Proof.
  unfold order_by_changed_at_desc.
  induction l as [|x l IH]; cbn [fold_right]; [reflexivity|].
  rewrite insert_desc_perm, IH. reflexivity.
Qed.

Lemma insert_desc_sorted h l :
  StronglySorted newer_first l -> StronglySorted newer_first (insert_desc h l).
Proof.
  induction 1 as [|x l Hl IH Hx]; cbn [insert_desc].
  - constructor; constructor.
  - destruct (Z.ltb_spec (h_changed_at x) (h_changed_at h)) as [Hlt|Hge].
    + constructor; [constructor; assumption|].
      constructor; [unfold newer_first; lia|].
      eapply Forall_impl; [exact Hx|]. unfold newer_first. intros y Hy. lia.
    + constructor; [exact IH|].
      apply Forall_forall. intros y Hy. apply list_elem_of_In in Hy.
      apply (Permutation_in _ (insert_desc_perm h l)) in Hy as [<-|Hy].
      * exact Hge.
      * rewrite Forall_forall in Hx. apply Hx, list_elem_of_In, Hy.
Qed.

Lemma order_by_sorted l :
  StronglySorted newer_first (order_by_changed_at_desc l).
Proof.
  unfold order_by_changed_at_desc.
  induction l as [|x l IH]; cbn [fold_right];
    [constructor|apply insert_desc_sorted, IH].
Qed.

Lemma sorted_app_inv {A} (R : A -> A -> Prop) (l k : list A) :
  StronglySorted R (l ++ k) ->
  StronglySorted R l /\ forall x y, In x l -> In y k -> R x y.
Proof.
  induction l as [|a l IH]; cbn [app].
  - intros _. split; [constructor|intros x y []].
  - intros Hs. apply StronglySorted_inv in Hs as [Hs Ha].
    destruct (IH Hs) as [Hl Hlk]. apply Forall_app in Ha as [Hal Hak].
    split; [constructor; assumption|].
    intros x y [<-|Hx] Hy; [|apply Hlk; assumption].
    rewrite Forall_forall in Hak. apply Hak, list_elem_of_In, Hy.
Qed.

(** The handler of [GET /:id] once the store has read the identifier:
    404 exactly when no lead has it.  Otherwise it returns the lead
    together with at most five history rows, all of them rows of that
    lead, the newest first; they are the newest ones: the rows of the
    lead that are left out are no newer than any row returned, and none
    is left out unless five are returned. *)
Lemma get_buyer_found d id :
  (get_buyer d id = GetNotFound <-> buyers d !! id = None)
  /\ forall b hs,
      get_buyer d id = GetOk b hs ->
      buyers d !! id = Some b
      /\ (length hs <= 5)%nat
      /\ (forall h, In h hs -> In h (history d) /\ h_buyer h = id)
      /\ StronglySorted newer_first hs
      /\ exists rest,
          Permutation (hs ++ rest)
            (List.filter (fun h => Pos.eqb (h_buyer h) id) (history d))
          /\ (forall h r, In h hs -> In r rest ->
                h_changed_at r <= h_changed_at h)
          /\ ((length hs < 5)%nat -> rest = []).
Proof.
  unfold get_buyer, select_buyer. split.
  - destruct (buyers d !! id); split; congruence.
  - intros b hs. destruct (buyers d !! id) as [b0|]; [|discriminate].
    intros [= <- <-]. split; [reflexivity|]. unfold select_history.
    set (own := List.filter (fun h => Pos.eqb (h_buyer h) id) (history d)).
    set (sorted := order_by_changed_at_desc own).
    assert (Hsplit : (firstn 5 sorted ++ skipn 5 sorted)%list = sorted)
      by apply firstn_skipn.
    assert (Hperm : Permutation sorted own) by apply order_by_perm.
    pose proof (order_by_sorted own) as Hsorted. fold sorted in Hsorted.
    rewrite <- Hsplit in Hsorted.
    apply sorted_app_inv in Hsorted as [Hfirst Hrest].
    split; [apply firstn_le_length|]. split; [|split; [exact Hfirst|]].
    + intros h Hh.
      assert (Hown : In h own).
      { apply (Permutation_in _ Hperm). rewrite <- Hsplit.
        apply in_or_app. auto. }
      unfold own in Hown. apply filter_In in Hown as [Hin He].
      apply Pos.eqb_eq in He. auto.
    + exists (skipn 5 sorted). split; [rewrite Hsplit; exact Hperm|].
      split; [intros h r Hh Hr; exact (Hrest h r Hh Hr)|].
      intros Hlen. apply skipn_all2.
      rewrite length_firstn in Hlen. lia.
Qed.

Lemma window_nonempty {A} (l : list A) (n off : nat) :
  (0 < n)%nat -> (off < length l)%nat -> firstn n (skipn off l) <> [].
Proof.
  intros Hn Hoff Hnil.
  assert (Hlen : length (firstn n (skipn off l)) = 0%nat)
    by (rewrite Hnil; reflexivity).
  rewrite length_firstn, length_skipn in Hlen. lia.
Qed.

Lemma window_empty {A} (l : list A) (n off : nat) :
  (length l <= off)%nat -> firstn n (skipn off l) = [].
Proof. intros Hoff. rewrite skipn_all2 by exact Hoff. apply firstn_nil. Qed.

(** X24. The answer of [GET /] for page [p >= 1] and limit [l >= 1] over
    [n] matching leads.  The leads returned are the window of at most
    [l] leads that starts after the first [(p - 1) * l].  When the
    window starts inside the matches, [totalCount] is [n], [totalPages]
    is the least number of pages that hold [n] leads, and [hasNext]
    tells that leads remain after the page.  When the page lies past
    the end, no lead is returned and the answer reports a [totalCount]
    and a [totalPages] of zero, however many leads match.  [hasPrev]
    holds from the second page on. *)
Theorem list_response_window matching p l :
  1 <= p -> 1 <= l ->
  let n := Z.of_nat (length matching) in
  let answer := list_response p l (page_rows matching l ((p - 1) * l)) in
  fst answer
  = firstn (Z.to_nat l) (skipn (Z.to_nat ((p - 1) * l)) matching)
  /\ (length (fst answer) <= Z.to_nat l)%nat
  /\ (hasPrev (snd answer) = true <-> 1 < p)
  /\ if (p - 1) * l <? n
     then totalCount (snd answer) = n
          /\ (totalPages (snd answer) - 1) * l < n
             <= totalPages (snd answer) * l
          /\ (hasNext (snd answer) = true <-> p * l < n)
     else fst answer = []
          /\ totalCount (snd answer) = 0 /\ totalPages (snd answer) = 0
          /\ hasNext (snd answer) = false.
Proof.
  intros Hp Hl n answer. subst answer. unfold list_response, page_rows.
  cbn [fst snd hasPrev totalCount totalPages hasNext].
  rewrite map_map. cbn [fst]. rewrite map_id.
  split; [reflexivity|]. split; [apply firstn_le_length|].
  split; [apply Z.ltb_lt|].
  set (window := firstn (Z.to_nat l) (skipn (Z.to_nat ((p - 1) * l)) matching)).
  destruct (Z.ltb_spec ((p - 1) * l) n) as [Hin|Hout].
  - assert (Hne : window <> []).
    { apply window_nonempty; [lia|]. unfold n in Hin. nia. }
    destruct window as [|b w]; [congruence|]. cbn [map snd].
    fold n. unfold ceil_div.
    assert (Hn : 1 <= n) by nia.
    pose proof (Z.div_mod (n + l - 1) l ltac:(lia)) as Hdm.
    pose proof (Z.mod_pos_bound (n + l - 1) l ltac:(lia)) as Hmod.
    set (tp := (n + l - 1) / l) in *.
    split; [reflexivity|]. split; [nia|].
    rewrite Z.ltb_lt. split; intros Hlt; nia.
  - assert (Hw : window = []).
    { apply window_empty. unfold n in Hout. nia. }
    rewrite Hw. cbn [map]. unfold ceil_div.
    rewrite Z.add_0_l, Z.div_small by lia.
    split; [reflexivity|]. split; [reflexivity|]. split; [reflexivity|].
    apply Z.ltb_ge. lia.
Qed.

End ReadProperties.

Section GetRequest.
Context `{Platform}.

(** X23. [GET /:id] on the identifier of the path.  The answer is a
    server error exactly when the identifier is not the text of a UUID,
    and 404 exactly when it is one and no lead has it.  Otherwise the
    handler returns the lead together with at most five history rows,
    all of them rows of that lead, the newest first; they are the newest
    ones: the rows of the lead that are left out are no newer than any
    row returned, and none is left out unless five are returned. *)
Theorem get_buyer_request_spec d id :
  (get_buyer_request d id = GetServerError <-> uuid_in id = None)
  /\ (get_buyer_request d id = GetNotFound <->
      exists i, uuid_in id = Some i /\ buyers d !! i = None)
  /\ forall b hs,
      get_buyer_request d id = GetOk b hs ->
      exists i,
        uuid_in id = Some i
        /\ buyers d !! i = Some b
        /\ (length hs <= 5)%nat
        /\ (forall h, In h hs -> In h (history d) /\ h_buyer h = i)
        /\ StronglySorted newer_first hs
        /\ exists rest,
            Permutation (hs ++ rest)
              (List.filter (fun h => Pos.eqb (h_buyer h) i) (history d))
            /\ (forall h r, In h hs -> In r rest ->
                  h_changed_at r <= h_changed_at h)
            /\ ((length hs < 5)%nat -> rest = []).
Proof.
  unfold get_buyer_request. destruct (uuid_in id) as [i|] eqn:Hid.
  - destruct (get_buyer_found d i) as [Hnf Hok].
    split.
    { split; [|discriminate]. unfold get_buyer.
      destruct (select_buyer d i); discriminate. }
    split.
    { rewrite Hnf. split; [eauto|]. intros (j & [= <-] & Hj). exact Hj. }
    intros b hs Hg. exists i. split; [reflexivity|]. exact (Hok b hs Hg).
  - split; [split; reflexivity|].
    split; [split; [discriminate|intros (j & [=] & _)]|].
    intros b hs [=].
Qed.

End GetRequest.

(** ** An update that is not refused *)
Section UpdateProceeds.
Context `{Platform}.

Lemma optional_explains_any t x :
  (forall y, run t y <> inl []) -> run (optional t) x <> inl [].
Proof.
  intros Ht. unfold optional. cbn [run]. destruct (optin t); [apply Ht|].
  destruct x; try apply Ht. discriminate.
Qed.

(** Every field schema of a lead explains its failures. *)
Lemma buyerFields_explain k t x : In (k, t) buyerFields -> run t x <> inl [].
Proof.
  unfold buyerFields. cbn [In]. intros Hin.
  repeat (destruct Hin as [Hin|Hin];
          [injection Hin as _ <-;
           first [ apply z_string_explains | apply email_type_explains
                 | apply z_enum_explains | apply status_type_explains
                 | apply tags_type_explains
                 | apply optional_explains;
                   [reflexivity
                   | first [apply z_enum_explains | apply z_int_explains
                           | apply z_string_explains]] ]|]).
  destruct Hin.
Qed.

(** Every field schema of a lead hands a value that it accepts on as it
    is; only [undefined] may be replaced, by a default. *)
Lemma buyerFields_preserve k t x w :
  In (k, t) buyerFields -> run t x = inr w -> x <> JUndefined -> w = x.
Proof.
  unfold buyerFields. cbn [In]. intros Hin Hr Hx.
  repeat (destruct Hin as [Hin|Hin];
          [injection Hin as _ <-;
           first
             [ apply z_string_inv in Hr as (s & -> & -> & _); reflexivity
             | apply email_type_inv in Hr as [[-> _]|(s & -> & -> & _)];
               [contradiction|reflexivity]
             | apply z_enum_inv in Hr as (s & -> & -> & _); reflexivity
             | apply optional_enum_inv in Hr as [[-> _]|(s & -> & -> & _)];
               [contradiction|reflexivity]
             | apply budget_type_inv in Hr as [[-> _]|(n & -> & -> & _)];
               [contradiction|reflexivity]
             | apply status_type_inv in Hr as (s & _ & _ & _ & Hs);
               symmetry; apply Hs, Hx
             | apply notes_type_inv in Hr as [[-> _]|(s & -> & -> & _)];
               [contradiction|reflexivity]
             | apply tags_type_inv in Hr as (l & _ & _ & Hl);
               symmetry; apply Hl, Hx ]|]).
  destruct Hin.
Qed.

(** What the fields of the update schema make of [undefined]. *)
Lemma buyerFields_undefined k t w :
  In (k, t) buyerFields -> run (optional t) JUndefined = inr w ->
  w = JUndefined \/ (k = "status" /\ w = JStr "New")
  \/ (k = "tags" /\ w = JArr []).
Proof.
  unfold buyerFields. cbn [In]. intros Hin.
  repeat (destruct Hin as [Hin|Hin];
          [injection Hin as <- <-; intros [= <-]; auto|]).
  destruct Hin.
Qed.

Lemma partial_field_in_shape k t :
  In (k, t) buyerFields -> In (k, optional t) (shape updateBuyerSchema).
Proof.
  unfold buyerFields. cbn [In]. intros Hin.
  repeat (destruct Hin as [Hin|Hin];
          [injection Hin as <- <-; cbn; tauto|]).
  destruct Hin.
Qed.

Lemma mapped_field k c :
  mapping_get fieldMapping k = Some c -> exists t, In (k, t) buyerFields.
Proof.
  intros Hm. apply mapping_get_in in Hm.
  unfold fieldMapping in Hm. cbn [In] in Hm. unfold buyerFields.
  repeat (destruct Hm as [Hm|Hm];
          [injection Hm as <- _; eexists; cbn [In]; tauto|]).
  destruct Hm.
Qed.

(** A mapped field of the validated payload of an update: the value of
    the request where the request has one, and otherwise nothing, or the
    default of [status] or of [tags]. *)
Lemma update_payload_field body v k c :
  parse updateBuyerSchema body = inr v ->
  mapping_get fieldMapping k = Some c ->
  (get body k <> JUndefined -> get v k = get body k)
  /\ (get body k = JUndefined ->
      get v k = JUndefined \/ (k = "status" /\ get v k = JStr "New")
      \/ (k = "tags" /\ get v k = JArr [])).
Proof.
  intros Hp Hm. destruct (mapped_field k c Hm) as [t Ht].
  destruct (parse_value _ _ _ k _ Hp updateBuyerSchema_keys
              (partial_field_in_shape k t Ht)
              (fun x => optional_explains_any t x
                          (fun y => buyerFields_explain k t y Ht)))
    as (w & Hw & Gw).
  rewrite Gw. split.
  - intros Hx.
    assert (Hr : run t (get body k) = inr w).
    { revert Hw. unfold optional. cbn [run]. destruct (optin t); [auto|].
      destruct (get body k); auto. contradiction. }
    exact (buyerFields_preserve k t _ w Ht Hr Hx).
  - intros Hx. rewrite Hx in Hw. exact (buyerFields_undefined k t w Ht Hw).
Qed.

(** The validated payload of an update always holds tags, and an array
    is never identical to the stored value: every update that reaches
    the statement assigns a column and records a change. *)
Lemma update_loop_never_empty body v cols :
  parse updateBuyerSchema body = inr v ->
  fst (update_loop cols v) <> [] /\ snd (update_loop cols v) <> [].
Proof.
  intros Hp.
  pose proof (parse_nodup _ _ _ updateBuyerSchema_keys Hp) as Hnd.
  destruct (parse_value _ _ _ "tags" _ Hp updateBuyerSchema_keys
              (partial_field_in_shape "tags" tags_type
                 ltac:(unfold buyerFields; cbn [In]; tauto))
              (fun x => optional_explains_any tags_type x tags_type_explains))
    as (w & Hw & Gw).
  assert (Hl : exists l, get v "tags" = JArr l).
  { rewrite Gw. change (run (optional tags_type) (get body "tags"))
      with (run tags_type (get body "tags")) in Hw.
    apply tags_type_inv in Hw as (l & -> & _). eauto. }
  destruct Hl as [l Hl]. split.
  - rewrite update_loop_fst. intros Hnil.
    assert (Hin : In ("tags", JArr l) v).
    { rewrite <- Hl. apply in_get. rewrite Hl. discriminate. }
    assert (Hm : ("tags", empty_to_null (JArr l)) ∈ omap assignment v).
    { apply list_elem_of_omap. exists ("tags", JArr l).
      split; [apply list_elem_of_In, Hin|reflexivity]. }
    rewrite Hnil in Hm. inversion Hm.
  - intros Hnil.
    pose proof (update_loop_changes cols v "tags" Hnd) as Hc.
    rewrite Hnil, Hl in Hc. cbn [changes_get] in Hc.
    unfold change_of in Hc. cbn [String.eqb Ascii.eqb Bool.eqb] in Hc.
    change (mapping_get fieldMapping "tags") with (Some "tags") in Hc.
    cbv beta iota in Hc. destruct (get cols "tags"); discriminate Hc.
Qed.

(** An update that is not refused executes the statement of the loop:
    the answer is 200 with the new row, and one audit entry is written,
    unless the store refuses the new row. *)
Lemma put_buyer_proceeds d u id body v now cur :
  parse updateBuyerSchema body = inr v ->
  select_buyer d id = Some cur ->
  checkOwnership u (b_owner cur) = true ->
  stale v cur = false ->
  let cols := fold_left (fun c kv => set c (fst kv) (snd kv))
                (fst (update_loop (b_cols cur) v)) (b_cols cur) in
  let b1 := Buyer (b_id cur) cols (b_owner cur) (b_created cur) now in
  put_buyer d u id body now
  = if row_ok cols
    then (Db (<[id := b1]> (buyers d))
             (history d
              ++ [HistoryRow id (u_id u) now
                    (DUpdated (snd (update_loop (b_cols cur) v)))])%list,
          PutOk b1)
    else (d, PutServerError).
Proof.
  intros Hp Hsel Hown Hst cols b1. subst cols b1.
  destruct (update_loop_never_empty body v (b_cols cur) Hp) as [Hs Hc].
  pose proof (update_loop_data_columns (b_cols cur) v) as Hdata.
  unfold put_buyer. rewrite Hp. unfold put_validated.
  rewrite Hsel, Hown, Hst. cbn [negb].
  destruct (update_loop (b_cols cur) v) as [sets changes].
  cbn [fst snd] in *.
  destruct sets as [|a sets]; [congruence|].
  rewrite (update_buyer_data d id (a :: sets) now Hdata).
  unfold select_buyer in Hsel. rewrite Hsel. cbv zeta.
  destruct (row_ok _); [|reflexivity].
  destruct changes as [|ch changes]; [congruence|]. reflexivity.
Qed.

(** C2. Optimistic concurrency of [PUT /:id], for a payload that passes
    the update schema, on an existing lead that the caller may edit.
    The token is compared with the lead's [updated_at] as an instant: a
    token that denotes another instant is answered with Conflict and the
    current [updated_at], and the store is as it was.  A token that
    denotes the same instant, whatever its spelling, and an absent token
    let the update proceed: the statement of the loop is executed, the
    answer is 200 with the new row, stored under the identifier with
    [updated_at] at the time of the request, and the audit entry is
    written; only a row that the store refuses is answered with a server
    error. *)
Theorem put_buyer_concurrency d u id body now v cur :
  parse updateBuyerSchema body = inr v ->
  select_buyer d id = Some cur ->
  checkOwnership u (b_owner cur) = true ->
  let cols := fold_left (fun c kv => set c (fst kv) (snd kv))
                (fst (update_loop (b_cols cur) v)) (b_cols cur) in
  let b1 := Buyer (b_id cur) cols (b_owner cur) (b_created cur) now in
  let proceeds :=
    put_buyer d u id body now
    = if row_ok cols
      then (Db (<[id := b1]> (buyers d))
               (history d
                ++ [HistoryRow id (u_id u) now
                      (DUpdated (snd (update_loop (b_cols cur) v)))])%list,
            PutOk b1)
      else (d, PutServerError) in
  (forall token,
      get body "updatedAt" = JStr token ->
      Date_getTime token <> Some (b_updated cur) ->
      put_buyer d u id body now = (d, PutConflict (b_updated cur)))
  /\ (forall token,
        get body "updatedAt" = JStr token ->
        Date_getTime token = Some (b_updated cur) -> proceeds)
  /\ (get body "updatedAt" = JUndefined -> proceeds).
Proof.
  intros Hp Hsel Hown cols b1 proceeds.
  pose proof (validated_token body v Hp) as Htok.
  split; [|split].
  - intros token Hb Hne. rewrite Hb in Htok. destruct Htok as [Hdt Hv].
    unfold put_buyer. rewrite Hp. unfold put_validated.
    rewrite Hsel, Hown. simpl.
    assert (Hst : stale v cur = true).
    { unfold stale. rewrite Hv. simpl.
      destruct (String.eqb_spec token "") as [->|_].
      - rewrite is_datetime_nonempty in Hdt. discriminate.
      - simpl. destruct (Date_getTime token) as [p|]; [|reflexivity].
        apply negb_true_iff, Z.eqb_neq. congruence. }
    rewrite Hst. reflexivity.
  - intros token Hb Heq. rewrite Hb in Htok. destruct Htok as [Hdt Hv].
    assert (Hst : stale v cur = false).
    { unfold stale. rewrite Hv. simpl.
      destruct (String.eqb token ""); simpl; [reflexivity|].
      rewrite Heq. rewrite Z.eqb_refl. reflexivity. }
    exact (put_buyer_proceeds d u id body v now cur Hp Hsel Hown Hst).
  - intros Hb. rewrite Hb in Htok.
    assert (Hst : stale v cur = false).
    { unfold stale. rewrite Htok. reflexivity. }
    exact (put_buyer_proceeds d u id body v now cur Hp Hsel Hown Hst).
Qed.

Lemma fold_set_keys sets : forall cols : obj,
  Forall (fun kv => In (fst kv) (keys cols)) sets ->
  keys (fold_left (fun c kv => set c (fst kv) (snd kv)) sets cols) = keys cols.
Proof.
  induction sets as [|[c w] sets IH]; intros cols Hall; [reflexivity|].
  apply Forall_cons_1 in Hall as [Hc Hall]. cbn [fst snd] in Hc.
  cbn [fold_left fst snd]. rewrite IH.
  - apply keys_set, Hc.
  - rewrite keys_set by exact Hc. exact Hall.
Qed.

(** A row that differs from an accepted row as [kept_or_defaulted] says
    is accepted. *)
Lemma row_ok_kept cols0 cols1 :
  row_ok cols0 = true -> kept_or_defaulted cols0 cols1 -> row_ok cols1 = true.
Proof.
  intros Hok [Hk Hg]. unfold row_ok, budget_check, bhk_required_check in *.
  repeat (apply andb_prop in Hok as [Hok ?]).
  rewrite Hk.
  repeat (apply andb_true_intro; split); try assumption;
    repeat match goal with
           | |- context [get cols1 ?c] =>
               destruct (Hg c) as [->|[[? ->]|[[? ->]|[? ->]]]];
               try discriminate
           end;
    try assumption;
    repeat match goal with
           | E : get cols0 _ = JStr "" |- _ => rewrite E in *; clear E
           end;
    cbn in *; try discriminate; try reflexivity; try assumption.
Qed.

(** C5, amended. An update that supplies stored values only, for a
    payload that passes the update schema, on an existing lead whose row
    satisfies the constraints of the table, by a caller who may edit it
    and without a stale token: the update succeeds, the answer is the
    new row, stored under the identifier; every field that the request
    supplies keeps its stored value (a stored empty string becomes
    null); owner and creation time stay; and [updated_at] becomes the
    time of the request. *)
Theorem put_buyer_noop d u id body now v cur :
  parse updateBuyerSchema body = inr v ->
  select_buyer d id = Some cur ->
  checkOwnership u (b_owner cur) = true ->
  stale v cur = false ->
  row_ok (b_cols cur) = true ->
  (forall k c, mapping_get fieldMapping k = Some c ->
               get body k = JUndefined \/ get body k = get (b_cols cur) c) ->
  exists d1 b1,
    put_buyer d u id body now = (d1, PutOk b1)
    /\ buyers d1 !! id = Some b1
    /\ b_updated b1 = now
    /\ b_owner b1 = b_owner cur /\ b_created b1 = b_created cur
    /\ (forall k c, mapping_get fieldMapping k = Some c ->
                    get body k <> JUndefined ->
                    get (b_cols b1) c = empty_to_null (get (b_cols cur) c)).
Proof.
  intros Hp Hsel Hown Hst Hok Hsame.
  pose proof (put_buyer_proceeds d u id body v now cur Hp Hsel Hown Hst) as Hput.
  cbv zeta in Hput.
  pose proof (parse_nodup _ _ _ updateBuyerSchema_keys Hp) as Hnd.
  pose proof (assignments_nodup v Hnd) as Hsets.
  rewrite update_loop_fst in Hput.
  set (cols := fold_left (fun c kv => set c (fst kv) (snd kv))
                 (omap assignment v) (b_cols cur)) in *.
  assert (Hkeys : keys (b_cols cur) = data_columns).
  { unfold row_ok in Hok. repeat (apply andb_prop in Hok as [Hok _]).
    destruct (decide (keys (b_cols cur) = data_columns));
      [assumption|discriminate]. }
  assert (Hentry : forall c w,
             In (c, w) (omap assignment v) ->
             exists k, mapping_get fieldMapping k = Some c
                       /\ get v k <> JUndefined /\ w = empty_to_null (get v k)).
  { intros c w Hin.
    apply list_elem_of_In, list_elem_of_omap in Hin as ([k val] & Hk & Ha).
    apply list_elem_of_In in Hk.
    apply assignment_inv in Ha as (Hm & Hval & ->).
    rewrite <- (get_in v k val Hnd Hk) in *. eauto. }
  assert (Hget : forall c,
             (exists k, mapping_get fieldMapping k = Some c
                        /\ get v k <> JUndefined
                        /\ get cols c = empty_to_null (get v k))
             \/ get cols c = get (b_cols cur) c).
  { intros c. destruct (in_dec string_dec c (map fst (omap assignment v)))
      as [Hin|Hnot].
    - left. apply in_map_iff in Hin as ([c' w] & <- & Hin). cbn [fst].
      destruct (Hentry c' w Hin) as (k & Hm & Hd & ->).
      exists k. split; [exact Hm|]. split; [exact Hd|].
      apply fold_set_get_in; assumption.
    - right. apply fold_set_get_notin, Hnot. }
  assert (Hkept : kept_or_defaulted (b_cols cur) cols).
  { split.
    - apply fold_set_keys. apply Forall_forall. intros [c w] Hin.
      apply list_elem_of_In in Hin.
      destruct (Hentry c w Hin) as (k & Hm & _). cbn [fst]. rewrite Hkeys.
      exact (mapping_get_column k c Hm).
    - intros c. destruct (Hget c) as [(k & Hm & Hd & Hc)|Hc]; rewrite Hc;
        [|auto].
      destruct (update_payload_field body v k c Hp Hm) as [Hdef Hundef].
      destruct (decide (get body k = JUndefined)) as [Hb|Hbd].
      + destruct (Hundef Hb) as [Hu|[[-> Hv]|[-> Hv]]]; [contradiction| |].
        * rewrite Hv.
          change (mapping_get fieldMapping "status") with (Some "status") in Hm.
          injection Hm as <-. right. right. left. split; reflexivity.
        * rewrite Hv.
          change (mapping_get fieldMapping "tags") with (Some "tags") in Hm.
          injection Hm as <-. right. right. right. split; reflexivity.
      + destruct (Hsame k c Hm) as [?|Hb]; [contradiction|].
        rewrite (Hdef Hbd), Hb. unfold empty_to_null.
        destruct (decide (get (b_cols cur) c = JStr "")); auto. }
  rewrite (row_ok_kept _ _ Hok Hkept) in Hput.
  eexists. eexists. split; [exact Hput|]. cbn [buyers b_updated b_owner b_created b_cols].
  split; [apply lookup_insert_eq|]. split; [reflexivity|].
  split; [reflexivity|]. split; [reflexivity|].
  intros k c Hm Hbd.
  destruct (update_payload_field body v k c Hp Hm) as [Hdef _].
  assert (Hin : In (c, empty_to_null (get v k)) (omap assignment v)).
  { apply list_elem_of_In, list_elem_of_omap. exists (k, get v k). split.
    - apply list_elem_of_In, in_get. rewrite (Hdef Hbd). exact Hbd.
    - unfold assignment, assigned_column. cbn [fst snd].
      destruct (String.eqb_spec k "updatedAt") as [->|_];
        [discriminate Hm|].
      rewrite Hm. rewrite (Hdef Hbd).
      destruct (get body k); congruence. }
  unfold cols. rewrite (fold_set_get_in _ (b_cols cur) c _ Hsets Hin).
  rewrite (Hdef Hbd). destruct (Hsame k c Hm) as [?|Hs];
    [contradiction|rewrite Hs; reflexivity].
Qed.

End UpdateProceeds.

(** ** The handlers on the sample data *)
Section HandlerExamples.
Import Sample SampleLeads.

Lemma bhk_required_witness :
  get csv_no_bhk "propertyType" = JStr "Apartment"
  /\ get csv_no_bhk "bhk" = JUndefined
  /\ is_ok (parse buyerSchema csv_no_bhk) = false
  /\ is_ok (parse csvRowSchema csv_no_bhk) = false.
Proof.
  split; [reflexivity|]. split; [reflexivity|].
  apply (bhk_required csv_no_bhk "Apartment");
    [reflexivity | left; reflexivity | left; reflexivity].
Defined.

Lemma villa_payload_accepted : parse buyerSchema villa_payload = inr villa_validated.
Proof. vm_compute. reflexivity. Qed.

Lemma accepted_budgets_ordered_witness :
  parse buyerSchema villa_payload = inr villa_validated
  /\ get villa_validated "budgetMin" = JNum 8000000
  /\ get villa_validated "budgetMax" = JNum 12000000
  /\ 8000000 <= 12000000.
Proof.
  split; [exact villa_payload_accepted|]. split; [reflexivity|].
  split; [reflexivity|].
  apply (accepted_budgets_ordered villa_payload villa_validated);
    [left; exact villa_payload_accepted | reflexivity | reflexivity
    | discriminate | discriminate].
Defined.

Lemma post_buyer_created_witness :
  parse buyerSchema villa_payload = inr villa_validated
  /\ payload_free_of_nul villa_validated = true
  /\ exists b,
      post_buyer db1 bob villa_payload later
      = (Db (<[b_id b := b]> (buyers db1))
            (history db1
             ++ [HistoryRow (b_id b) (u_id bob) later
                   (DCreated villa_validated)])%list,
         PostCreated b)
      /\ buyers db1 !! b_id b = None
      /\ b_owner b = u_id bob /\ b_cols b = insert_columns villa_validated
      /\ b_created b = later /\ b_updated b = later
      /\ row_ok (b_cols b) = true.
Proof.
  split; [exact villa_payload_accepted|]. split; [vm_compute; reflexivity|].
  apply (post_buyer_created db1 bob villa_payload later villa_validated).
  - exact villa_payload_accepted.
  - intros n [= <-]. vm_compute. discriminate.
  - intros n [= <-]. vm_compute. discriminate.
  - intros s [= <-]. vm_compute. lia.
  - vm_compute. reflexivity.
Defined.

Lemma big_budget_accepted :
  parse buyerSchema big_budget_lead = inr big_budget_validated.
Proof. vm_compute. reflexivity. Qed.

Lemma post_buyer_budget_overflow_witness :
  parse buyerSchema big_budget_lead = inr big_budget_validated
  /\ get big_budget_validated "budgetMax" = JNum 3000000000
  /\ INT4_MAX < 3000000000
  /\ post_buyer db1 bob big_budget_lead later = (db1, PostServerError).
Proof.
  split; [exact big_budget_accepted|]. split; [reflexivity|].
  split; [reflexivity|].
  apply (post_buyer_budget_overflow db1 bob big_budget_lead later
           big_budget_validated 3000000000);
    [exact big_budget_accepted | right; reflexivity | reflexivity].
Defined.

Lemma rename_lead1 :
  put_buyer db1 alice 1%positive rename_body later
  = (fst (put_buyer db1 alice 1%positive rename_body later),
     PutOk renamed_lead1).
Proof. vm_compute. reflexivity. Qed.

Lemma put_buyer_concurrency_witness :
  parse updateBuyerSchema rename_body = inr rename_validated
  /\ select_buyer db1 1%positive = Some lead1
  /\ checkOwnership alice (b_owner lead1) = true
  /\ get rename_body "updatedAt" = JUndefined
  /\ put_buyer db1 alice 1%positive rename_body later
     = (Db (<[1%positive := renamed_lead1]> (buyers db1))
           (history db1
            ++ [HistoryRow 1%positive 1%positive later
                  (DUpdated
                     (snd (update_loop (b_cols lead1) rename_validated)))])%list,
        PutOk renamed_lead1).
Proof.
  assert (Hp : parse updateBuyerSchema rename_body = inr rename_validated)
    by (vm_compute; reflexivity).
  split; [exact Hp|]. split; [exact db1_lead1|]. split; [reflexivity|].
  split; [reflexivity|].
  destruct (put_buyer_concurrency db1 alice 1%positive rename_body later
              rename_validated lead1 Hp db1_lead1 eq_refl) as (_ & _ & Hno).
  rewrite (Hno eq_refl). reflexivity.
Defined.

(** A token of another instant is refused, and nothing is written. *)
Example stale_token_conflict :
  put_buyer db1 alice 1%positive
    [("fullName", JStr "Asha R. Rao"); ("updatedAt", JStr t1)] later
  = (db1, PutConflict (b_updated lead1)).
Proof. vm_compute. reflexivity. Qed.

Lemma put_buyer_noop_witness :
  parse updateBuyerSchema same_name_body = inr same_name_validated
  /\ select_buyer db1 1%positive = Some lead1
  /\ checkOwnership alice (b_owner lead1) = true
  /\ stale same_name_validated lead1 = false
  /\ row_ok (b_cols lead1) = true
  /\ get same_name_body "fullName" = get (b_cols lead1) "full_name"
  /\ exists d1 b1,
      put_buyer db1 alice 1%positive same_name_body later = (d1, PutOk b1)
      /\ buyers d1 !! 1%positive = Some b1
      /\ b_updated b1 = later
      /\ b_owner b1 = b_owner lead1 /\ b_created b1 = b_created lead1
      /\ (forall k c, mapping_get fieldMapping k = Some c ->
                      get same_name_body k <> JUndefined ->
                      get (b_cols b1) c = empty_to_null (get (b_cols lead1) c)).
Proof.
  assert (Hp : parse updateBuyerSchema same_name_body = inr same_name_validated)
    by (vm_compute; reflexivity).
  assert (Hok : row_ok (b_cols lead1) = true) by (vm_compute; reflexivity).
  split; [exact Hp|]. split; [exact db1_lead1|]. split; [reflexivity|].
  split; [reflexivity|]. split; [exact Hok|]. split; [reflexivity|].
  apply (put_buyer_noop db1 alice 1%positive same_name_body later
           same_name_validated lead1 Hp db1_lead1 eq_refl eq_refl Hok).
  intros k c Hm. destruct (String.eqb_spec k "fullName") as [->|Hne].
  - right. cbn in Hm. injection Hm as <-. reflexivity.
  - left. unfold same_name_body. cbn [get].
    destruct (String.eqb_spec "fullName" k); [congruence|reflexivity].
Defined.

Lemma put_buyer_writes_supplied_fields_witness :
  put_buyer db1 alice 1%positive rename_body later
  = (fst (put_buyer db1 alice 1%positive rename_body later),
     PutOk renamed_lead1)
  /\ exists v cur,
      parse updateBuyerSchema rename_body = inr v
      /\ buyers db1 !! 1%positive = Some cur
      /\ buyers (fst (put_buyer db1 alice 1%positive rename_body later))
           !! 1%positive = Some renamed_lead1
      /\ (forall i, i <> 1%positive ->
            buyers (fst (put_buyer db1 alice 1%positive rename_body later)) !! i
            = buyers db1 !! i)
      /\ (forall k c,
            mapping_get fieldMapping k = Some c ->
            get (b_cols renamed_lead1) c
            = if decide (get v k = JUndefined) then get (b_cols cur) c
              else empty_to_null (get v k))
      /\ b_owner renamed_lead1 = b_owner cur
      /\ b_created renamed_lead1 = b_created cur
      /\ b_updated renamed_lead1 = later
      /\ row_ok (b_cols renamed_lead1) = true.
Proof.
  split; [exact rename_lead1|].
  exact (put_buyer_writes_supplied_fields db1 alice 1%positive rename_body
           later _ renamed_lead1 rename_lead1).
Defined.

Lemma put_buyer_history_witness :
  put_buyer db1 alice 1%positive rename_body later
  = (fst (put_buyer db1 alice 1%positive rename_body later),
     PutOk renamed_lead1)
  /\ exists v cur changes,
      parse updateBuyerSchema rename_body = inr v
      /\ buyers db1 !! 1%positive = Some cur
      /\ (forall k, changes_get changes k = change_of (b_cols cur) k (get v k))
      /\ history (fst (put_buyer db1 alice 1%positive rename_body later))
         = (history db1
            ++ match changes with
               | [] => []
               | ch => [HistoryRow 1%positive (u_id alice) later (DUpdated ch)]
               end)%list.
Proof.
  split; [exact rename_lead1|].
  exact (put_buyer_history db1 alice 1%positive rename_body later _
           renamed_lead1 rename_lead1).
Defined.

Lemma import_apartment :
  import_buyers db1 alice [csv_apartment] later
  = (fst (import_buyers db1 alice [csv_apartment] later),
     ImportOk 1 [imported_apartment]).
Proof. vm_compute. reflexivity. Qed.

Lemma import_buyers_committed_witness :
  import_buyers db1 alice [csv_apartment] later
  = (fst (import_buyers db1 alice [csv_apartment] later),
     ImportOk 1 [imported_apartment])
  /\ 1%nat = length [csv_apartment]
  /\ history (fst (import_buyers db1 alice [csv_apartment] later))
     = (history db1
        ++ [HistoryRow 2%positive (u_id alice) later
              (DImported csv_apartment_validated)])%list.
Proof.
  split; [exact import_apartment|].
  destruct (import_buyers_committed db1 alice [csv_apartment] later _ 1
              [imported_apartment] import_apartment)
    as (Hn & _ & validRows & _ & _ & _ & _ & _ & _).
  split; [exact Hn|]. vm_compute. reflexivity.
Defined.

Lemma import_buyers_rollback_witness :
  (length [csv_apartment; csv_big_budget] <= 200)%nat
  /\ row_ok (insert_columns csv_big_budget_validated) = false
  /\ import_buyers db1 alice [csv_apartment; csv_big_budget] later
     = (db1, ImportServerError).
Proof.
  split; [cbn; lia|]. split; [vm_compute; reflexivity|].
  apply (import_buyers_rollback db1 alice [csv_apartment; csv_big_budget] later
           [csv_apartment_validated; csv_big_budget_validated]
           csv_big_budget_validated).
  - cbn. lia.
  - constructor; [vm_compute; reflexivity|].
    constructor; [vm_compute; reflexivity|constructor].
  - right. left. reflexivity.
  - vm_compute. reflexivity.
Defined.

Lemma mohali_query_statement :
  list_buyers_query mohali_query = inr mohali_statement.
Proof. vm_compute. reflexivity. Qed.



Lemma list_buyers_filters_witness :
  list_buyers_query mohali_query = inr mohali_statement
  /\ q_filters mohali_statement
     = add_filter "b.timeline" (get mohali_query "timeline")
         (add_filter "b.status" (get mohali_query "status")
            (add_filter "b.property_type" (get mohali_query "propertyType")
               (add_filter "b.city" (get mohali_query "city") [])))
  /\ q_search mohali_statement = Some "%rao%".
Proof.
  split; [exact mohali_query_statement|].
  destruct (list_buyers_filters mohali_query mohali_statement
              mohali_query_statement) as (Hf & _ & Hs).
  split; [exact Hf|]. exact Hs.
Defined.

Lemma list_response_window_witness :
  1 <= 2
  /\ fst (list_response 2 2 (page_rows [lead1; villa; villa_odd_tags] 2 2))
     = [villa_odd_tags]
  /\ totalCount (snd (list_response 2 2
                        (page_rows [lead1; villa; villa_odd_tags] 2 2))) = 3
  /\ (hasPrev (snd (list_response 2 2
                      (page_rows [lead1; villa; villa_odd_tags] 2 2))) = true
      <-> 1 < 2).
Proof.
  split; [lia|].
  pose proof (list_response_window [lead1; villa; villa_odd_tags] 2 2
                ltac:(lia) ltac:(lia)) as Hw.
  cbv zeta in Hw.
  change ((2 - 1) * 2) with 2 in Hw.
  change (2 <? Z.of_nat (length [lead1; villa; villa_odd_tags])) with true in Hw.
  destruct Hw as (Hfst & _ & Hprev & Hcount & _).
  split; [exact Hfst|]. split; [exact Hcount|exact Hprev].
Defined.

(** A page past the end reports that nothing matches. *)
Example page_past_the_end :
  list_response 5 2 (page_rows [lead1; villa; villa_odd_tags] 2 8)
  = ([], Pagination 5 2 0 0 false true).
Proof. reflexivity. Qed.

End HandlerExamples.

(** ** Accounts and migrations on the sample data *)
Section AccountExamples.
Import Sample SampleAuth SampleMigrations.

Lemma authenticateToken_user_witness :
  header_token (Some "Bearer tok-2") = Some "tok-2" /\ "tok-2" <> ""
  /\ authenticateToken sample_verify seeded (Some "Bearer tok-2")
     = AuthNext (User 2%positive "admin").
Proof.
  split; [reflexivity|]. split; [discriminate|].
  pose proof (authenticateToken_user sample_verify seeded
                (Some "Bearer tok-2") "tok-2" eq_refl
                ltac:(discriminate)) as Hu.
  change (sample_verify "tok-2")
    with (Some (JwtPayload 2%positive "admin@example.com" "admin")) in Hu.
  cbn [p_userId] in Hu. destruct Hu as [[_ Hu]|(a & _ & _ & Hu)].
  - vm_compute in Hu. discriminate.
  - vm_compute. reflexivity.
Defined.

Lemma register_ravi :
  register sample_sign sample_hash seeded ravi_registration later
  = ((seeded ++ [ravi_account])%list,
     RegisterCreated (Profile 3%positive "ravi@example.com" "user") later
       "tok-3").
Proof. vm_compute. reflexivity. Qed.

Lemma register_keeps_accounts_distinct_witness :
  NoDup (map a_email seeded) /\ NoDup (map a_id seeded)
  /\ register sample_sign sample_hash seeded ravi_registration later
     = ((seeded ++ [ravi_account])%list,
        RegisterCreated (Profile 3%positive "ravi@example.com" "user") later
          "tok-3")
  /\ NoDup (map a_email (seeded ++ [ravi_account]))
  /\ NoDup (map a_id (seeded ++ [ravi_account])).
Proof.
  assert (He : NoDup (map a_email seeded)) by compute_done.
  assert (Hi : NoDup (map a_id seeded)) by compute_done.
  split; [exact He|]. split; [exact Hi|]. split; [exact register_ravi|].
  destruct (register_keeps_accounts_distinct sample_sign sample_hash seeded
              ravi_registration later _ _ He Hi register_ravi)
    as (He1 & Hi1 & _).
  split; [exact He1|exact Hi1].
Defined.

Lemma register_then_login_witness :
  (forall pw, sample_compare pw (sample_hash pw) = true)
  /\ register sample_sign sample_hash seeded ravi_registration later
     = ((seeded ++ [ravi_account])%list,
        RegisterCreated (Profile 3%positive "ravi@example.com" "user") later
          "tok-3")
  /\ exists token',
      login sample_sign sample_compare (seeded ++ [ravi_account])
        ravi_registration
      = LoginOk (Profile 3%positive "ravi@example.com" "user") token'.
Proof.
  assert (Hb : forall pw, sample_compare pw (sample_hash pw) = true).
  { intros pw. unfold sample_compare. apply String.eqb_refl. }
  split; [exact Hb|]. split; [exact register_ravi|].
  exact (register_then_login sample_sign sample_hash sample_compare seeded
           ravi_registration later _ _ _ _ Hb register_ravi).
Defined.

Lemma demo_login_grants_admin_witness :
  NoDup (map a_email seeded) /\ NoDup (map a_id seeded)
  /\ In admin_account seeded
  /\ sample_verify (token_for sample_sign admin_account)
     = Some (JwtPayload 2%positive "admin@example.com" "admin")
  /\ demo_login sample_sign seeded [("role", JStr "admin")]
     = DemoOk (profile_of admin_account) (token_for sample_sign admin_account)
  /\ authenticateToken sample_verify seeded
       (Some ("Bearer " ++ token_for sample_sign admin_account))
     = AuthNext (User 2%positive "admin")
  /\ delete_buyer db1 (User 2%positive "admin") 1%positive
     = (delete_buyer_row db1 1%positive, DeleteOk).
Proof.
  assert (He : NoDup (map a_email seeded)) by compute_done.
  assert (Hi : NoDup (map a_id seeded)) by compute_done.
  assert (Hin : In admin_account seeded) by (right; left; reflexivity).
  assert (Hv : sample_verify (token_for sample_sign admin_account)
               = Some (JwtPayload 2%positive "admin@example.com" "admin"))
    by (vm_compute; reflexivity).
  split; [exact He|]. split; [exact Hi|]. split; [exact Hin|].
  split; [exact Hv|].
  destruct (demo_login_grants_admin sample_sign sample_verify seeded
              admin_account He Hi Hin eq_refl eq_refl Hv
              ltac:(vm_compute; discriminate) ltac:(vm_compute; reflexivity))
    as (Hd & Ha & _ & Hdel).
  split; [exact Hd|]. split; [exact Ha|].
  exact (Hdel db1 1%positive lead1 db1_lead1).
Defined.

Lemma migrate_empty_db :
  runMigrations sample_run_sql migrations_dir empty_db = (migrated_db, true).
Proof. vm_compute. reflexivity. Qed.

Lemma runMigrations_outcome_witness :
  runMigrations sample_run_sql migrations_dir empty_db = (migrated_db, true)
  /\ exists done,
      m_executed migrated_db = (m_executed empty_db ++ done)%list
      /\ run_all sample_run_sql done (m_schema empty_db)
         = Some (m_schema migrated_db)
      /\ done = pending migrations_dir (m_executed empty_db).
Proof.
  split; [exact migrate_empty_db|].
  exact (runMigrations_outcome (list string) sample_run_sql migrations_dir
           empty_db migrated_db true migrate_empty_db).
Defined.

Lemma runMigrations_records_witness :
  runMigrations sample_run_sql broken_dir empty_db = (migrated_db, false)
  /\ exists done,
      m_executed migrated_db = (m_executed empty_db ++ done)%list
      /\ (forall f, In f done ->
            In f broken_dir /\ endsWith f ".sql" = true
            /\ ~ In f (m_executed empty_db))
      /\ StronglySorted ascending done
      /\ NoDup done
      /\ (NoDup (m_executed empty_db) -> NoDup (m_executed migrated_db)).
Proof.
  assert (Hr : runMigrations sample_run_sql broken_dir empty_db
               = (migrated_db, false)) by (vm_compute; reflexivity).
  split; [exact Hr|].
  exact (runMigrations_records (list string) sample_run_sql broken_dir
           empty_db migrated_db false Hr).
Defined.

Lemma runMigrations_idempotent_witness :
  runMigrations sample_run_sql migrations_dir empty_db = (migrated_db, true)
  /\ runMigrations sample_run_sql migrations_dir migrated_db
     = (migrated_db, true).
Proof.
  split; [exact migrate_empty_db|].
  exact (runMigrations_idempotent (list string) sample_run_sql migrations_dir
           empty_db migrated_db migrate_empty_db).
Defined.

End AccountExamples.
